(** * ansible-pull: a shallow embedding of [lib/ansible/cli/pull.py]

    The development follows the source file top to bottom:
    - Python text helpers ([os.path.join], [str.split], [in] on bytes,
      [random.randint]);
    - the [Options] object that [optparse] fills in, and the instance
      state of [PullCLI] ([self.options], [self.scm_args], [self.args]);
    - the platform: what the file imports (the interpreter's [int], [os],
      [shutil], [run_cmd], [parse_kv], ...), as an interface;
    - a state-and-exception monad that threads the instance, the operating
      system and the trace of calls made to [display], [run_cmd], [os] and
      [shutil];
    - [parse], [run], [try_playbook], [select_playbook] and [_get_inv_cli];
    - the properties of option reconciliation, playbook selection and the
      execution sequence, and worked examples on a small platform. *)

From stdpp Require Import gmap strings list pretty.
From Stdlib Require Import ZArith Lia Ascii String.

Local Open Scope string_scope.
Local Open Scope Z_scope.

(** ** Python text helpers *)

Module Py.

(** The double quote character, as a one-character string. *)
Definition dquote : string := String (ascii_of_nat 34) EmptyString.

(** The newline character, as a one-character string. *)
Definition newline : string := String (ascii_of_nat 10) EmptyString.

(** [sep.join(l)] *)
Fixpoint join (sep : string) (l : list string) : string :=
  match l with
  | [] => EmptyString
  | [x] => x
  | x :: rest => x +:+ sep +:+ join sep rest
  end.

(** [s.startswith(p)] *)
Fixpoint startswith (p s : string) : bool :=
  match p, s with
  | EmptyString, _ => true
  | String a p', String b s' => if Ascii.eqb a b then startswith p' s' else false
  | String _ _, EmptyString => false
  end.

(** [s.endswith(c)] for a one-character suffix. *)
Fixpoint endswith_char (c : ascii) (s : string) : bool :=
  match s with
  | EmptyString => false
  | String a EmptyString => Ascii.eqb a c
  | String _ s' => endswith_char c s'
  end.

(** [needle in hay] on [str] and on [bytes]: substring test. *)
Fixpoint contains (needle hay : string) : bool :=
  if startswith needle hay then true
  else match hay with
       | EmptyString => false
       | String _ hay' => contains needle hay'
       end.

(** [s.split(c)[0]]: the text before the first occurrence of [c], the whole
    of [s] when [c] does not occur. *)
Fixpoint split_head (c : ascii) (s : string) : string :=
  match s with
  | EmptyString => EmptyString
  | String a s' => if Ascii.eqb a c then EmptyString else String a (split_head c s')
  end.

(** [os.path.join(a, b)] of [posixpath]: an absolute [b] replaces [a]; a
    separator is inserted unless [a] is empty or already ends with one. *)
Definition os_path_join (a b : string) : string :=
  if startswith "/" b then b
  else if bool_decide (a = EmptyString) || endswith_char "/"%char a then a +:+ b
  else a +:+ "/" +:+ b.

(** Truth value of a [str]. *)
Definition truthy_str (s : string) : bool := negb (bool_decide (s = EmptyString)).

(** Truth value of a value that is [None] or a [str]. *)
Definition truthy_opt (o : option string) : bool :=
  match o with
  | None => false
  | Some s => truthy_str s
  end.

(** *** Decimal integer literals

    The texts that [int] accepts in every version of the interpreter:
    surrounding ASCII white space is stripped, one sign is allowed, and at
    least one decimal digit must follow.  The small platform below uses this
    function for [int]. *)

Definition is_space (a : ascii) : bool :=
  let n := nat_of_ascii a in
  (Nat.eqb n 32 || (Nat.leb 9 n && Nat.leb n 13))%bool.

Fixpoint lstrip (s : string) : string :=
  match s with
  | String a s' => if is_space a then lstrip s' else s
  | EmptyString => EmptyString
  end.

Fixpoint all_space (s : string) : bool :=
  match s with
  | EmptyString => true
  | String a s' => is_space a && all_space s'
  end.

Definition digit_val (a : ascii) : option Z :=
  let n := nat_of_ascii a in
  if (Nat.leb 48 n && Nat.leb n 57)%bool then Some (Z.of_nat (n - 48)) else None.

(** Reads digits with accumulator [acc]; [seen] records that one digit was
    read.  Trailing white space is accepted after the last digit. *)
Fixpoint digits (acc : Z) (seen : bool) (s : string) : option Z :=
  match s with
  | EmptyString => if seen then Some acc else None
  | String a s' =>
      match digit_val a with
      | Some d => digits (10 * acc + d) true s'
      | None => if seen && all_space s then Some acc else None
      end
  end.

Definition int (text : string) : option Z :=
  match lstrip text with
  | String "-" s' => Z.opp <$> digits 0 false s'
  | String "+" s' => digits 0 false s'
  | s => digits 0 false s
  end.

(** *** [random.randint(a, b)]

    [randrange(a, b + 1)] raises [ValueError] on an empty range ([None]
    here); otherwise the draw [bits], taken from the generator, selects one
    of the [b - a + 1] values. *)
Definition randint (bits : Z) (a b : Z) : option Z :=
  if b - a + 1 <=? 0 then None else Some (a + bits mod (b - a + 1)).

End Py.

(** ** The instance state of [PullCLI] *)

(** [self.options.sleep] is [None] or the text given to [-s] when [optparse]
    returns, and an [int] once [parse] has resolved it. *)
Inductive SleepVal :=
| SleepNone
| SleepStr (text : string)
| SleepInt (secs : Z).

(** One entry of [self.options.inventory]: a [str] or a [list] of [str]. *)
Inductive InvSource :=
| InvStr (inv : string)
| InvList (invs : list string).

(** [self.options].  A flag whose value is a [str] or [None] is a [string]:
    the source only ever tests such a value for truth before using it, and
    [None] and the empty text are both false, so an absent flag is the empty
    text.  [fullclone] has no default and is [None] when absent, which is
    false as well. *)
Record Options := mkOptions {
  dest : string;
  sleep : SleepVal;
  url : string;
  module_args : string;
  module_name : string;
  verbosity : Z;
  inventory : list InvSource;
  checkout : string;
  clean : bool;
  accept_host_key : bool;
  fullclone : bool;
  private_key_file : string;
  tracksubs : bool;
  verify : bool;
  extra_vars : list string;
  force : bool;
  ifchanged : bool;
  vault_password_files : list string;
  vault_ids : list string;
  ask_sudo_pass : bool;
  ask_su_pass : bool;
  become_ask_pass : bool;
  skip_tags : list string;
  tags : list string;
  subset : string;
  check : bool;
  diff : bool;
  purge : bool
}.

Definition set_dest (d : string) (o : Options) : Options :=
  mkOptions d (sleep o) (url o) (module_args o) (module_name o) (verbosity o)
    (inventory o) (checkout o) (clean o) (accept_host_key o) (fullclone o)
    (private_key_file o) (tracksubs o) (verify o) (extra_vars o) (force o)
    (ifchanged o) (vault_password_files o) (vault_ids o) (ask_sudo_pass o)
    (ask_su_pass o) (become_ask_pass o) (skip_tags o) (tags o) (subset o)
    (check o) (diff o) (purge o).

Definition set_sleep (s : SleepVal) (o : Options) : Options :=
  mkOptions (dest o) s (url o) (module_args o) (module_name o) (verbosity o)
    (inventory o) (checkout o) (clean o) (accept_host_key o) (fullclone o)
    (private_key_file o) (tracksubs o) (verify o) (extra_vars o) (force o)
    (ifchanged o) (vault_password_files o) (vault_ids o) (ask_sudo_pass o)
    (ask_su_pass o) (become_ask_pass o) (skip_tags o) (tags o) (subset o)
    (check o) (diff o) (purge o).

(** [self]: the options, the generic argument map and the positional
    arguments. *)
Record PullCLI := mkPullCLI {
  options : Options;
  scm_args : gmap string string;
  args : list (option string)
}.

(** Exceptions that leave [parse] or [run]. *)
Inductive Exn :=
| AnsibleOptionsError (msg : string)
| AnsibleParserError (msg : string)
| OSError (msg : string)
| KeyError (key : Z)
| TypeError (msg : string)
| ValueError (msg : string)
| UnboundLocalError (name : string).

(** Calls that leave the process or reach the shared [display], in the order
    they are made. *)
Inductive Event :=
| Display (msg : string)
| Warning (msg : string)
| Error (msg : string)
| Debug (msg : string)
| Vvvv (msg : string)
| SetVerbosity (v : Z)
| Sleep (secs : Z)
| RunCmd (cmd : string)
| Chdir (path : string)
| Rmtree (path : string).

(** *** Class constants *)

Definition DEFAULT_REPO_TYPE : string := "git".
Definition DEFAULT_PLAYBOOK : string := "local.yml".
Definition REPO_CHOICES : list string := ["git"; "subversion"; "hg"; "bzr"].
Definition SUPPORTED_REPO_MODULES : list string := ["git"].

Definition PLAYBOOK_ERRORS (rc : Z) : option string :=
  if rc =? 1 then Some "File does not exist"
  else if rc =? 2 then Some "File is not readable"
  else None.

(** ** The platform

    Everything [pull.py] imports and does not define: the file system and
    the subprocess runner over an operating-system state [W], and the pure
    helpers of the interpreter, of the standard library and of the rest of
    ansible. *)
Class Platform (W : Type) := {
  (** [int(text)] for a [str]; [None]: the call raises [ValueError], as it
      does for the empty text. *)
  py_int : string -> option Z;
  py_int_empty : py_int EmptyString = None;
  socket_getfqdn : string;
  platform_node : string;
  expanduser : string -> string;
  expandvars : string -> string;
  os_path_exists : string -> W -> bool;
  os_path_isdir : string -> W -> bool;
  os_access_R_OK : string -> W -> bool;
  (** [Some msg]: the call raises [OSError(msg)]. *)
  os_chdir : string -> W -> option string * W;
  (** [Some msg]: the call raises an [Exception] whose text is [msg]. *)
  shutil_rmtree : string -> W -> option string * W;
  time_sleep : Z -> W -> W;
  (** [run_cmd(cmd, live=True)]: exit code, captured output, captured error. *)
  run_cmd : string -> W -> (Z * string * string) * W;
  (** [parse_kv], which raises on unbalanced quoting. *)
  parse_kv : string -> Exn + gmap string string;
  shlex_quote : string -> string;
  (** Iteration order of a [dict] and of a [set]. *)
  iteritems : gmap string string -> list (string * string);
  set_iter : list string -> list string;
  module_loader_find_plugin : string -> option string;
  sys_argv : list string;
  (** [os.path.dirname(os.path.abspath(sys.argv[0]))] *)
  bin_path : string;
  (** [datetime.datetime.now().strftime(fmt)] *)
  now_strftime : string -> string;
  (** [CLI.validate_conflicts(vault_opts=True)]; [Some msg]: it raises
      [AnsibleOptionsError(msg)]. *)
  validate_conflicts : Options -> option string
}.

(** ** State and exceptions *)

Section Monad.
Context {W : Type}.

Record State := mkState {
  self : PullCLI;
  world : W;
  trace : list Event
}.

Definition M (A : Type) : Type := State -> (Exn + A) * State.

Definition ret {A} (a : A) : M A := fun st => (inr a, st).

Definition bind {A B} (m : M A) (k : A -> M B) : M B :=
  fun st =>
    match m st with
    | (inl e, st') => (inl e, st')
    | (inr a, st') => k a st'
    end.

Definition raise {A} (e : Exn) : M A := fun st => (inl e, st).

Definition get_options : M Options := fun st => (inr (options (self st)), st).

Definition put_options (o : Options) : M unit :=
  fun st => (inr tt, mkState (mkPullCLI o (scm_args (self st)) (args (self st)))
                             (world st) (trace st)).

Definition get_scm_args : M (gmap string string) :=
  fun st => (inr (scm_args (self st)), st).

Definition put_scm_args (m : gmap string string) : M unit :=
  fun st => (inr tt, mkState (mkPullCLI (options (self st)) m (args (self st)))
                             (world st) (trace st)).

Definition get_args : M (list (option string)) :=
  fun st => (inr (args (self st)), st).

(** The state once the call [ev] has been made. *)
Definition log (ev : Event) (st : State) : State :=
  mkState (self st) (world st) (trace st ++ [ev]).

(** Appends one call to the trace. *)
Definition emit (ev : Event) : M unit := fun st => (inr tt, log ev st).

(** A query of the operating system. *)
Definition ask {A} (f : W -> A) : M A := fun st => (inr (f (world st)), st).

(** A call that changes the operating system. *)
Definition call {A} (f : W -> A * W) : M A :=
  fun st => let '(a, w) := f (world st) in (inr a, mkState (self st) w (trace st)).

(** [if c: body] *)
Definition when (c : bool) (body : M unit) : M unit :=
  if c then body else ret tt.

End Monad.

Arguments State : clear implicits.
Arguments M : clear implicits.

Declare Scope pull_scope.
Delimit Scope pull_scope with pull.
Notation "x <- c1 ;; c2" := (bind c1 (fun x => c2))
  (at level 100, c1 at next level, right associativity) : pull_scope.
Notation "c1 ;; c2" := (bind c1 (fun _ => c2))
  (at level 100, right associativity) : pull_scope.
Local Open Scope pull_scope.

(** ** [PullCLI.parse] *)

Section Parse.
Context {W : Type} `{Platform W}.

(** [x in l] for a list literal of [str]. *)
Definition py_in (x : string) (l : list string) : bool := bool_decide (x ∈ l).

(** [k in d] for a [dict]. *)
Definition has_key (k : string) (d : gmap string string) : bool :=
  bool_decide (is_Some (d !! k)).

(** Truth value of [self.options.sleep]. *)
Definition truthy_sleep (s : SleepVal) : bool :=
  match s with
  | SleepNone => false
  | SleepStr text => Py.truthy_str text
  | SleepInt secs => negb (secs =? 0)
  end.

(** [int(self.options.sleep)]; [None] stands for the [ValueError]. *)
Definition int_of_sleep (s : SleepVal) : option Z :=
  match s with
  | SleepNone => None
  | SleepStr text => py_int text
  | SleepInt secs => Some secs
  end.

(** ["%s" % self.options.sleep] *)
Definition str_of_sleep (s : SleepVal) : string :=
  match s with
  | SleepNone => "None"
  | SleepStr text => text
  | SleepInt secs => pretty secs
  end.

(** Lines 141-148: the destination directory. *)
Definition resolve_dest : M W unit :=
  o <- get_options ;;
  let d := if negb (Py.truthy_str (dest o))
           then Py.os_path_join "~/.ansible/pull" socket_getfqdn
           else dest o in
  let d := expandvars (expanduser d) in
  put_options (set_dest d o) ;;
  ex <- ask (os_path_exists d) ;;
  isd <- ask (os_path_isdir d) ;;
  when (ex && negb isd)
    (raise (AnsibleOptionsError (d +:+ " is not a valid or accessible directory."))).

(** The error of line 155. *)
Definition not_a_number (text : string) : Exn :=
  AnsibleOptionsError (text +:+ " is not a number.").

(** Lines 150-155: the sleep interval.  Both [int] and [random.randint]
    raise [ValueError], and the handler catches either. *)
Definition resolve_sleep (bits : Z) : M W unit :=
  o <- get_options ;;
  when (truthy_sleep (sleep o))
    (match int_of_sleep (sleep o) ≫= Py.randint bits 0 with
     | Some secs => put_options (set_sleep (SleepInt secs) o)
     | None => raise (not_a_number (str_of_sleep (sleep o)))
     end).

(** Lines 157-158: the repository URL. *)
Definition require_url : M W unit :=
  o <- get_options ;;
  when (negb (Py.truthy_str (url o)))
    (raise (AnsibleOptionsError "URL for repository not specified, use -h for help")).

(** Lines 160-163: the generic argument map. *)
Definition read_module_args : M W unit :=
  o <- get_options ;;
  if Py.truthy_str (module_args o) then
    match parse_kv (module_args o) with
    | inl e => raise e
    | inr kv => put_scm_args kv
    end
  else put_scm_args ∅.

(** Lines 165-166: the repository module. *)
Definition check_module_name : M W unit :=
  o <- get_options ;;
  when (negb (py_in (module_name o) SUPPORTED_REPO_MODULES))
    (raise (AnsibleOptionsError
              ("Unsupported repo module " +:+ module_name o +:+ ", choices are "
               +:+ Py.join "," SUPPORTED_REPO_MODULES))).

Definition dest_conflict_msg : string :=
  "--module-args 'dest=<repo destination>' cannot be used, please use -d or --directory instead".

Definition name_conflict_msg : string :=
  "--module-args 'name=<repo URL>' cannot be used, please use -U or --url instead".

Definition repo_conflict_msg : string :=
  "--module-args 'repo=<repo URL>' cannot be used, please use -U or --url instead".

(** [k in d and d[k] != v] *)
Definition differs (k : string) (d : gmap string string) (v : string) : bool :=
  match d !! k with
  | Some x => negb (bool_decide (x = v))
  | None => false
  end.

(** Lines 168-177: the reserved keys of the generic argument map. *)
Definition check_reserved_keys : M W unit :=
  o <- get_options ;;
  kv <- get_scm_args ;;
  when (has_key "dest" kv) (raise (AnsibleOptionsError dest_conflict_msg)) ;;
  when (py_in (module_name o) ["bzr"; "git"])
    (when (differs "name" kv (url o)) (raise (AnsibleOptionsError name_conflict_msg))) ;;
  when (py_in (module_name o) ["hg"; "subversion"])
    (when (differs "repo" kv (url o)) (raise (AnsibleOptionsError repo_conflict_msg))).

(** Lines 179-180. *)
Definition finish_parse : M W unit :=
  o <- get_options ;;
  emit (SetVerbosity (verbosity o)) ;;
  match validate_conflicts o with
  | Some msg => raise (AnsibleOptionsError msg)
  | None => ret tt
  end.

(** [parse], from the point where [optparse] has filled in [self.options]
    and [self.args]; [bits] is what the random generator yields. *)
Definition parse (bits : Z) : M W unit :=
  resolve_dest ;;
  resolve_sleep bits ;;
  require_url ;;
  read_module_args ;;
  check_module_name ;;
  check_reserved_keys ;;
  finish_parse.

(** The part of [parse] that precedes the module check of line 165. *)
Definition parse_before_module_check (bits : Z) : M W unit :=
  resolve_dest ;;
  resolve_sleep bits ;;
  require_url ;;
  read_module_args.

End Parse.

(** ** [PullCLI.try_playbook], [PullCLI.select_playbook] *)

Section Playbook.
Context {W : Type} `{Platform W}.

Definition try_playbook (path : string) : M W Z :=
  ex <- ask (os_path_exists path) ;;
  if negb ex then ret 1
  else
    rd <- ask (os_access_R_OK path) ;;
    if negb rd then ret 2 else ret 0.

(** [self.PLAYBOOK_ERRORS[rc]] *)
Definition playbook_error (rc : Z) : M W string :=
  match PLAYBOOK_ERRORS rc with
  | Some reason => ret reason
  | None => raise (KeyError rc)
  end.

(** The [for pb in [hostpb, shorthostpb, localpb]] loop of lines 382-388:
    the result is the value of [playbook] and of [errors] when the loop is
    left. *)
Fixpoint try_candidates (pbs : list string) (errors : list string)
  : M W (option string * list string) :=
  match pbs with
  | [] => ret (None, errors)
  | pb :: rest =>
      rc <- try_playbook pb ;;
      if rc =? 0 then ret (Some pb, errors)
      else
        reason <- playbook_error rc ;;
        try_candidates rest (errors ++ [pb +:+ ": " +:+ reason])
  end.

(** The three candidates of lines 377-380, in the order the loop visits
    them. *)
Definition candidates (path : string) : list string :=
  let fqdn := socket_getfqdn in
  let hostpb := Py.os_path_join path (fqdn +:+ ".yml") in
  let shorthostpb := Py.os_path_join path (Py.split_head "."%char fqdn +:+ ".yml") in
  let localpb := Py.os_path_join path DEFAULT_PLAYBOOK in
  [hostpb; shorthostpb; localpb].

Definition select_playbook (path : string) : M W (option string) :=
  a <- get_args ;;
  match a with
  | Some arg0 :: _ =>
      let playbook := Py.os_path_join path arg0 in
      rc <- try_playbook playbook ;;
      if negb (rc =? 0) then
        reason <- playbook_error rc ;;
        emit (Warning (playbook +:+ ": " +:+ reason)) ;;
        ret None
      else ret (Some playbook)
  | _ =>
      found <- try_candidates (candidates path) [] ;;
      match found with
      | (None, errors) => emit (Warning (Py.join Py.newline errors)) ;; ret None
      | (Some pb, _) => ret (Some pb)
      end
  end.

End Playbook.

(** ** [PullCLI._get_inv_cli] and [PullCLI.run] *)

Section Run.
Context {W : Type} `{Platform W}.

(** The loop body of lines 75-79, over the remaining inventory sources. *)
Fixpoint inv_cli_loop (invs : list InvSource) (inv_opts : string) : M W string :=
  match invs with
  | [] => ret inv_opts
  | InvList l :: rest =>
      inv_cli_loop rest (inv_opts +:+ " -i '" +:+ Py.join "," l +:+ "' ")
  | InvStr inv :: rest =>
      ex <- ask (os_path_exists inv) ;;
      if Py.contains "," inv || ex
      then inv_cli_loop rest (inv_opts +:+ " -i " +:+ inv +:+ " ")
      else inv_cli_loop rest inv_opts
  end.

Definition get_inv_cli : M W string :=
  o <- get_options ;;
  inv_cli_loop (inventory o) EmptyString.

(** [self.scm_args[k] = v] *)
Definition set_item (k v : string) : M W unit :=
  kv <- get_scm_args ;;
  put_scm_args (<[k := v]> kv).

(** [del self.scm_args[k]] *)
Definition del_item (k : string) : M W unit :=
  kv <- get_scm_args ;;
  put_scm_args (delete k kv).

(** [if k in self.scm_args: display.warning(msg)] *)
Definition warn_if_present (k msg : string) : M W unit :=
  kv <- get_scm_args ;;
  when (has_key k kv) (emit (Warning msg)).

Definition depth_removed_msg : string :=
  "--module-args 'depth' argument was provided but is being removed by --full for backward compatibility".

Definition export_removed_msg : string :=
  "--module-args 'export' argument was provided but is being removed by --full for backward compatibility".

Definition unsupported_scm_msg (name : string) : string :=
  "Unsupported (" +:+ name +:+ ") SCM module for pull, choices are: "
  +:+ Py.join "," REPO_CHOICES.

(** Lines 220-223: the key that [-C]/[--checkout] sets; [None] when neither
    test holds and [checkout_key] stays unbound. *)
Definition checkout_key_of (name : string) : option string :=
  if py_in name ["bzr"; "git"] then Some "version"
  else if py_in name ["hg"; "subversion"] then Some "revision"
  else None.

Definition checkout_overridden_msg (checkout_key : string) : string :=
  "--module-args '" +:+ checkout_key +:+
  "' argument was provided but is being overridden by deprecated -C or --checkout for backward compatibility".

(** Lines 219-228: the deprecated [-C]/[--checkout] flag. *)
Definition apply_checkout : M W unit :=
  o <- get_options ;;
  when (Py.truthy_str (checkout o)
        && py_in (module_name o) ["bzr"; "git"; "hg"; "subversion"])
    (match checkout_key_of (module_name o) with
     | Some checkout_key =>
         warn_if_present checkout_key (checkout_overridden_msg checkout_key) ;;
         set_item checkout_key (checkout o)
     | None => raise (UnboundLocalError "checkout_key")
     end).

(** Lines 234-238: the deprecated [--accept-host-key] flag. *)
Definition apply_accept_host_key : M W unit :=
  o <- get_options ;;
  when (accept_host_key o)
    (warn_if_present "accept_hostkey"
       "--module-args 'accept_hostkey' argument was provided but is being overridden by deprecated --accept-host-key for backward compatibility" ;;
     set_item "accept_hostkey" "yes").

(** Lines 240-246: the clone depth. *)
Definition apply_depth : M W unit :=
  o <- get_options ;;
  kv <- get_scm_args ;;
  if negb (fullclone o) && negb (has_key "depth" kv) then
    set_item "depth" "1"
  else if fullclone o && has_key "depth" kv then
    emit (Warning depth_removed_msg) ;;
    del_item "depth"
  else ret tt.

(** Lines 248-264: the key file, the submodules and the commit signature. *)
Definition apply_git_flags : M W unit :=
  o <- get_options ;;
  when (Py.truthy_str (private_key_file o))
    (warn_if_present "key_file"
       "--module-args 'key_file' argument was provided but is being overridden by --key-file or --private-key for backward compatibility" ;;
     set_item "key_file" (private_key_file o)) ;;
  when (tracksubs o)
    (warn_if_present "track_submodules"
       "--module-args 'track_submodules' argument was provided but is being overridden by deprecated --track-subs for backward compatibility" ;;
     set_item "track_submodules" "yes") ;;
  when (verify o)
    (warn_if_present "verify_commit"
       "--module-args 'verify_commit' argument was provided but is being overridden by deprecated --verify-commit for backward compatibility" ;;
     set_item "verify_commit" "yes").

(** Lines 233-264: the [git] branch. *)
Definition apply_git : M W unit :=
  apply_accept_host_key ;;
  apply_depth ;;
  apply_git_flags.

(** Lines 265-272: the [subversion] branch. *)
Definition apply_subversion : M W unit :=
  o <- get_options ;;
  kv <- get_scm_args ;;
  if negb (fullclone o) && negb (has_key "export" kv) then
    set_item "export" "yes"
  else if fullclone o && has_key "export" kv then
    emit (Warning export_removed_msg) ;;
    del_item "export"
  else ret tt.

(** Lines 207-231: the module check of [run] and the options shared by the
    modules. *)
Definition apply_common : M W unit :=
  o <- get_options ;;
  when (negb (py_in (module_name o) REPO_CHOICES))
    (raise (AnsibleOptionsError (unsupported_scm_msg (module_name o)))) ;;
  set_item "dest" (dest o) ;;
  when (py_in (module_name o) ["bzr"; "git"]) (set_item "name" (url o)) ;;
  when (py_in (module_name o) ["hg"; "subversion"]) (set_item "repo" (url o)) ;;
  apply_checkout ;;
  when (clean o) (set_item "force" "yes").

(** Lines 207-272: the module check of [run] and the SCM options. *)
Definition reconcile_scm_args : M W unit :=
  apply_common ;;
  o <- get_options ;;
  if bool_decide (module_name o = "git") then apply_git
  else if bool_decide (module_name o = "subversion") then apply_subversion
  else ret tt.

(** [for x in l: cmd += fmt % x] *)
Definition append_each (fmt : string -> string) (l : list string) (cmd : string) : string :=
  fold_left (fun c x => c +:+ fmt x) l cmd.

(** [' -e "%s"' % ev] *)
Definition extra_var_opt (ev : string) : string :=
  " -e " +:+ Py.dquote +:+ ev +:+ Py.dquote.

(** [run_cmd(cmd, live=True)], recorded in the trace. *)
Definition exec (cmd : string) : M W (Z * string * string) :=
  emit (RunCmd cmd) ;;
  call (run_cmd cmd).

(** [os.chdir(path)] *)
Definition chdir (path : string) : M W unit :=
  emit (Chdir path) ;;
  r <- call (os_chdir path) ;;
  match r with
  | Some msg => raise (OSError msg)
  | None => ret tt
  end.

(** The marker [b'"changed": true'] of line 305. *)
Definition changed_marker : string :=
  Py.dquote +:+ "changed" +:+ Py.dquote +:+ ": true".

(** Lines 291-293. *)
Definition nap : M W unit :=
  o <- get_options ;;
  when (truthy_sleep (sleep o))
    (match sleep o with
     | SleepInt secs =>
         emit (Display ("Sleeping for " +:+ pretty secs +:+ " seconds...")) ;;
         emit (Sleep secs) ;;
         if secs <? 0 then raise (ValueError "sleep length must be non-negative")
         else call (fun w => (tt, time_sleep secs w))
     | _ => raise (TypeError "%d format: a number is required")
     end).

(** Lines 351-358: what [run] does once the playbook subprocess has returned
    [rc]. *)
Definition finish_run (rc : Z) : M W Z :=
  o <- get_options ;;
  when (purge o)
    (chdir "/" ;;
     emit (Rmtree (dest o)) ;;
     r <- call (shutil_rmtree (dest o)) ;;
     match r with
     | Some e => emit (Error ("Failed to remove " +:+ dest o +:+ ": " +:+ e))
     | None => ret tt
     end) ;;
  ret rc.

(** Lines 314-337: the playbook command, before the inventory options. *)
Definition playbook_cmd (o : Options) (base_opts limit_opts playbook : string) : string :=
  let cmd := bin_path +:+ "/ansible-playbook " +:+ base_opts +:+ " " +:+ playbook in
  let cmd := append_each (fun f => " --vault-password-file=" +:+ f) (vault_password_files o) cmd in
  let cmd := append_each (fun i => " --vault-id=" +:+ i) (vault_ids o) cmd in
  let cmd := append_each extra_var_opt (extra_vars o) cmd in
  let cmd := if ask_sudo_pass o || ask_su_pass o || become_ask_pass o
             then cmd +:+ " --ask-become-pass" else cmd in
  let cmd := if bool_decide (skip_tags o = [])
             then cmd
             else cmd +:+ " --skip-tags " +:+ Py.dquote +:+ Py.join "," (skip_tags o) +:+ Py.dquote in
  let cmd := if bool_decide (tags o = [])
             then cmd
             else cmd +:+ " -t " +:+ Py.dquote +:+ Py.join "," (tags o) +:+ Py.dquote in
  let cmd := if Py.truthy_str (subset o)
             then cmd +:+ " -l " +:+ Py.dquote +:+ subset o +:+ Py.dquote
             else cmd +:+ " -l " +:+ Py.dquote +:+ limit_opts +:+ Py.dquote in
  let cmd := if check o then cmd +:+ " -C" else cmd in
  if diff o then cmd +:+ " -D" else cmd.

(** Lines 339-358: from [os.chdir(self.options.dest)] to the end of [run],
    for the playbook command [cmd] built so far. *)
Definition execute_playbook (cmd : string) : M W Z :=
  o <- get_options ;;
  chdir (dest o) ;;
  inv_opts <- get_inv_cli ;;
  let cmd := if Py.truthy_str inv_opts then cmd +:+ inv_opts else cmd in
  emit (Debug "running ansible-playbook to do actual work") ;;
  emit (Debug ("EXEC: " +:+ cmd)) ;;
  r <- exec cmd ;;
  let '(rc, b_out, b_err) := r in
  finish_run rc.

(** Lines 309-358: playbook selection and execution. *)
Definition run_playbook (base_opts limit_opts : string) : M W Z :=
  o <- get_options ;;
  playbook <- select_playbook (dest o) ;;
  match playbook with
  | None => raise (AnsibleOptionsError "Could not find a playbook to run.")
  | Some pb => execute_playbook (playbook_cmd o base_opts limit_opts pb)
  end.

(** Lines 194-199: the limit and the base options. *)
Definition limit_opts_of : string :=
  let node := platform_node in
  let host := socket_getfqdn in
  "localhost,"
  +:+ Py.join "," (set_iter [host; node; Py.split_head "."%char host; Py.split_head "."%char node])
  +:+ ",127.0.0.1".

Definition base_opts_of (o : Options) : string :=
  if 0 <? verbosity o
  then "-c local " +:+ " -" +:+ Py.join EmptyString (replicate (Z.to_nat (verbosity o)) "v")
  else "-c local ".

(** Lines 274-288: the checkout command. *)
Definition checkout_cmd (o : Options) (kv : gmap string string)
    (inv_opts base_opts limit_opts : string) : string :=
  let scm_args_str :=
    fold_left (fun acc '(k, v) => acc +:+ k +:+ "=" +:+ shlex_quote v +:+ " ")
              (iteritems kv) EmptyString in
  let cmd := bin_path +:+ "/ansible " +:+ inv_opts +:+ " " +:+ base_opts +:+ " -m "
             +:+ module_name o +:+ " -a " +:+ shlex_quote scm_args_str
             +:+ " all -l " +:+ Py.dquote +:+ limit_opts +:+ Py.dquote in
  append_each extra_var_opt (extra_vars o) cmd.

(** Lines 300-358: the decision taken on the result of the checkout. *)
Definition after_checkout (base_opts limit_opts : string) (rc : Z) (b_out : string)
  : M W Z :=
  o <- get_options ;;
  if negb (rc =? 0) then
    if force o then
      emit (Warning "Unable to update repository. Continuing with (forced) run of playbook.") ;;
      run_playbook base_opts limit_opts
    else ret rc
  else if ifchanged o && negb (Py.contains changed_marker b_out) then
    emit (Display "Repository has not changed, quitting.") ;;
    ret 0
  else run_playbook base_opts limit_opts.

(** [inv_opts] of lines 203-205. *)
Definition inv_opts_of (inv : string) : string :=
  if negb (Py.truthy_str inv) then " -i localhost, " else inv.

(** Lines 188-293: everything before the checkout subprocess; the result
    carries [base_opts], [limit_opts] and the checkout command. *)
Definition prepare_checkout : M W (string * string * string) :=
  emit (Display (now_strftime "Starting Ansible Pull at %F %T")) ;;
  emit (Display (Py.join " " sys_argv)) ;;
  o <- get_options ;;
  let limit_opts := limit_opts_of in
  let base_opts := base_opts_of o in
  inv <- get_inv_cli ;;
  let inv_opts := inv_opts_of inv in
  reconcile_scm_args ;;
  kv <- get_scm_args ;;
  match module_loader_find_plugin (module_name o) with
  | None => raise (AnsibleOptionsError ("module '" +:+ module_name o +:+ "' not found." +:+ Py.newline))
  | Some _ => ret tt
  end ;;
  let cmd := checkout_cmd o kv inv_opts base_opts limit_opts in
  nap ;;
  ret (base_opts, limit_opts, cmd).

(** Lines 295-298: the checkout subprocess. *)
Definition run_checkout (cmd : string) : M W (Z * string * string) :=
  emit (Debug "running ansible with VCS module to checkout repo") ;;
  emit (Vvvv ("EXEC: " +:+ cmd)) ;;
  exec cmd.

(** Lines 188-298: everything up to and including the checkout subprocess;
    the result carries the local variables the rest of [run] reads. *)
Definition do_checkout : M W (string * string * Z * string) :=
  p <- prepare_checkout ;;
  let '(base_opts, limit_opts, cmd) := p in
  r <- run_checkout cmd ;;
  let '(rc, b_out, b_err) := r in
  ret (base_opts, limit_opts, rc, b_out).

(** [run].  [super(PullCLI, self).run()] only reports the version and the
    configuration file through [display] and is left out. *)
Definition run : M W Z :=
  r <- do_checkout ;;
  let '(base_opts, limit_opts, rc, b_out) := r in
  after_checkout base_opts limit_opts rc b_out.

End Run.

(** ** Vocabulary of the statements *)

Section Vocabulary.
Context {W : Type} `{Platform W}.

(** [pb] exists and is readable in the state [st]. *)
Definition usable (st : State W) (pb : string) : bool :=
  os_path_exists pb (world st) && os_access_R_OK pb (world st).

(** The failure reported for [pb]: the first of the two tests that fails. *)
Definition failure_reason (st : State W) (pb : string) : string :=
  if os_path_exists pb (world st) then "File is not readable" else "File does not exist".

(** One line of the warning of [select_playbook]. *)
Definition failure_line (st : State W) (pb : string) : string :=
  pb +:+ ": " +:+ failure_reason st pb.

(** The commands handed to [run_cmd], oldest first. *)
Fixpoint commands (tr : list Event) : list string :=
  match tr with
  | [] => []
  | RunCmd cmd :: rest => cmd :: commands rest
  | _ :: rest => commands rest
  end.

(** [ev] is not a subprocess invocation. *)
Definition no_subprocess (ev : Event) : Prop :=
  match ev with
  | RunCmd _ => False
  | _ => True
  end.

(** What a piece of code leaves alone: the options, the positional
    arguments, the entries of the argument map under the [frozen] keys; the
    calls it makes all satisfy [okev]. *)
Definition keeps (frozen : string -> Prop) (okev : Event -> Prop)
    (st st' : State W) : Prop :=
  options (self st') = options (self st) /\
  args (self st') = args (self st) /\
  (forall k, frozen k -> scm_args (self st') !! k = scm_args (self st) !! k) /\
  exists evs, trace st' = (trace st ++ evs)%list /\ Forall okev evs.

(** [m], started with the options [o0], [keeps] the above and raises only
    exceptions that satisfy [E]. *)
Definition follows {A} (frozen : string -> Prop) (okev : Event -> Prop)
    (E : Exn -> Prop) (o0 : Options) (m : M W A) : Prop :=
  forall st r st', options (self st) = o0 -> m st = (r, st') ->
    keeps frozen okev st st' /\ forall e, r = inl e -> E e.

(** Predicates that hold of everything and of nothing. *)
Definition anything {A} (_ : A) : Prop := True.
Definition nothing {A} (_ : A) : Prop := False.

(** [e] is not the error of line 208. *)
Definition not_unsupported_scm (e : Exn) : Prop :=
  forall name, e <> AnsibleOptionsError (unsupported_scm_msg name).

(** The keys that only the [hg], [subversion] and [bzr] branches write. *)
Definition other_module_key (k : string) : Prop :=
  k = "repo" \/ k = "revision" \/ k = "export".

End Vocabulary.

(** ** Vocabulary of the further statements *)

Section Reconciled.
Context {W : Type} `{Platform W}.

(** What one inventory source contributes to [inv_opts] in [_get_inv_cli]. *)
Definition rendered_inv (st : State W) (inv : InvSource) : string :=
  match inv with
  | InvList l => " -i '" +:+ Py.join "," l +:+ "' "
  | InvStr s =>
      if Py.contains "," s || os_path_exists s (world st)
      then " -i " +:+ s +:+ " "
      else EmptyString
  end.

(** The texts of a list, one after the other. *)
Definition concat_all (l : list string) : string :=
  fold_right String.append EmptyString l.

(** [ev], when [c] holds. *)
Definition optional (c : bool) (ev : Event) : list Event :=
  if c then [ev] else [].

(** [m] with [k] set to [v], when [c] holds. *)
Definition put_if (c : bool) (k v : string) (m : gmap string string)
  : gmap string string :=
  if c then <[k := v]> m else m.

(** The state [st] with the argument map [kv]. *)
Definition set_scm (kv : gmap string string) (st : State W) : State W :=
  mkState (mkPullCLI (options (self st)) kv (args (self st))) (world st) (trace st).

(** The state in which [when c (warn_if_present k msg ;; set_item k v)]
    leaves [st]. *)
Definition overridden (c : bool) (k v msg : string) (st : State W) : State W :=
  if c then
    set_scm (<[k := v]> (scm_args (self st)))
            (if has_key k (scm_args (self st)) then log (Warning msg) st else st)
  else st.

(** The state in which [when c (set_item k v)] leaves [st]. *)
Definition assigned (c : bool) (k v : string) (st : State W) : State W :=
  if c then set_scm (<[k := v]> (scm_args (self st))) st else st.

(** The key that the [--full] flag governs and the value it defaults to:
    [depth] for [git], [export] for [subversion]. *)
Definition shallow (full : bool) (k v msg : string) (st : State W) : State W :=
  if negb full && negb (has_key k (scm_args (self st))) then
    set_scm (<[k := v]> (scm_args (self st))) st
  else if full && has_key k (scm_args (self st)) then
    set_scm (delete k (scm_args (self st))) (log (Warning msg) st)
  else st.

Definition accept_hostkey_msg : string :=
  "--module-args 'accept_hostkey' argument was provided but is being overridden by deprecated --accept-host-key for backward compatibility".

Definition key_file_msg : string :=
  "--module-args 'key_file' argument was provided but is being overridden by --key-file or --private-key for backward compatibility".

Definition track_submodules_msg : string :=
  "--module-args 'track_submodules' argument was provided but is being overridden by deprecated --track-subs for backward compatibility".

Definition verify_commit_msg : string :=
  "--module-args 'verify_commit' argument was provided but is being overridden by deprecated --verify-commit for backward compatibility".

(** The checkout key of a module of [REPO_CHOICES]. *)
Definition checkout_key (name : string) : string :=
  if py_in name ["bzr"; "git"] then "version" else "revision".

(** The state in which lines 211-231 leave [st], for the options [o]. *)
Definition common_done (o : Options) (st : State W) : State W :=
  let st := assigned true "dest" (dest o) st in
  let st := assigned (py_in (module_name o) ["bzr"; "git"]) "name" (url o) st in
  let st := assigned (py_in (module_name o) ["hg"; "subversion"]) "repo" (url o) st in
  let st := overridden (Py.truthy_str (checkout o)) (checkout_key (module_name o))
              (checkout o) (checkout_overridden_msg (checkout_key (module_name o))) st in
  assigned (clean o) "force" "yes" st.

(** The state in which lines 233-264 leave [st], for the options [o]. *)
Definition git_done (o : Options) (st : State W) : State W :=
  let st := overridden (accept_host_key o) "accept_hostkey" "yes" accept_hostkey_msg st in
  let st := shallow (fullclone o) "depth" "1" depth_removed_msg st in
  let st := overridden (Py.truthy_str (private_key_file o)) "key_file"
              (private_key_file o) key_file_msg st in
  let st := overridden (tracksubs o) "track_submodules" "yes" track_submodules_msg st in
  overridden (verify o) "verify_commit" "yes" verify_commit_msg st.

(** The state in which lines 207-272 leave [st], for a module of
    [REPO_CHOICES]. *)
Definition reconciled (o : Options) (st : State W) : State W :=
  let st := common_done o st in
  if bool_decide (module_name o = "git") then git_done o st
  else if bool_decide (module_name o = "subversion") then
    shallow (fullclone o) "export" "yes" export_removed_msg st
  else st.

(** The warnings of lines 207-272 for the options [o] and the argument map
    [kv] that [run] starts with, in the order they are emitted. *)
Definition reconcile_warnings (o : Options) (kv : gmap string string) : list Event :=
  (optional (Py.truthy_str (checkout o) && has_key (checkout_key (module_name o)) kv)
            (Warning (checkout_overridden_msg (checkout_key (module_name o)))) ++
   (if bool_decide (module_name o = "git") then
      optional (accept_host_key o && has_key "accept_hostkey" kv)
               (Warning accept_hostkey_msg) ++
      optional (fullclone o && has_key "depth" kv) (Warning depth_removed_msg) ++
      optional (Py.truthy_str (private_key_file o) && has_key "key_file" kv)
               (Warning key_file_msg) ++
      optional (tracksubs o && has_key "track_submodules" kv)
               (Warning track_submodules_msg) ++
      optional (verify o && has_key "verify_commit" kv) (Warning verify_commit_msg)
    else if bool_decide (module_name o = "subversion") then
      optional (fullclone o && has_key "export" kv) (Warning export_removed_msg)
    else []))%list.

(** The keys of the argument map that [run] writes or deletes. *)
Definition managed_keys : list string :=
  ["dest"; "name"; "repo"; "version"; "revision"; "force"; "accept_hostkey";
   "depth"; "key_file"; "track_submodules"; "verify_commit"; "export"].

(** [ev] is not a call of [shutil.rmtree]. *)
Definition no_rmtree (ev : Event) : Prop :=
  match ev with
  | Rmtree _ => False
  | _ => True
  end.

(** [ev] is not a call of [time.sleep]. *)
Definition no_sleep (ev : Event) : Prop :=
  match ev with
  | Sleep _ => False
  | _ => True
  end.

(** The value of [self.options.sleep] makes [run] skip its nap or sleep for
    a number of seconds that is not negative. *)
Definition sleep_resolved (s : SleepVal) : Prop :=
  match s with
  | SleepNone => True
  | SleepStr text => text = EmptyString
  | SleepInt secs => 0 <= secs
  end.

(** [dest] as line 145 leaves it. *)
Definition resolved_dest (o : Options) : string :=
  expandvars (expanduser
    (if Py.truthy_str (dest o) then dest o
     else Py.os_path_join "~/.ansible/pull" socket_getfqdn)).

End Reconciled.

(** ** A small platform for worked examples

    A file system given by three lists of paths, a queue of subprocess
    results, and the simplest helpers that fit the interface: arguments
    without quoting are split at spaces and at the first [=]. *)

Module Sim.

Record World := mkWorld {
  existing : list string;
  directories : list string;
  readable : list string;
  (** results the next subprocesses return, first call first *)
  results : list (Z * string * string);
  (** [Some msg]: [shutil.rmtree] raises *)
  rmtree_failure : option string
}.

Definition pop_result (w : World) : (Z * string * string) * World :=
  match results w with
  | [] => ((0, EmptyString, EmptyString), w)
  | r :: rest =>
      (r, mkWorld (existing w) (directories w) (readable w) rest (rmtree_failure w))
  end.

Definition remove_tree (path : string) (w : World) : option string * World :=
  match rmtree_failure w with
  | Some msg => (Some msg, w)
  | None =>
      let keep := filter (fun p => negb (Py.startswith path p)) in
      (None, mkWorld (keep (existing w)) (keep (directories w)) (keep (readable w))
                     (results w) None)
  end.

(** Splits at every occurrence of [c]; [cur] is the piece being read. *)
Fixpoint split_on (c : ascii) (cur : string) (s : string) : list string :=
  match s with
  | EmptyString => [cur]
  | String a s' =>
      if Ascii.eqb a c then cur :: split_on c EmptyString s'
      else split_on c (cur +:+ String a EmptyString) s'
  end.

(** The text after the first [c], when [c] occurs. *)
Fixpoint after_first (c : ascii) (s : string) : option string :=
  match s with
  | EmptyString => None
  | String a s' => if Ascii.eqb a c then Some s' else after_first c s'
  end.

Definition simple_kv (text : string) : gmap string string :=
  fold_left
    (fun m tok =>
       match after_first "="%char tok with
       | Some v => <[Py.split_head "="%char tok := v]> m
       | None => m
       end)
    (split_on " "%char EmptyString text) ∅.

#[export] Instance platform : Platform World := {
  py_int := Py.int;
  py_int_empty := eq_refl;
  socket_getfqdn := "web01.example.org";
  platform_node := "web01";
  expanduser := fun p => p;
  expandvars := fun p => p;
  os_path_exists := fun p w => bool_decide (p ∈ existing w);
  os_path_isdir := fun p w => bool_decide (p ∈ directories w);
  os_access_R_OK := fun p w => bool_decide (p ∈ readable w);
  os_chdir := fun p w =>
    (if bool_decide (p ∈ directories w) then None else Some "No such file or directory", w);
  shutil_rmtree := remove_tree;
  time_sleep := fun _ w => w;
  run_cmd := fun _ w => pop_result w;
  parse_kv := fun text => inr (simple_kv text);
  shlex_quote := fun s => "'" +:+ s +:+ "'";
  iteritems := map_to_list;
  set_iter := remove_dups;
  module_loader_find_plugin := fun name => Some ("/usr/lib/ansible/modules/" +:+ name +:+ ".py");
  sys_argv := ["ansible-pull"];
  bin_path := "/usr/bin";
  now_strftime := fun fmt => fmt;
  validate_conflicts := fun _ => None
}.

(** Options as [optparse] leaves them for
    [ansible-pull -U <url> -d /srv/pull -m <name> -a <module_args> -s <sleep>]. *)
Definition cli_options (name url_ margs : string) (sl : SleepVal) : Options :=
  {| dest := "/srv/pull"; sleep := sl; url := url_; module_args := margs;
     module_name := name; verbosity := 0; inventory := []; checkout := EmptyString;
     clean := false; accept_host_key := false; fullclone := false;
     private_key_file := EmptyString; tracksubs := false; verify := false;
     extra_vars := []; force := false; ifchanged := false;
     vault_password_files := []; vault_ids := []; ask_sudo_pass := false;
     ask_su_pass := false; become_ask_pass := false; skip_tags := [];
     tags := []; subset := EmptyString; check := false; diff := false;
     purge := false |}.

(** A host on which [/srv/pull] is a directory that holds [local.yml]. *)
Definition host : World :=
  {| existing := ["/"; "/srv/pull"; "/srv/pull/local.yml"];
     directories := ["/"; "/srv/pull"];
     readable := ["/"; "/srv/pull"; "/srv/pull/local.yml"];
     results := [];
     rmtree_failure := None |}.

Definition start (o : Options) (a : list (option string)) (w : World) : State World :=
  mkState (mkPullCLI o ∅ a) w [].

Definition repo_url : string := "https://example.org/repo.git".

(** [ansible-pull -U <url> -d /srv/pull -a depth=3 -s 30] *)
Definition git_state : State World :=
  start (cli_options "git" repo_url "depth=3" (SleepStr "30")) [] host.

(** [ansible-pull -U <url> -d /srv/pull -m <name>] *)
Definition module_state (name : string) : State World :=
  start (cli_options name repo_url EmptyString SleepNone) [] host.

(** [ansible-pull -U <url> -d /srv/pull -a name=<url>] *)
Definition name_state : State World :=
  start (cli_options "git" repo_url ("name=" +:+ repo_url) SleepNone) [] host.

(** [ansible-pull -U <url> -d /srv/pull -s ''] *)
Definition empty_sleep_state : State World :=
  start (cli_options "git" repo_url EmptyString (SleepStr EmptyString)) [] host.

(** [ansible-pull -U <url> -d /srv/pull -s -5] *)
Definition negative_sleep_state : State World :=
  start (cli_options "git" repo_url EmptyString (SleepStr "-5")) [] host.

(** A host on which the checkout exits with code 1. *)
Definition failing_host : World :=
  mkWorld (existing host) (directories host) (readable host)
    [(1, EmptyString, "fatal: unable to access the repository")] None.

Definition failing_state : State World :=
  start (cli_options "git" repo_url EmptyString SleepNone) [] failing_host.

(** [ansible-pull -U <url> -d /srv/pull site.yml] *)
Definition explicit_state : State World :=
  start (cli_options "git" repo_url EmptyString SleepNone) [Some "site.yml"] host.

(** [ansible-pull -U <url> -d /srv/pull --purge], on a host where the
    playbook exits with code 2 and the checkout cannot be removed. *)
Definition purge_options : Options :=
  {| dest := "/srv/pull"; sleep := SleepNone; url := repo_url;
     module_args := EmptyString; module_name := "git"; verbosity := 0;
     inventory := []; checkout := EmptyString; clean := false;
     accept_host_key := false; fullclone := false;
     private_key_file := EmptyString; tracksubs := false; verify := false;
     extra_vars := []; force := false; ifchanged := false;
     vault_password_files := []; vault_ids := []; ask_sudo_pass := false;
     ask_su_pass := false; become_ask_pass := false; skip_tags := [];
     tags := []; subset := EmptyString; check := false; diff := false;
     purge := true |}.

Definition stubborn_host : World :=
  mkWorld (existing host) (directories host) (readable host)
    [(2, EmptyString, EmptyString)] (Some "Permission denied").

Definition purge_state : State World := start purge_options [] stubborn_host.

(** [ansible-pull -U <url> -d /srv/pull/local.yml]: the destination is a
    file. *)
Definition file_dest_state : State World :=
  start (set_dest "/srv/pull/local.yml" (cli_options "git" repo_url EmptyString SleepNone))
        [] host.

(** [ansible-pull -d /srv/pull -s 30]: no URL. *)
Definition no_url_state : State World :=
  start (cli_options "git" EmptyString EmptyString (SleepStr "30")) [] host.

(** [ansible-pull -U <url> -d /srv/pull -m hg -a repo=elsewhere], once the
    module arguments have been read. *)
Definition hg_repo_state : State World :=
  set_scm (simple_kv "repo=elsewhere")
          (start (cli_options "hg" repo_url "repo=elsewhere" SleepNone) [] host).

(** Options as [optparse] leaves them for
    [ansible-pull -U <url> -d /srv/pull -m <name> -i <inv>... -C <co> --key-file <key>],
    with [--clean], [--accept-host-key], [--full], [--track-subs] and
    [--verify-commit] when [flags] is set, and with [-o] when [ifc] is. *)
Definition flag_options (name : string) (invs : list InvSource) (co key : string)
    (flags ifc : bool) : Options :=
  {| dest := "/srv/pull"; sleep := SleepNone; url := repo_url;
     module_args := EmptyString; module_name := name; verbosity := 0;
     inventory := invs; checkout := co; clean := flags;
     accept_host_key := flags; fullclone := flags;
     private_key_file := key; tracksubs := flags; verify := flags;
     extra_vars := []; force := false; ifchanged := ifc;
     vault_password_files := []; vault_ids := []; ask_sudo_pass := false;
     ask_su_pass := false; become_ask_pass := false; skip_tags := [];
     tags := []; subset := EmptyString; check := false; diff := false;
     purge := false |}.

(** [ansible-pull -U <url> -d /srv/pull -i hosts.ini -i staging]: neither
    inventory exists yet. *)
Definition inventory_state : State World :=
  start (flag_options "git" [InvStr "hosts.ini"; InvStr "staging"]
                      EmptyString EmptyString false false) [] host.

(** A host that also holds [/etc/site.yml]. *)
Definition site_host : World :=
  mkWorld ("/etc/site.yml" :: existing host) (directories host)
          ("/etc/site.yml" :: readable host) [] None.

(** [ansible-pull -U <url> -d /srv/pull /etc/site.yml] *)
Definition absolute_state : State World :=
  start (cli_options "git" repo_url EmptyString SleepNone) [Some "/etc/site.yml"] site_host.

(** The argument map of
    [-a 'version=old revision=7 depth=3 export=no accept_hostkey=no name=mirror repo=mirror umask=022']. *)
Definition crowded_args : gmap string string :=
  simple_kv "version=old revision=7 depth=3 export=no accept_hostkey=no name=mirror repo=mirror umask=022".

(** [run] starts with that map, the module [name], [-C v1.2],
    [--key-file /root/.ssh/id_deploy] and every flag set. *)
Definition flagged_state (name : string) : State World :=
  set_scm crowded_args
          (start (flag_options name [] "v1.2" "/root/.ssh/id_deploy" true false) [] host).

(** The same platform on a host where no module is installed. *)
Definition unpackaged : Platform World := {|
  py_int := Py.int;
  py_int_empty := eq_refl;
  socket_getfqdn := "web01.example.org";
  platform_node := "web01";
  expanduser := fun p => p;
  expandvars := fun p => p;
  os_path_exists := fun p w => bool_decide (p ∈ existing w);
  os_path_isdir := fun p w => bool_decide (p ∈ directories w);
  os_access_R_OK := fun p w => bool_decide (p ∈ readable w);
  os_chdir := fun p w =>
    (if bool_decide (p ∈ directories w) then None else Some "No such file or directory", w);
  shutil_rmtree := remove_tree;
  time_sleep := fun _ w => w;
  run_cmd := fun _ w => pop_result w;
  parse_kv := fun text => inr (simple_kv text);
  shlex_quote := fun s => "'" +:+ s +:+ "'";
  iteritems := map_to_list;
  set_iter := remove_dups;
  module_loader_find_plugin := fun _ => None;
  sys_argv := ["ansible-pull"];
  bin_path := "/usr/bin";
  now_strftime := fun fmt => fmt;
  validate_conflicts := fun _ => None
|}.

(** A host on which the checkout exits with code 0 and reports a change. *)
Definition changed_host : World :=
  mkWorld (existing host) (directories host) (readable host)
    [(0, "localhost | SUCCESS => {" +:+ changed_marker +:+ "}", EmptyString)] None.

(** [ansible-pull -U <url> -d /srv/pull -o] *)
Definition changed_state : State World :=
  start (flag_options "git" [] EmptyString EmptyString false true) [] changed_host.

(** A host without any playbook in [/srv/pull]. *)
Definition bare_host : World :=
  mkWorld ["/"; "/srv/pull"] ["/"; "/srv/pull"] ["/"; "/srv/pull"] [] None.

Definition bare_state : State World :=
  start (cli_options "git" repo_url EmptyString SleepNone) [] bare_host.

(** The state [parse] leaves for [ansible-pull -U <url> -d /srv/pull -s 30]
    when the draw is 5. *)
Definition napping_state : State World :=
  start (cli_options "git" repo_url EmptyString (SleepInt 5)) [] host.

End Sim.

(** * Properties *)

(** ** The text helpers on examples *)

Example join_three : Py.join "," ["a"; "b"; "c"] = "a,b,c".
Proof. reflexivity. Qed.

Example os_path_join_rel : Py.os_path_join "/srv/pull" "local.yml" = "/srv/pull/local.yml".
Proof. reflexivity. Qed.

Example os_path_join_abs : Py.os_path_join "/srv/pull" "/etc/site.yml" = "/etc/site.yml".
Proof. reflexivity. Qed.

Example os_path_join_slash : Py.os_path_join "/srv/pull/" "local.yml" = "/srv/pull/local.yml".
Proof. reflexivity. Qed.

Example split_head_fqdn : Py.split_head "."%char "web01.example.org" = "web01".
Proof. reflexivity. Qed.

Example int_plain : Py.int "30" = Some 30.
Proof. reflexivity. Qed.

Example int_negative : Py.int " -7 " = Some (-7).
Proof. reflexivity. Qed.

Example int_text : Py.int "soon" = None.
Proof. reflexivity. Qed.

Example int_empty : Py.int EmptyString = None.
Proof. reflexivity. Qed.

Example randint_empty_range : Py.randint 5 0 (-1) = None.
Proof. reflexivity. Qed.

(** ** Facts about the text helpers *)

Lemma randint_bounds (bits a b r : Z) :
  Py.randint bits a b = Some r -> a <= r <= b.
Proof.
  unfold Py.randint. destruct (b - a + 1 <=? 0) eqn:Hw; [discriminate|].
  intros [= <-]. apply Z.leb_gt in Hw.
  pose proof (Z.mod_pos_bound bits (b - a + 1) Hw). lia.
Qed.

Lemma randint_defined (bits a b : Z) :
  a <= b -> exists r, Py.randint bits a b = Some r.
Proof.
  intros Hab. unfold Py.randint.
  destruct (b - a + 1 <=? 0) eqn:Hw; [apply Z.leb_le in Hw; lia|eauto].
Qed.

Lemma randint_empty (bits a b : Z) : b < a -> Py.randint bits a b = None.
Proof.
  intros Hab. unfold Py.randint.
  destruct (b - a + 1 <=? 0) eqn:Hw; [reflexivity|apply Z.leb_gt in Hw; lia].
Qed.

(** Every value of the range is drawn for some state of the generator. *)
Lemma randint_onto (a b r : Z) :
  a <= r <= b -> Py.randint (r - a) a b = Some r.
Proof.
  intros Hr. unfold Py.randint.
  destruct (b - a + 1 <=? 0) eqn:Hw; [apply Z.leb_le in Hw; lia|].
  rewrite Z.mod_small by lia. f_equal. lia.
Qed.

Lemma truthy_str_true (s : string) : s <> EmptyString -> Py.truthy_str s = true.
Proof.
  intros Hs. unfold Py.truthy_str. rewrite bool_decide_eq_false_2; auto.
Qed.

(** ** Case analysis of monadic code *)

Ltac atomic c :=
  lazymatch c with
  | context [match _ with _ => _ end] => fail
  | _ => idtac
  end.

(** Splits on an innermost scrutinee, in a hypothesis or in the goal. *)
Ltac break_step :=
  match goal with
  | H : context [match ?c with _ => _ end] |- _ => atomic c; destruct c eqn:?
  | |- context [match ?c with _ => _ end] => atomic c; destruct c eqn:?
  end.

Ltac unfold_monad :=
  unfold when, bind, ret, raise, get_options, put_options, get_scm_args,
    put_scm_args, get_args, emit, ask, call in *;
  cbn [fst snd self world trace options scm_args args] in *.

(** ** Option reconciliation *)

Section ParseProperties.
Context {W : Type} `{Platform W}.

Ltac unfold_parse :=
  unfold parse, parse_before_module_check, resolve_dest, resolve_sleep,
    require_url, read_module_args, check_module_name, check_reserved_keys,
    finish_parse in *;
  unfold_monad.

(** [parse] is the steps before the module check followed by the rest. *)
Lemma parse_after_prefix (bits : Z) (st st1 : State W) :
  parse_before_module_check bits st = (inr tt, st1) ->
  parse bits st = (check_module_name ;; check_reserved_keys ;; finish_parse) st1.
Proof.
  unfold parse, parse_before_module_check, bind. intros Hp.
  destruct (resolve_dest st) as [[e|[]] s1]; [discriminate|].
  destruct (resolve_sleep bits s1) as [[e|[]] s2]; [discriminate|].
  destruct (require_url s2) as [[e|[]] s3]; [discriminate|].
  rewrite Hp. reflexivity.
Qed.

Lemma parse_prefix_raises (bits : Z) (st st1 : State W) (e : Exn) :
  parse_before_module_check bits st = (inl e, st1) ->
  parse bits st = (inl e, st1).
Proof.
  unfold parse, parse_before_module_check, bind. intros Hp.
  destruct (resolve_dest st) as [[e1|[]] s1]; [exact Hp|].
  destruct (resolve_sleep bits s1) as [[e2|[]] s2]; [exact Hp|].
  destruct (require_url s2) as [[e3|[]] s3]; [exact Hp|].
  rewrite Hp. reflexivity.
Qed.

(** The steps before the module check change [dest] and [sleep] only, make
    no call and leave the rest of the instance alone. *)
Lemma prefix_fields (bits : Z) (st st1 : State W) r :
  parse_before_module_check bits st = (r, st1) ->
  module_name (options (self st1)) = module_name (options (self st)) /\
  url (options (self st1)) = url (options (self st)) /\
  world st1 = world st /\ trace st1 = trace st.
Proof.
  unfold_parse. intros Hp.
  repeat break_step; inversion Hp; subst; cbn; auto.
Qed.

Lemma resolve_dest_fields (st st1 : State W) r :
  resolve_dest st = (r, st1) ->
  sleep (options (self st1)) = sleep (options (self st)) /\
  (forall e, r = inl e -> exists msg, e = AnsibleOptionsError msg).
Proof.
  unfold_parse. intros Hp.
  repeat break_step; inversion Hp; subst; cbn; split; auto;
    intros e0 [= <-]; eauto; discriminate.
Qed.

Lemma int_nonempty (text : string) (n : Z) :
  py_int text = Some n -> text <> EmptyString.
Proof. intros Hn ->. rewrite py_int_empty in Hn. discriminate Hn. Qed.

(** The sleep step on a text value, in closed form. *)
Lemma resolve_sleep_text (bits : Z) (st : State W) (text : string) :
  sleep (options (self st)) = SleepStr text ->
  resolve_sleep bits st =
    if Py.truthy_str text then
      match py_int text ≫= Py.randint bits 0 with
      | Some secs => put_options (set_sleep (SleepInt secs) (options (self st))) st
      | None => (inl (not_a_number text), st)
      end
    else (inr tt, st).
Proof.
  intros Hs. unfold resolve_sleep, when, bind, get_options, raise, ret.
  rewrite Hs. cbn [truthy_sleep int_of_sleep str_of_sleep].
  destruct (Py.truthy_str text); [|reflexivity].
  destruct (py_int text ≫= Py.randint bits 0); reflexivity.
Qed.

(** Whatever the steps after the sleep step do, they keep [sleep]. *)
Lemma after_sleep_fields (st st' : State W) r :
  (require_url ;; read_module_args ;; check_module_name ;;
   check_reserved_keys ;; finish_parse) st = (r, st') ->
  sleep (options (self st')) = sleep (options (self st)).
Proof.
  unfold_parse. intros Hp.
  repeat break_step; inversion Hp; subst; cbn; auto.
Qed.

(** The module check passes for [git] and nothing else. *)
Lemma check_module_name_eq (st : State W) :
  check_module_name st =
    if bool_decide (module_name (options (self st)) = "git") then (inr tt, st)
    else (inl (AnsibleOptionsError
                 ("Unsupported repo module " +:+ module_name (options (self st))
                  +:+ ", choices are git")), st).
Proof.
  unfold check_module_name, py_in, SUPPORTED_REPO_MODULES. unfold_monad.
  destruct (decide (module_name (options (self st)) = "git")) as [Hg|Hg].
  - rewrite bool_decide_eq_true_2 by (apply list_elem_of_singleton, Hg).
    rewrite bool_decide_eq_true_2 by exact Hg. reflexivity.
  - rewrite bool_decide_eq_false_2 by (rewrite list_elem_of_singleton; exact Hg).
    rewrite bool_decide_eq_false_2 by exact Hg. reflexivity.
Qed.

(** Once the destination, the sleep interval, the URL and the module
    arguments have been read without error, [parse] passes the module check
    exactly for the module name [git] (then the reserved-key checks follow);
    for every other module name it raises the configuration error
    [Unsupported repo module <name>, choices are git]. *)
Lemma module_check_only_git (bits : Z) (st st1 : State W) :
  parse_before_module_check bits st = (inr tt, st1) ->
  let name := module_name (options (self st)) in
  (name = "git" ->
     check_module_name st1 = (inr tt, st1) /\
     parse bits st = (check_reserved_keys ;; finish_parse) st1) /\
  (name <> "git" ->
     parse bits st =
       (inl (AnsibleOptionsError
               ("Unsupported repo module " +:+ name +:+ ", choices are "
                +:+ Py.join "," SUPPORTED_REPO_MODULES)), st1)).
Proof.
  intros Hp name. subst name.
  pose proof (prefix_fields _ _ _ _ Hp) as (Hn & _).
  rewrite (parse_after_prefix _ _ _ Hp).
  assert (Hstep := check_module_name_eq st1). rewrite Hn in Hstep.
  split; intros Hname.
  - rewrite bool_decide_eq_true_2 in Hstep by exact Hname.
    split; [exact Hstep|]. unfold bind at 1. rewrite Hstep. reflexivity.
  - rewrite bool_decide_eq_false_2 in Hstep by exact Hname.
    unfold bind at 1. rewrite Hstep. reflexivity.
Qed.

(** The reserved-key checks for the module [git], in closed form. *)
Lemma check_reserved_keys_git (st : State W) :
  module_name (options (self st)) = "git" ->
  check_reserved_keys st =
    match scm_args (self st) !! "dest" with
    | Some _ => (inl (AnsibleOptionsError dest_conflict_msg), st)
    | None =>
        match scm_args (self st) !! "name" with
        | Some y =>
            if bool_decide (y = url (options (self st))) then (inr tt, st)
            else (inl (AnsibleOptionsError name_conflict_msg), st)
        | None => (inr tt, st)
        end
    end.
Proof.
  intros Hg. unfold check_reserved_keys, has_key, differs, py_in. unfold_monad.
  rewrite Hg.
  destruct (scm_args (self st) !! "dest") as [x|] eqn:Hd.
  - rewrite bool_decide_eq_true_2 by eauto. reflexivity.
  - rewrite bool_decide_eq_false_2 by (intros [? ?]; discriminate).
    change (bool_decide ("git" ∈ ["bzr"; "git"])) with true.
    change (bool_decide ("git" ∈ ["hg"; "subversion"])) with false.
    cbn [negb].
    destruct (scm_args (self st) !! "name") as [y|]; [|reflexivity].
    destruct (bool_decide (y = url (options (self st)))); reflexivity.
Qed.

(** C5.  Once the generic argument map has been read: an entry for [dest]
    makes [parse] raise a configuration error whatever its value (for the
    module [git], the error of line 169); for the module [git] and a map
    without [dest], an entry [name=Y] makes [parse] raise the error of line
    173 when [Y] differs from the URL, and lets [parse] go on to its last
    step, which succeeds unless [validate_conflicts] objects, when [Y] is the
    URL; the two messages differ. *)
Theorem C5_reserved_keys (bits : Z) (st st1 : State W) :
  parse_before_module_check bits st = (inr tt, st1) ->
  let o := options (self st1) in
  let kv := scm_args (self st1) in
  (forall x, kv !! "dest" = Some x ->
     exists msg, parse bits st = (inl (AnsibleOptionsError msg), st1) /\
                 (module_name o = "git" -> msg = dest_conflict_msg)) /\
  (module_name o = "git" -> kv !! "dest" = None ->
   forall y, kv !! "name" = Some y ->
     (y <> url o ->
        parse bits st = (inl (AnsibleOptionsError name_conflict_msg), st1)) /\
     (y = url o ->
        parse bits st = finish_parse st1 /\
        (validate_conflicts o = None -> fst (parse bits st) = inr tt))) /\
  dest_conflict_msg <> name_conflict_msg.
Proof.
  intros Hp o kv.
  rewrite (parse_after_prefix _ _ _ Hp).
  assert (Hstep := check_module_name_eq st1). fold o in Hstep.
  split; [|split].
  - intros x Hx. unfold bind at 1. rewrite Hstep.
    destruct (decide (module_name o = "git")) as [Hg|Hg].
    + rewrite bool_decide_eq_true_2 by exact Hg.
      unfold bind. rewrite (check_reserved_keys_git st1 Hg). fold kv. rewrite Hx.
      eauto.
    + rewrite bool_decide_eq_false_2 by exact Hg.
      eexists. split; [reflexivity|]. intros Hg'. contradiction.
  - intros Hg Hd y Hy.
    rewrite bool_decide_eq_true_2 in Hstep by exact Hg.
    assert (Hkeys := check_reserved_keys_git st1 Hg).
    fold kv o in Hkeys. rewrite Hd, Hy in Hkeys.
    split; intros Hyu.
    + rewrite bool_decide_eq_false_2 in Hkeys by exact Hyu.
      unfold bind at 1. rewrite Hstep. unfold bind at 1. rewrite Hkeys.
      reflexivity.
    + rewrite bool_decide_eq_true_2 in Hkeys by exact Hyu.
      assert (Hall : (check_module_name;; check_reserved_keys;; finish_parse) st1
                     = finish_parse st1).
      { unfold bind at 1. rewrite Hstep. unfold bind at 1. rewrite Hkeys.
        reflexivity. }
      rewrite Hall. split; [reflexivity|].
      intros Hv. unfold finish_parse. unfold_monad. fold o. rewrite Hv.
      reflexivity.
  - discriminate.
Qed.

(** C7, as amended.  For every supplied sleep text that is not empty and
    does not parse as an integer, the sleep step raises [<text> is not a
    number.] and [parse] fails with a configuration error; for every supplied
    text that parses as an integer [n >= 0], the sleep step succeeds and
    stores an integer of the range [0..n], and that integer is what a
    successful [parse] leaves in [self.options.sleep]. *)
Theorem C7_sleep_resolution (bits : Z) (st : State W) (text : string) :
  sleep (options (self st)) = SleepStr text ->
  (text <> EmptyString -> py_int text = None ->
     resolve_sleep bits st = (inl (not_a_number text), st) /\
     exists msg st', parse bits st = (inl (AnsibleOptionsError msg), st')) /\
  (forall n, py_int text = Some n -> 0 <= n ->
     (exists secs st',
        resolve_sleep bits st = (inr tt, st') /\
        sleep (options (self st')) = SleepInt secs /\ 0 <= secs <= n) /\
     (forall st', parse bits st = (inr tt, st') ->
        exists secs, sleep (options (self st')) = SleepInt secs /\ 0 <= secs <= n)).
Proof.
  intros Hs. split.
  - intros Hne Hint. split.
    + rewrite (resolve_sleep_text _ _ _ Hs), (truthy_str_true _ Hne), Hint.
      reflexivity.
    + unfold parse. unfold bind at 1.
      destruct (resolve_dest st) as [[e|[]] s1] eqn:Hd.
      * destruct (resolve_dest_fields _ _ _ Hd) as [_ He].
        destruct (He e eq_refl) as [msg ->]. eauto.
      * destruct (resolve_dest_fields _ _ _ Hd) as [Hs1 _]. rewrite Hs in Hs1.
        unfold bind at 1.
        rewrite (resolve_sleep_text _ _ _ Hs1), (truthy_str_true _ Hne), Hint.
        cbn. unfold not_a_number. eauto.
  - intros n Hint Hn.
    pose proof (truthy_str_true _ (int_nonempty _ _ Hint)) as Ht.
    destruct (randint_defined bits 0 n Hn) as [secs Hr].
    pose proof (randint_bounds _ _ _ _ Hr) as Hb.
    split.
    + exists secs. eexists.
      rewrite (resolve_sleep_text _ _ _ Hs), Ht, Hint. cbn. rewrite Hr.
      unfold put_options. split; [reflexivity|]. cbn. auto.
    + intros st'. unfold parse. unfold bind at 1.
      destruct (resolve_dest st) as [[e|[]] s1] eqn:Hd; [discriminate|].
      destruct (resolve_dest_fields _ _ _ Hd) as [Hs1 _]. rewrite Hs in Hs1.
      unfold bind at 1.
      rewrite (resolve_sleep_text _ _ _ Hs1), Ht, Hint. cbn. rewrite Hr.
      unfold put_options. intros Hrest.
      apply after_sleep_fields in Hrest. cbn in Hrest. eauto.
Qed.

(** C10.  For every supplied sleep text that parses as a negative integer,
    drawing from the empty range raises the [ValueError] that the handler of
    line 154 catches: the sleep step raises [<text> is not a number.], the
    error it raises for a text that is not a number, and [parse] fails with
    a configuration error, which is that error when the destination check
    passes. *)
Theorem C10_negative_sleep (bits : Z) (st : State W) (text : string) (n : Z) :
  sleep (options (self st)) = SleepStr text ->
  py_int text = Some n ->
  n < 0 ->
  Py.randint bits 0 n = None /\
  resolve_sleep bits st = (inl (not_a_number text), st) /\
  (exists msg st', parse bits st = (inl (AnsibleOptionsError msg), st')) /\
  (forall st1, resolve_dest st = (inr tt, st1) ->
     parse bits st = (inl (not_a_number text), st1)) /\
  (forall (st2 : State W) text2,
     sleep (options (self st2)) = SleepStr text2 ->
     text2 <> EmptyString -> py_int text2 = None ->
     resolve_sleep bits st2 = (inl (not_a_number text2), st2)).
Proof.
  intros Hs Hint Hn.
  pose proof (truthy_str_true _ (int_nonempty _ _ Hint)) as Ht.
  pose proof (randint_empty bits 0 n Hn) as Hr.
  assert (Hstep : forall s : State W, sleep (options (self s)) = SleepStr text ->
            resolve_sleep bits s = (inl (not_a_number text), s)).
  { intros s Hss. rewrite (resolve_sleep_text _ _ _ Hss), Ht, Hint. cbn.
    rewrite Hr. reflexivity. }
  split; [exact Hr|]. split; [exact (Hstep st Hs)|]. split; [|split].
  - unfold parse. unfold bind at 1.
    destruct (resolve_dest st) as [[e|[]] s1] eqn:Hd.
    + destruct (resolve_dest_fields _ _ _ Hd) as [_ He].
      destruct (He e eq_refl) as [msg ->]. eauto.
    + destruct (resolve_dest_fields _ _ _ Hd) as [Hs1 _]. rewrite Hs in Hs1.
      unfold bind at 1. rewrite (Hstep s1 Hs1). unfold not_a_number. eauto.
  - intros st1 Hd.
    destruct (resolve_dest_fields _ _ _ Hd) as [Hs1 _]. rewrite Hs in Hs1.
    unfold parse. unfold bind at 1. rewrite Hd.
    unfold bind at 1. rewrite (Hstep st1 Hs1). reflexivity.
  - intros st2 text2 Hs2 Hne Hnone.
    rewrite (resolve_sleep_text _ _ _ Hs2), (truthy_str_true _ Hne), Hnone.
    reflexivity.
Qed.

(** Every successful [parse] ran with the module name [git], and leaves it
    in place. *)
Lemma parse_ok_git (bits : Z) (st st' : State W) :
  parse bits st = (inr tt, st') ->
  module_name (options (self st)) = "git" /\
  module_name (options (self st')) = "git".
Proof.
  intros Hp.
  destruct (parse_before_module_check bits st) as [[e|[]] st1] eqn:Hpre.
  { rewrite (parse_prefix_raises _ _ _ _ Hpre) in Hp. discriminate. }
  pose proof (prefix_fields _ _ _ _ Hpre) as (Hn & _).
  rewrite (parse_after_prefix _ _ _ Hpre) in Hp.
  unfold bind at 1 in Hp. rewrite check_module_name_eq in Hp.
  destruct (bool_decide (module_name (options (self st1)) = "git")) eqn:Hg;
    [|discriminate].
  apply bool_decide_eq_true_1 in Hg.
  split; [congruence|].
  unfold check_reserved_keys, finish_parse in Hp. unfold_monad.
  repeat break_step; inversion Hp; subst; cbn; auto.
Qed.

End ParseProperties.

(** ** Playbook selection *)

Section PlaybookProperties.
Context {W : Type} `{Platform W}.

(** [try_playbook] only looks: 1 when the path is missing, 2 when it cannot
    be read, 0 otherwise. *)
Lemma try_playbook_eq (path : string) (st : State W) :
  try_playbook path st =
    (inr (if negb (os_path_exists path (world st)) then 1
          else if negb (os_access_R_OK path (world st)) then 2 else 0), st).
Proof.
  unfold try_playbook. unfold_monad.
  destruct (os_path_exists path (world st)); cbn; [|reflexivity].
  destruct (os_access_R_OK path (world st)); reflexivity.
Qed.

Lemma try_playbook_usable (path : string) (st : State W) :
  usable st path = true -> try_playbook path st = (inr 0, st).
Proof.
  unfold usable. rewrite try_playbook_eq. intros [-> ->]%andb_true_iff.
  reflexivity.
Qed.

(** A path that is not usable yields a code of [PLAYBOOK_ERRORS]. *)
Lemma try_playbook_unusable (path : string) (st : State W) :
  usable st path = false ->
  exists rc, try_playbook path st = (inr rc, st) /\
             (rc =? 0) = false /\
             PLAYBOOK_ERRORS rc = Some (failure_reason st path).
Proof.
  unfold usable, failure_reason. rewrite try_playbook_eq.
  destruct (os_path_exists path (world st)); cbn.
  - intros ->. cbn. exists 2. auto.
  - intros _. exists 1. auto.
Qed.

(** The loop returns the first usable candidate, and otherwise one line for
    each candidate, in the order of the list. *)
Lemma try_candidates_eq (pbs : list string) (st : State W) :
  forall errors,
    match find (usable st) pbs with
    | Some pb => exists errs, try_candidates pbs errors st = (inr (Some pb, errs), st)
    | None =>
        try_candidates pbs errors st
        = (inr (None, (errors ++ map (failure_line st) pbs)%list), st)
    end.
Proof.
  induction pbs as [|pb rest IH]; intros errors; cbn [find map].
  - cbn [try_candidates]. rewrite app_nil_r. reflexivity.
  - destruct (usable st pb) eqn:Hu.
    + exists errors. cbn [try_candidates]. unfold bind.
      rewrite (try_playbook_usable _ _ Hu). reflexivity.
    + destruct (try_playbook_unusable _ _ Hu) as (rc & Hrc & Hnz & Hreason).
      assert (Hstep : try_candidates (pb :: rest) errors st
                      = try_candidates rest (errors ++ [failure_line st pb])%list st).
      { cbn [try_candidates]. unfold bind at 1. rewrite Hrc, Hnz.
        unfold bind at 1. unfold playbook_error. rewrite Hreason. reflexivity. }
      rewrite Hstep.
      specialize (IH (errors ++ [failure_line st pb])%list).
      destruct (find (usable st) rest) as [found|].
      * exact IH.
      * rewrite IH, <- app_assoc. reflexivity.
Qed.

(** Joining a relative name to a directory that does not end with a
    separator inserts one. *)
Lemma os_path_join_plain (a b : string) :
  a <> EmptyString -> Py.endswith_char "/"%char a = false ->
  Py.startswith "/" b = false ->
  Py.os_path_join a b = a +:+ "/" +:+ b.
Proof.
  intros Ha Hend Hb. unfold Py.os_path_join. rewrite Hb, Hend.
  rewrite bool_decide_eq_false_2 by exact Ha. reflexivity.
Qed.

Lemma relative_host_name (fqdn : string) :
  Py.startswith "/" fqdn = false ->
  Py.startswith "/" (fqdn +:+ ".yml") = false /\
  Py.startswith "/" (Py.split_head "."%char fqdn +:+ ".yml") = false.
Proof.
  destruct fqdn as [|a rest]; [split; reflexivity|].
  cbn [Py.startswith Py.split_head].
  destruct (Ascii.eqb "/" a) eqn:Hslash; [intros Hx; discriminate Hx|].
  intros _. split.
  - change (String a rest +:+ ".yml") with (String a (rest +:+ ".yml")).
    cbn [Py.startswith]. rewrite Hslash. reflexivity.
  - destruct (Ascii.eqb a "."); [reflexivity|].
    change (String a (Py.split_head "." rest) +:+ ".yml")
      with (String a (Py.split_head "." rest +:+ ".yml")).
    cbn [Py.startswith]. rewrite Hslash. reflexivity.
Qed.

(** C3.  Without a playbook argument ([self.args] is empty or starts with
    [None]) the candidates are, in this order, [<fqdn>.yml], the host name up
    to its first dot followed by [.yml], and [local.yml], each joined to the
    checkout directory (for a directory without a closing separator and a
    host name without a leading one: [<dest>/<fqdn>.yml],
    [<dest>/<short>.yml], [<dest>/local.yml]); [select_playbook] returns the
    first one that exists and is readable and makes no call then; when none
    is, it emits one warning that joins the three failure lines and returns
    [None], which [run_playbook] turns into the configuration error
    [Could not find a playbook to run.] *)
Theorem C3_fallback_order (st : State W) (path : string) :
  match args (self st) with Some _ :: _ => False | _ => True end ->
  candidates path =
    [Py.os_path_join path (socket_getfqdn +:+ ".yml");
     Py.os_path_join path (Py.split_head "."%char socket_getfqdn +:+ ".yml");
     Py.os_path_join path "local.yml"] /\
  (path <> EmptyString -> Py.endswith_char "/"%char path = false ->
   Py.startswith "/" socket_getfqdn = false ->
   candidates path =
     [path +:+ "/" +:+ socket_getfqdn +:+ ".yml";
      path +:+ "/" +:+ Py.split_head "."%char socket_getfqdn +:+ ".yml";
      path +:+ "/" +:+ "local.yml"]) /\
  match find (usable st) (candidates path) with
  | Some pb => select_playbook path st = (inr (Some pb), st)
  | None =>
      let warning := Warning (Py.join Py.newline (map (failure_line st) (candidates path))) in
      select_playbook path st = (inr None, log warning st) /\
      (path = dest (options (self st)) ->
       forall base_opts limit_opts,
         run_playbook base_opts limit_opts st
         = (inl (AnsibleOptionsError "Could not find a playbook to run."),
            log warning st))
  end.
Proof.
  intros Hargs. split; [reflexivity|]. split.
  { intros Hpath Hend Hfqdn.
    destruct (relative_host_name _ Hfqdn) as [Hfull Hshort].
    unfold candidates, DEFAULT_PLAYBOOK.
    rewrite !os_path_join_plain by (assumption || reflexivity). reflexivity. }
  assert (Hsel : select_playbook path st =
            (found <- try_candidates (candidates path) [] ;;
             match found with
             | (None, errors) => emit (Warning (Py.join Py.newline errors)) ;; ret None
             | (Some pb, _) => ret (Some pb)
             end) st).
  { unfold select_playbook. unfold bind at 1. unfold get_args.
    destruct (args (self st)) as [|[a|] rest]; [reflexivity|contradiction|reflexivity]. }
  pose proof (try_candidates_eq (candidates path) st []) as Hloop.
  destruct (find (usable st) (candidates path)) as [pb|].
  - destruct Hloop as [errs Hloop]. rewrite Hsel. unfold bind. rewrite Hloop.
    reflexivity.
  - cbn [app] in Hloop.
    assert (Hnone : select_playbook path st
              = (inr None,
                 log (Warning (Py.join Py.newline (map (failure_line st) (candidates path)))) st)).
    { rewrite Hsel. unfold bind at 1. rewrite Hloop. reflexivity. }
    cbv zeta. split; [exact Hnone|].
    intros -> base_opts limit_opts. unfold run_playbook.
    unfold bind at 1. unfold get_options. unfold bind at 1. rewrite Hnone.
    reflexivity.
Qed.

(** C6.  With a playbook argument, [select_playbook] joins it to the checkout
    directory and tests that path only: existence first, then readability.
    It returns the joined path when both hold; otherwise it emits one
    warning, [<path>: File does not exist] or [<path>: File is not readable]
    for the first test that fails, and returns [None].  No other path is
    looked at. *)
Theorem C6_explicit_playbook (st : State W) (path arg0 : string)
    (rest : list (option string)) :
  args (self st) = Some arg0 :: rest ->
  let playbook := Py.os_path_join path arg0 in
  select_playbook path st =
    if negb (os_path_exists playbook (world st)) then
      (inr None, log (Warning (playbook +:+ ": " +:+ "File does not exist")) st)
    else if negb (os_access_R_OK playbook (world st)) then
      (inr None, log (Warning (playbook +:+ ": " +:+ "File is not readable")) st)
    else (inr (Some playbook), st).
Proof.
  intros Hargs playbook. unfold select_playbook.
  unfold bind at 1. unfold get_args. rewrite Hargs. fold playbook.
  unfold bind at 1. rewrite try_playbook_eq.
  destruct (os_path_exists playbook (world st)); cbn [negb];
    [destruct (os_access_R_OK playbook (world st)); cbn [negb]|]; reflexivity.
Qed.

End PlaybookProperties.

(** ** What the pieces of [run] leave alone *)

Section Follows.
Context {W : Type} `{Platform W}.
Variable frozen : string -> Prop.
Variable okev : Event -> Prop.
Variable E : Exn -> Prop.
Variable o0 : Options.

Local Abbreviation keeps st st' := (keeps (W := W) frozen okev st st').
Local Abbreviation follows m := (follows (W := W) frozen okev E o0 m).

Lemma keeps_refl (st : State W) : keeps st st.
Proof.
  repeat split; auto. exists []. rewrite app_nil_r. auto.
Qed.

Lemma keeps_trans (st1 st2 st3 : State W) :
  keeps st1 st2 -> keeps st2 st3 -> keeps st1 st3.
Proof.
  intros (Ho1 & Ha1 & Hk1 & evs1 & Ht1 & Hf1) (Ho2 & Ha2 & Hk2 & evs2 & Ht2 & Hf2).
  repeat split; try congruence.
  - intros k Hk. rewrite (Hk2 k Hk). auto.
  - exists (evs1 ++ evs2)%list. split.
    + rewrite Ht2, Ht1, app_assoc. reflexivity.
    + apply Forall_app. auto.
Qed.

Lemma follows_ret {A} (a : A) : follows (ret a).
Proof.
  intros st r st' _ [= <- <-]. split; [apply keeps_refl|discriminate].
Qed.

Lemma follows_raise {A} (e : Exn) : E e -> follows (raise (A := A) e).
Proof.
  intros He st r st' _ [= <- <-]. split; [apply keeps_refl|].
  intros e' [= <-]. exact He.
Qed.

Lemma follows_bind {A B} (m : M W A) (k : A -> M W B) :
  follows m -> (forall a, follows (k a)) -> follows (bind m k).
Proof.
  intros Hm Hk st r st' Ho. unfold bind.
  destruct (m st) as [[e|a] s1] eqn:Hms; intros Hr.
  - injection Hr as <- <-. destruct (Hm _ _ _ Ho Hms) as [Hkeep He].
    split; [exact Hkeep|]. intros e' [= <-]. exact (He e eq_refl).
  - destruct (Hm _ _ _ Ho Hms) as [Hkeep _].
    assert (Ho1 : options (self s1) = o0) by (destruct Hkeep as [-> _]; exact Ho).
    destruct (Hk a _ _ _ Ho1 Hr) as [Hkeep' He].
    split; [exact (keeps_trans _ _ _ Hkeep Hkeep')|exact He].
Qed.

(** Reading the options yields [o0]. *)
Lemma follows_options {B} (k : Options -> M W B) :
  follows (k o0) -> follows (bind get_options k).
Proof.
  intros Hk st r st' Ho. unfold bind, get_options. rewrite Ho.
  exact (Hk _ _ _ Ho).
Qed.

Lemma follows_get_scm_args : follows get_scm_args.
Proof.
  intros st r st' _ [= <- <-]. split; [apply keeps_refl|discriminate].
Qed.

Lemma follows_get_args : follows get_args.
Proof.
  intros st r st' _ [= <- <-]. split; [apply keeps_refl|discriminate].
Qed.

Lemma follows_ask {A} (f : W -> A) : follows (ask f).
Proof.
  intros st r st' _ [= <- <-]. split; [apply keeps_refl|discriminate].
Qed.

Lemma follows_call {A} (f : W -> A * W) : follows (call f).
Proof.
  intros st r st' _. unfold call. destruct (f (world st)) as [a w].
  intros [= <- <-]. split; [|discriminate].
  repeat split; auto. exists []. cbn. rewrite app_nil_r. auto.
Qed.

Lemma follows_emit (ev : Event) : okev ev -> follows (emit ev).
Proof.
  intros Hev st r st' _ [= <- <-]. split; [|discriminate].
  repeat split; auto. exists [ev]. cbn. auto.
Qed.

Lemma follows_set_item (k v : string) : ~ frozen k -> follows (set_item k v).
Proof.
  intros Hk st r st' _ [= <- <-]. split; [|discriminate].
  repeat split; cbn; auto.
  - intros k' Hk'. apply lookup_insert_ne. intros ->. contradiction.
  - exists []. rewrite app_nil_r. auto.
Qed.

Lemma follows_del_item (k : string) : ~ frozen k -> follows (del_item k).
Proof.
  intros Hk st r st' _ [= <- <-]. split; [|discriminate].
  repeat split; cbn; auto.
  - intros k' Hk'. apply lookup_delete_ne. intros ->. contradiction.
  - exists []. rewrite app_nil_r. auto.
Qed.

Lemma follows_when (c : bool) (body : M W unit) :
  (c = true -> follows body) -> follows (when c body).
Proof.
  destruct c; cbn; intros Hb; [auto|apply follows_ret].
Qed.

Lemma follows_warn_if_present (k msg : string) :
  okev (Warning msg) -> follows (warn_if_present k msg).
Proof.
  intros Hev. unfold warn_if_present.
  apply follows_bind; [apply follows_get_scm_args|intros kv].
  apply follows_when. intros _. apply follows_emit, Hev.
Qed.

Lemma follows_inv_cli_loop (invs : list InvSource) :
  forall acc, follows (inv_cli_loop invs acc).
Proof.
  induction invs as [|[inv|l] rest IH]; intros acc; cbn [inv_cli_loop].
  - apply follows_ret.
  - apply follows_bind; [apply follows_ask|intros ex].
    destruct (Py.contains "," inv || ex); apply IH.
  - apply IH.
Qed.

Lemma follows_get_inv_cli : follows get_inv_cli.
Proof.
  apply follows_options, follows_inv_cli_loop.
Qed.

Lemma follows_try_playbook (path : string) : follows (try_playbook path).
Proof.
  unfold try_playbook.
  apply follows_bind; [apply follows_ask|intros ex].
  destruct (negb ex); [apply follows_ret|].
  apply follows_bind; [apply follows_ask|intros rd].
  destruct (negb rd); apply follows_ret.
Qed.

Lemma follows_playbook_error (rc : Z) :
  (forall key, E (KeyError key)) -> follows (playbook_error rc).
Proof.
  intros HE. unfold playbook_error.
  destruct (PLAYBOOK_ERRORS rc); [apply follows_ret|apply follows_raise, HE].
Qed.

Lemma follows_try_candidates (pbs : list string) :
  (forall key, E (KeyError key)) ->
  forall errors, follows (try_candidates pbs errors).
Proof.
  intros HE.
  induction pbs as [|pb rest IH]; intros errors; cbn [try_candidates].
  - apply follows_ret.
  - apply follows_bind; [apply follows_try_playbook|intros rc].
    destruct (rc =? 0); [apply follows_ret|].
    apply follows_bind; [apply follows_playbook_error, HE|intros reason].
    apply IH.
Qed.

End Follows.

(** One step of a derivation of [follows]: the first rule that fits the
    head of the code; conditions are split with their equations kept. *)
Ltac follow_step :=
  first
    [ apply follows_get_inv_cli
    | apply follows_inv_cli_loop
    | apply follows_try_playbook
    | apply follows_try_candidates
    | apply follows_playbook_error
    | apply follows_options
    | apply follows_warn_if_present
    | apply follows_set_item
    | apply follows_del_item
    | apply follows_ret
    | apply follows_get_scm_args
    | apply follows_get_args
    | apply follows_ask
    | apply follows_call
    | apply follows_emit
    | apply follows_raise
    | apply follows_when; intros ?
    | match goal with
      | |- follows _ _ _ _ (if ?c then _ else _) => destruct c eqn:?
      | |- follows _ _ _ _ (match ?c with _ => _ end) => destruct c eqn:?
      end
    | apply follows_bind; [|intros ?] ].

Ltac follow := repeat follow_step.

Ltac unfold_run :=
  unfold run, do_checkout, run_checkout, prepare_checkout, after_checkout,
    run_playbook, execute_playbook, finish_run, select_playbook,
    exec, chdir, nap, reconcile_scm_args, apply_common, apply_checkout, apply_git,
    apply_accept_host_key, apply_depth, apply_git_flags, apply_subversion.

(** ** The execution sequence *)

Section RunProperties.
Context {W : Type} `{Platform W}.

(** Whatever [run] does, it keeps [self.options] and [self.args]. *)
Lemma run_follows (o0 : Options) :
  follows (W := W) nothing anything anything o0 run.
Proof.
  unfold_run.
  follow; try exact I; try (intros Hn; exact Hn); intros key; exact I.
Qed.

(** Before the checkout subprocess no subprocess is started. *)
Lemma prepare_checkout_follows (o0 : Options) :
  follows (W := W) nothing no_subprocess anything o0 prepare_checkout.
Proof.
  unfold_run. follow; try exact I; try (intros Hn; exact Hn).
Qed.

(** [nap] leaves the argument map alone. *)
Lemma nap_follows (o0 : Options) :
  follows (W := W) anything anything anything o0 nap.
Proof. unfold_run. follow; exact I. Qed.

(** The command that [prepare_checkout] returns is the one of line 285,
    built from the argument map as [run] leaves it. *)
Lemma prepare_checkout_cmd (st s0 : State W) (base_opts limit_opts cmd : string) :
  prepare_checkout st = (inr (base_opts, limit_opts, cmd), s0) ->
  exists inv,
    cmd = checkout_cmd (options (self st)) (scm_args (self s0)) (inv_opts_of inv)
            base_opts limit_opts.
Proof.
  unfold prepare_checkout. unfold bind at 1. unfold emit at 1.
  unfold bind at 1. unfold emit at 1.
  unfold bind at 1. unfold get_options at 1. cbn [log self].
  set (o := options (self st)).
  unfold bind at 1.
  destruct (get_inv_cli _) as [[e|inv] sa]; [discriminate|].
  unfold bind at 1.
  destruct (reconcile_scm_args sa) as [[e|[]] sb]; [discriminate|].
  unfold bind at 1. unfold get_scm_args at 1.
  unfold bind at 1.
  destruct (module_loader_find_plugin (module_name o)); [|discriminate].
  unfold ret at 1. unfold bind at 1.
  destruct (nap sb) as [[e|[]] sc] eqn:Hnap; [discriminate|].
  intros [= <- <- <- <-].
  destruct (nap_follows _ _ _ _ eq_refl Hnap) as [(_ & _ & Hkv & _) _].
  exists inv. f_equal. symmetry. apply map_eq. intros k. apply Hkv. exact I.
Qed.

Lemma commands_app (tr1 tr2 : list Event) :
  commands (tr1 ++ tr2) = (commands tr1 ++ commands tr2)%list.
Proof.
  induction tr1 as [|ev tr1 IH]; [reflexivity|].
  destruct ev; cbn [app commands]; rewrite IH; reflexivity.
Qed.

Lemma commands_quiet (evs : list Event) :
  Forall no_subprocess evs -> commands evs = [].
Proof.
  induction 1 as [|ev evs Hev _ IH]; [reflexivity|].
  destruct ev; cbn [commands]; try exact IH. destruct Hev.
Qed.

(** [do_checkout] is [prepare_checkout] followed by one subprocess, whose
    result it returns. *)
Lemma do_checkout_inv (st st1 : State W) (base_opts limit_opts out : string) (rc : Z) :
  do_checkout st = (inr (base_opts, limit_opts, rc, out), st1) ->
  exists s0 cmd err,
    prepare_checkout st = (inr (base_opts, limit_opts, cmd), s0) /\
    run_cmd cmd (world s0) = ((rc, out, err), world st1) /\
    self st1 = self s0 /\
    trace st1 = (trace s0 ++ [Debug "running ansible with VCS module to checkout repo";
                              Vvvv ("EXEC: " +:+ cmd); RunCmd cmd])%list.
Proof.
  unfold do_checkout. unfold bind at 1.
  destruct (prepare_checkout st) as [[e|[[b l] cmd]] s0]; [discriminate|].
  unfold run_checkout, exec. unfold_monad. unfold log. cbn [self world trace].
  destruct (run_cmd cmd (world s0)) as [[[rc' out'] err'] w'] eqn:Hcmd.
  intros [= <- <- <- <- <-]. exists s0, cmd, err'. cbn.
  rewrite <- !app_assoc. auto.
Qed.

(** C2.  Let the checkout subprocess of [run] return the exit code [rc] and
    the output [out], leaving the state [st1]; it is the only subprocess the
    run has started so far and runs the command of line 285.  If [rc] is not
    zero and
    [force] is unset, [run] returns [rc] in the state [st1]: nothing is
    called after the checkout.  If [rc] is not zero and [force] is set, [run]
    emits the warning of line 302 and goes on with playbook selection, and
    executes the playbook that selection returns.  If [rc] is zero,
    [ifchanged] is set and [out] does not contain the marker, [run] reports
    that the repository has not changed and returns 0, again without any
    further call. *)
Theorem C2_checkout_result (st st1 : State W) (base_opts limit_opts out : string)
    (rc : Z) :
  do_checkout st = (inr (base_opts, limit_opts, rc, out), st1) ->
  let o := options (self st) in
  (exists before cmd inv,
     trace st1 = (trace st ++ before ++ [RunCmd cmd])%list /\
     Forall no_subprocess before /\
     commands (trace st1) = (commands (trace st) ++ [cmd])%list /\
     cmd = checkout_cmd o (scm_args (self st1)) (inv_opts_of inv) base_opts limit_opts /\
     exists w err, run_cmd cmd w = ((rc, out, err), world st1)) /\
  (rc <> 0 -> force o = false -> run st = (inr rc, st1)) /\
  (rc <> 0 -> force o = true ->
     let st2 := log (Warning "Unable to update repository. Continuing with (forced) run of playbook.") st1 in
     run st = run_playbook base_opts limit_opts st2 /\
     forall pb st3, select_playbook (dest o) st2 = (inr (Some pb), st3) ->
       run st = execute_playbook (playbook_cmd o base_opts limit_opts pb) st3) /\
  (rc = 0 -> ifchanged o = true -> Py.contains changed_marker out = false ->
     run st = (inr 0, log (Display "Repository has not changed, quitting.") st1)).
Proof.
  intros Hco o.
  destruct (do_checkout_inv _ _ _ _ _ _ Hco) as (s0 & cmd & err & Hprep & Hcmd & Hself & Htrace).
  destruct (prepare_checkout_follows _ _ _ _ eq_refl Hprep)
    as [(Ho0 & _ & _ & evs & Hevs & Hquiet) _].
  assert (Ho1 : options (self st1) = o) by (rewrite Hself; exact Ho0).
  assert (Hrun : run st =
            if negb (rc =? 0) then
              if force o then
                run_playbook base_opts limit_opts
                  (log (Warning "Unable to update repository. Continuing with (forced) run of playbook.") st1)
              else (inr rc, st1)
            else if ifchanged o && negb (Py.contains changed_marker out) then
              (inr 0, log (Display "Repository has not changed, quitting.") st1)
            else run_playbook base_opts limit_opts st1).
  { unfold run. unfold bind at 1. rewrite Hco.
    unfold after_checkout. unfold bind at 1. unfold get_options at 1.
    rewrite Ho1.
    destruct (negb (rc =? 0)); [destruct (force o)|
      destruct (ifchanged o && negb (Py.contains changed_marker out))];
      reflexivity. }
  split; [|split; [|split]].
  - destruct (prepare_checkout_cmd _ _ _ _ _ Hprep) as [inv Hinv].
    exists (evs ++ [Debug "running ansible with VCS module to checkout repo";
                    Vvvv ("EXEC: " +:+ cmd)])%list, cmd, inv.
    assert (Hquiet' : Forall no_subprocess
              (evs ++ [Debug "running ansible with VCS module to checkout repo";
                       Vvvv ("EXEC: " +:+ cmd)])%list).
    { apply Forall_app. split; [exact Hquiet|]. repeat constructor. }
    assert (Htr : trace st1
              = (trace st ++ (evs ++ [Debug "running ansible with VCS module to checkout repo";
                                      Vvvv ("EXEC: " +:+ cmd)]) ++ [RunCmd cmd])%list).
    { rewrite Htrace, Hevs, <- !app_assoc. reflexivity. }
    split; [exact Htr|]. split; [exact Hquiet'|]. split; [|split].
    + rewrite Htr, 2!commands_app, (commands_quiet _ Hquiet'). reflexivity.
    + rewrite Hself. exact Hinv.
    + eauto.
  - intros Hrc Hforce. apply Z.eqb_neq in Hrc.
    rewrite Hrun, Hrc, Hforce. reflexivity.
  - intros Hrc Hforce. apply Z.eqb_neq in Hrc.
    rewrite Hrun, Hrc, Hforce. cbn [negb]. cbv zeta. split; [reflexivity|].
    intros pb st3 Hsel.
    unfold run_playbook. unfold bind at 1. unfold get_options at 1.
    cbn [log self]. rewrite Ho1. unfold bind at 1. rewrite Hsel. reflexivity.
  - intros -> Hif Hout. rewrite Hrun, Hif, Hout. reflexivity.
Qed.

(** Uses the module name [git], given by [Hg], to evaluate the tests on the
    module name and to close the branches they exclude. *)
Ltac with_git Hg :=
  repeat match goal with
         | Hc : context [module_name _] |- _ => rewrite Hg in Hc
         end;
  try match goal with
      | Hc : _ = true |- _ => vm_compute in Hc; discriminate Hc
      | Hc : _ = false |- _ => vm_compute in Hc; discriminate Hc
      | Hc : checkout_key_of _ = None |- _ => vm_compute in Hc; discriminate Hc
      end;
  try match goal with
      | Hc : checkout_key_of _ = Some _ |- _ =>
          vm_compute in Hc; injection Hc as <-
      end.

Ltac absurd_some :=
  match goal with
  | Hx : is_Some None |- _ => destruct Hx; discriminate
  end.

(** Closes a side condition on a key, an event or an exception. *)
Ltac side :=
  first
    [ exact I
    | solve [vm_compute; intuition discriminate]
    | solve [intros ?; vm_compute; intuition discriminate] ].

(** The clone depth, in closed form. *)
Lemma apply_depth_eq (st : State W) :
  let o := options (self st) in
  let kv := scm_args (self st) in
  apply_depth st =
    if negb (fullclone o) && negb (has_key "depth" kv) then
      (inr tt, mkState (mkPullCLI o (<["depth" := "1"]> kv) (args (self st)))
                       (world st) (trace st))
    else if fullclone o && has_key "depth" kv then
      (inr tt, mkState (mkPullCLI o (delete "depth" kv) (args (self st)))
                       (world st) (trace st ++ [Warning depth_removed_msg]))
    else (inr tt, st).
Proof.
  cbv zeta. unfold apply_depth, set_item, del_item. unfold_monad.
  destruct (negb (fullclone (options (self st)))
            && negb (has_key "depth" (scm_args (self st)))); [reflexivity|].
  destruct (fullclone (options (self st)) && has_key "depth" (scm_args (self st)));
    reflexivity.
Qed.

(** For [git], the code around the depth block neither touches the [depth]
    entry nor emits its warning, and does not raise. *)
Lemma before_depth_follows (o0 : Options) :
  module_name o0 = "git" ->
  follows (W := W) (eq "depth") (fun ev => ev <> Warning depth_removed_msg) nothing o0
    (apply_common ;; apply_accept_host_key).
Proof.
  intros Hg. unfold_run. follow; with_git Hg; side.
Qed.

Lemma after_depth_follows (o0 : Options) :
  follows (W := W) (eq "depth") (fun ev => ev <> Warning depth_removed_msg) nothing o0
    apply_git_flags.
Proof.
  unfold_run. follow; side.
Qed.

(** For [git], reconciliation is the depth block between the code before it
    and the code after it. *)
Lemma reconcile_git_eq (st : State W) :
  module_name (options (self st)) = "git" ->
  reconcile_scm_args st
  = ((apply_common ;; apply_accept_host_key) ;; apply_depth ;; apply_git_flags) st.
Proof.
  intros Hg. unfold reconcile_scm_args, apply_git. unfold bind at 1 5 6.
  destruct (apply_common st) as [[e|[]] s1] eqn:Hc; [reflexivity|].
  assert (Ho : options (self s1) = options (self st)).
  { assert (Hf : follows (W := W) nothing anything anything (options (self st))
                   apply_common).
    { unfold_run. follow; try exact I; intros Hn; exact Hn. }
    destruct (Hf _ _ _ eq_refl Hc) as [(Ho & _) _]. exact Ho. }
  unfold bind at 1. unfold get_options at 1. rewrite Ho, Hg.
  change (bool_decide ("git" = "git")) with true. cbv iota.
  unfold bind at 1 3.
  destruct (apply_accept_host_key s1) as [[e|[]] s2]; reflexivity.
Qed.

(** C4.  For the module [git], reconciliation ([run], lines 207-272) does
    not raise and treats the [depth] entry of the argument map as follows:
    without [--full] and without a [depth] entry it adds [depth=1]; with
    [--full] and a [depth] entry it removes the entry and emits the warning
    of line 244; in the two remaining cases the entry is what it was.  The
    warning is emitted in the second case only. *)
Theorem C4_git_depth (st : State W) :
  module_name (options (self st)) = "git" ->
  let o := options (self st) in
  let kv := scm_args (self st) in
  exists st' evs,
    reconcile_scm_args st = (inr tt, st') /\
    trace st' = (trace st ++ evs)%list /\
    let kv' := scm_args (self st') in
    (fullclone o = false -> kv !! "depth" = None ->
       kv' !! "depth" = Some "1" /\ Warning depth_removed_msg ∉ evs) /\
    (fullclone o = true -> is_Some (kv !! "depth") ->
       kv' !! "depth" = None /\ Warning depth_removed_msg ∈ evs) /\
    (fullclone o = false -> is_Some (kv !! "depth") ->
       kv' !! "depth" = kv !! "depth" /\ Warning depth_removed_msg ∉ evs) /\
    (fullclone o = true -> kv !! "depth" = None ->
       kv' !! "depth" = kv !! "depth" /\ Warning depth_removed_msg ∉ evs).
Proof.
  intros Hg o kv. rewrite (reconcile_git_eq _ Hg). unfold bind at 1.
  destruct ((apply_common ;; apply_accept_host_key) st) as [r1 s1] eqn:H1.
  destruct (before_depth_follows o Hg _ _ _ eq_refl H1)
    as [(Ho1 & _ & Hk1 & evs1 & Ht1 & Hq1) He1].
  destruct r1 as [e|[]]; [destruct (He1 e eq_refl)|].
  specialize (Hk1 "depth" eq_refl). fold kv in Hk1.
  unfold bind at 1. pose proof (apply_depth_eq s1) as Hd. cbv zeta in Hd.
  rewrite Ho1 in Hd. fold o in Hd. unfold has_key in Hd. rewrite Hk1 in Hd.
  assert (Hnotin : forall evs, Forall (fun ev => ev <> Warning depth_removed_msg) evs ->
                     Warning depth_removed_msg ∉ evs).
  { intros evs Hall Hin. rewrite Forall_forall in Hall.
    exact (Hall _ Hin eq_refl). }
  destruct (fullclone o) eqn:Hfull; destruct (kv !! "depth") as [d|] eqn:Hdepth.
  - (* --full, depth given *)
    rewrite bool_decide_eq_true_2 in Hd by eauto. cbn [negb andb] in Hd. rewrite Hd.
    match goal with |- context [apply_git_flags ?s] => set (s2 := s) end.
    destruct (apply_git_flags s2) as [r3 s3] eqn:H3.
    destruct (after_depth_follows o s2 _ _ eq_refl H3)
      as [(_ & _ & Hk3 & evs3 & Ht3 & Hq3) He3].
    destruct r3 as [e|[]]; [destruct (He3 e eq_refl)|].
    exists s3, (evs1 ++ [Warning depth_removed_msg] ++ evs3)%list.
    split; [reflexivity|]. split.
    { rewrite Ht3. subst s2. cbn [trace]. rewrite Ht1, <- !app_assoc. reflexivity. }
    cbv zeta. rewrite (Hk3 "depth" eq_refl). subst s2. cbn [self scm_args].
    rewrite lookup_delete_eq.
    repeat split; intros; try congruence; try absurd_some.
    rewrite !elem_of_app, list_elem_of_singleton. auto.
  - (* --full, no depth *)
    rewrite bool_decide_eq_false_2 in Hd by (intros [? ?]; discriminate).
    cbn [negb andb] in Hd. rewrite Hd.
    destruct (apply_git_flags s1) as [r3 s3] eqn:H3.
    destruct (after_depth_follows o _ _ _ Ho1 H3)
      as [(_ & _ & Hk3 & evs3 & Ht3 & Hq3) He3].
    destruct r3 as [e|[]]; [destruct (He3 e eq_refl)|].
    exists s3, (evs1 ++ evs3)%list.
    split; [reflexivity|]. split.
    { rewrite Ht3, Ht1, <- app_assoc. reflexivity. }
    cbv zeta. rewrite (Hk3 "depth" eq_refl), Hk1.
    repeat split; intros; try congruence; try absurd_some;
      apply Hnotin, Forall_app; auto.
  - (* no --full, depth given *)
    rewrite bool_decide_eq_true_2 in Hd by eauto. cbn [negb andb] in Hd. rewrite Hd.
    destruct (apply_git_flags s1) as [r3 s3] eqn:H3.
    destruct (after_depth_follows o _ _ _ Ho1 H3)
      as [(_ & _ & Hk3 & evs3 & Ht3 & Hq3) He3].
    destruct r3 as [e|[]]; [destruct (He3 e eq_refl)|].
    exists s3, (evs1 ++ evs3)%list.
    split; [reflexivity|]. split.
    { rewrite Ht3, Ht1, <- app_assoc. reflexivity. }
    cbv zeta. rewrite (Hk3 "depth" eq_refl), Hk1.
    repeat split; intros; try congruence; try absurd_some;
      apply Hnotin, Forall_app; auto.
  - (* no --full, no depth *)
    rewrite bool_decide_eq_false_2 in Hd by (intros [? ?]; discriminate).
    cbn [negb andb] in Hd. rewrite Hd.
    match goal with |- context [apply_git_flags ?s] => set (s2 := s) end.
    destruct (apply_git_flags s2) as [r3 s3] eqn:H3.
    destruct (after_depth_follows o s2 _ _ eq_refl H3)
      as [(_ & _ & Hk3 & evs3 & Ht3 & Hq3) He3].
    destruct r3 as [e|[]]; [destruct (He3 e eq_refl)|].
    exists s3, (evs1 ++ evs3)%list.
    split; [reflexivity|]. split.
    { rewrite Ht3. subst s2. cbn [trace]. rewrite Ht1, <- app_assoc. reflexivity. }
    cbv zeta. rewrite (Hk3 "depth" eq_refl). subst s2. cbn [self scm_args].
    rewrite lookup_insert_eq.
    repeat split; intros; try congruence; try absurd_some;
      apply Hnotin, Forall_app; auto.
Qed.

(** [_get_inv_cli] only looks at the file system. *)
Lemma inv_cli_loop_pure (invs : list InvSource) (st : State W) :
  forall acc, exists inv_opts, inv_cli_loop invs acc st = (inr inv_opts, st).
Proof.
  induction invs as [|[inv|l] rest IH]; intros acc; cbn [inv_cli_loop].
  - eexists. reflexivity.
  - unfold bind, ask.
    destruct (Py.contains "," inv || os_path_exists inv (world st)); apply IH.
  - apply IH.
Qed.

Lemma get_inv_cli_pure (st : State W) :
  exists inv_opts, get_inv_cli st = (inr inv_opts, st).
Proof.
  unfold get_inv_cli, bind, get_options. apply inv_cli_loop_pure.
Qed.

(** What [run] does once the playbook subprocess has returned, when purge
    is requested and [os.chdir('/')] succeeds. *)
Lemma finish_run_purge (st : State W) (rc : Z) (w1 : W) :
  purge (options (self st)) = true ->
  os_chdir "/" (world st) = (None, w1) ->
  let d := dest (options (self st)) in
  finish_run rc st =
    (inr rc,
     mkState (self st) (snd (shutil_rmtree d w1))
       (trace st ++ [Chdir "/"; Rmtree d] ++
        match fst (shutil_rmtree d w1) with
        | Some e => [Error ("Failed to remove " +:+ d +:+ ": " +:+ e)]
        | None => []
        end)).
Proof.
  intros Hp Hcd d. unfold finish_run, chdir. unfold_monad. unfold log.
  cbn [self world trace]. rewrite Hp, Hcd. cbn [self world trace].
  fold d. destruct (shutil_rmtree d w1) as [[e|] w2];
    cbn [fst snd self world trace]; rewrite <- ?app_assoc; reflexivity.
Qed.

(** C8.  Let [run] have reached line 339 in the state [st] with the
    playbook command [cmd], purge requested, and let [os.chdir] to the
    destination succeed.  Then the playbook subprocess is started, and after
    it has returned [rc], [run] goes on with lines 351-358: when
    [os.chdir('/')] succeeds, it has changed to [/] and then called
    [shutil.rmtree] on the destination; when that call raises, the failure
    is logged through [display.error]; in either case [run] returns [rc]. *)
Theorem C8_purge_after_playbook (st : State W) (cmd : string) (wd : W) :
  purge (options (self st)) = true ->
  os_chdir (dest (options (self st))) (world st) = (None, wd) ->
  let d := dest (options (self st)) in
  exists cmd' rc out err st1,
    run_cmd cmd' wd = ((rc, out, err), world st1) /\
    self st1 = self st /\
    trace st1 = (trace st ++ [Chdir d;
                              Debug "running ansible-playbook to do actual work";
                              Debug ("EXEC: " +:+ cmd'); RunCmd cmd'])%list /\
    execute_playbook cmd st = finish_run rc st1 /\
    forall w1, os_chdir "/" (world st1) = (None, w1) ->
      execute_playbook cmd st =
        (inr rc,
         mkState (self st) (snd (shutil_rmtree d w1))
           (trace st1 ++ [Chdir "/"; Rmtree d] ++
            match fst (shutil_rmtree d w1) with
            | Some e => [Error ("Failed to remove " +:+ d +:+ ": " +:+ e)]
            | None => []
            end)).
Proof.
  intros Hp Hcd d. subst d. set (d := dest (options (self st))) in *.
  set (s1 := mkState (self st) wd (trace st ++ [Chdir d])).
  destruct (get_inv_cli_pure s1) as [inv Hinv].
  set (cmd' := if Py.truthy_str inv then cmd +:+ inv else cmd).
  destruct (run_cmd cmd' wd) as [[[rc out] err] w'] eqn:Hrun.
  set (st1 := mkState (self st) w'
                (trace st ++ [Chdir d;
                              Debug "running ansible-playbook to do actual work";
                              Debug ("EXEC: " +:+ cmd'); RunCmd cmd'])).
  assert (Hexec : execute_playbook cmd st = finish_run rc st1).
  { unfold execute_playbook. unfold bind at 1. unfold get_options at 1.
    fold d. unfold bind at 1. unfold chdir. unfold bind at 1. unfold emit at 1.
    unfold bind at 1. unfold call at 1. unfold log. cbn [self world trace].
    rewrite Hcd. unfold ret at 1. fold s1. unfold bind at 1. rewrite Hinv.
    fold cmd'. unfold exec. unfold_monad. unfold log. subst s1.
    cbn [self world trace]. rewrite Hrun. subst st1.
    rewrite <- !app_assoc. reflexivity. }
  exists cmd', rc, out, err, st1.
  split; [exact Hrun|]. split; [reflexivity|]. split; [reflexivity|].
  split; [exact Hexec|].
  intros w1 Hroot. rewrite Hexec.
  exact (finish_run_purge st1 rc w1 Hp Hroot).
Qed.

(** For [git], reconciliation does not raise, leaves the keys of the other
    modules alone and does not emit the export warning. *)
Lemma reconcile_git_follows (o0 : Options) :
  module_name o0 = "git" ->
  follows (W := W) other_module_key (fun ev => ev <> Warning export_removed_msg)
    nothing o0 reconcile_scm_args.
Proof.
  intros Hg. unfold_run. follow; with_git Hg; side.
Qed.

(** For [git], [run] never raises the error of line 208. *)
Lemma run_git_follows (o0 : Options) :
  module_name o0 = "git" ->
  follows (W := W) nothing anything not_unsupported_scm o0 run.
Proof.
  intros Hg. unfold_run. follow; with_git Hg; try side.
Qed.

(** C9.  When [parse] succeeds the module name is [git].  From then on, in
    any state of the instance with these options: [run] never raises the
    error [Unsupported (<name>) SCM module for pull]; reconciliation
    (lines 207-272) does not raise, leaves the entries [repo], [revision] and
    [export] of the argument map as they are and does not emit the export
    warning, so the branches of the other modules do not run. *)
Theorem C9_only_git (bits : Z) (st st' : State W) :
  parse bits st = (inr tt, st') ->
  module_name (options (self st')) = "git" /\
  forall s : State W, options (self s) = options (self st') ->
    (forall name, fst (run s) <> inl (AnsibleOptionsError (unsupported_scm_msg name))) /\
    exists s' evs,
      reconcile_scm_args s = (inr tt, s') /\
      trace s' = (trace s ++ evs)%list /\
      (Warning export_removed_msg ∉ evs) /\
      (forall k, other_module_key k ->
         scm_args (self s') !! k = scm_args (self s) !! k).
Proof.
  intros Hp. destruct (parse_ok_git _ _ _ Hp) as [_ Hg].
  split; [exact Hg|]. intros s Ho. rewrite <- Ho in Hg. split.
  - intros name Hrun. destruct (run s) as [r s'] eqn:Hr. cbn in Hrun. subst r.
    destruct (run_git_follows _ Hg _ _ _ eq_refl Hr) as [_ He].
    exact (He _ eq_refl name eq_refl).
  - destruct (reconcile_scm_args s) as [r s'] eqn:Hr.
    destruct (reconcile_git_follows _ Hg _ _ _ eq_refl Hr)
      as [(_ & _ & Hk & evs & Ht & Hq) He].
    destruct r as [e|[]]; [destruct (He e eq_refl)|].
    exists s', evs. split; [reflexivity|]. split; [exact Ht|]. split; [|exact Hk].
    intros Hin. rewrite Forall_forall in Hq. exact (Hq _ Hin eq_refl).
Qed.

End RunProperties.

(** ** Worked examples on the small platform *)

Section Examples.
Import Sim.

(** C1, on the code.  [parse] rejects [subversion], [hg] and [bzr], three of
    the four module names of [REPO_CHOICES], with the configuration error of
    line 166, whose list of choices is [git] alone; it accepts [git]. *)
Theorem C1_enumeration_rejected :
  Forall (fun name =>
            name ∈ REPO_CHOICES /\
            fst (parse 7 (module_state name))
            = inl (AnsibleOptionsError
                     ("Unsupported repo module " +:+ name +:+ ", choices are git")))
         ["subversion"; "hg"; "bzr"] /\
  fst (parse 7 (module_state "git")) = inr tt.
Proof.
  split; [|vm_compute; reflexivity].
  repeat constructor; try (vm_compute; reflexivity);
    unfold REPO_CHOICES; rewrite !elem_of_cons; auto.
Qed.

(** [-a name=<url>] with [-U <url>]: the values agree and [parse] succeeds. *)
Lemma C5_reserved_keys_witness :
  parse_before_module_check 7 name_state
  = (inr tt, snd (parse_before_module_check 7 name_state)) /\
  fst (parse 7 name_state) = inr tt.
Proof.
  assert (Hpre : parse_before_module_check 7 name_state
                 = (inr tt, snd (parse_before_module_check 7 name_state)))
    by (vm_compute; reflexivity).
  split; [exact Hpre|].
  destruct (C5_reserved_keys 7 name_state _ Hpre) as (_ & Hname & _).
  assert (Hgit : module_name (options (self (snd (parse_before_module_check 7 name_state))))
                 = "git") by (vm_compute; reflexivity).
  assert (Hdest : scm_args (self (snd (parse_before_module_check 7 name_state))) !! "dest"
                  = None) by (vm_compute; reflexivity).
  assert (Hkey : scm_args (self (snd (parse_before_module_check 7 name_state))) !! "name"
                 = Some repo_url) by (vm_compute; reflexivity).
  destruct (Hname Hgit Hdest repo_url Hkey) as [_ Hsame].
  destruct (Hsame ltac:(vm_compute; reflexivity)) as [_ Hok].
  apply Hok. reflexivity.
Defined.

(** [-s ''] is a sleep value that does not parse as an integer, and [parse]
    accepts it and leaves it as it is. *)
Lemma C7_empty_sleep_accepted :
  sleep (options (self empty_sleep_state)) = SleepStr EmptyString /\
  py_int (W := World) EmptyString = None /\
  fst (parse 7 empty_sleep_state) = inr tt /\
  sleep (options (self (snd (parse 7 empty_sleep_state)))) = SleepStr EmptyString.
Proof. repeat split; vm_compute; reflexivity. Qed.

(** [-s 30]: the sleep step stores an integer between 0 and 30. *)
Lemma C7_sleep_resolution_witness :
  sleep (options (self git_state)) = SleepStr "30" /\
  exists secs st',
    resolve_sleep 7 git_state = (inr tt, st') /\
    sleep (options (self st')) = SleepInt secs /\ 0 <= secs <= 30.
Proof.
  split; [reflexivity|].
  destruct (C7_sleep_resolution 7 git_state "30" eq_refl) as [_ Hint].
  destruct (Hint 30 ltac:(vm_compute; reflexivity) ltac:(lia)) as [Hstep _].
  exact Hstep.
Defined.

(** [-s -5]: the sleep step raises [-5 is not a number.] *)
Lemma C10_negative_sleep_witness :
  sleep (options (self negative_sleep_state)) = SleepStr "-5" /\
  py_int (W := World) "-5" = Some (-5) /\
  -5 < 0 /\
  resolve_sleep 7 negative_sleep_state
  = (inl (not_a_number "-5"), negative_sleep_state).
Proof.
  assert (Hint : py_int (W := World) "-5" = Some (-5)) by (vm_compute; reflexivity).
  split; [reflexivity|]. split; [exact Hint|]. split; [lia|].
  destruct (C10_negative_sleep 7 negative_sleep_state "-5" (-5) eq_refl
              Hint ltac:(lia)) as (_ & Hstep & _).
  exact Hstep.
Defined.

(** A checkout that exits with code 1, without [--force]: [run] returns 1 in
    the state the checkout left. *)
Lemma C2_checkout_result_witness :
  do_checkout failing_state
  = (inr ("-c local ", "localhost,web01.example.org,web01,127.0.0.1", 1, EmptyString),
     snd (do_checkout failing_state)) /\
  run failing_state = (inr 1, snd (do_checkout failing_state)).
Proof.
  assert (Hco : do_checkout failing_state
                = (inr ("-c local ", "localhost,web01.example.org,web01,127.0.0.1",
                        1, EmptyString),
                   snd (do_checkout failing_state)))
    by (vm_compute; reflexivity).
  split; [exact Hco|].
  destruct (C2_checkout_result _ _ _ _ _ _ Hco) as (_ & Hstop & _).
  apply Hstop; [lia|reflexivity].
Defined.

(** Only [local.yml] is present: it is selected, without a warning. *)
Lemma C3_fallback_order_witness :
  match args (self git_state) with Some _ :: _ => False | _ => True end /\
  select_playbook "/srv/pull" git_state = (inr (Some "/srv/pull/local.yml"), git_state).
Proof.
  split; [exact I|].
  destruct (C3_fallback_order git_state "/srv/pull" I) as (_ & _ & Hsel).
  exact Hsel.
Defined.

(** No [--full] and an empty argument map: [depth=1] is added. *)
Lemma C4_git_depth_witness :
  module_name (options (self git_state)) = "git" /\
  exists st' evs,
    reconcile_scm_args git_state = (inr tt, st') /\
    trace st' = (trace git_state ++ evs)%list /\
    scm_args (self st') !! "depth" = Some "1".
Proof.
  split; [reflexivity|].
  destruct (C4_git_depth git_state eq_refl) as (st' & evs & Hrec & Htr & Hadd & _).
  exists st', evs. split; [exact Hrec|]. split; [exact Htr|].
  apply Hadd; reflexivity.
Defined.

(** [site.yml] is asked for and missing: one warning, no playbook, although
    [local.yml] is present. *)
Lemma C6_explicit_playbook_witness :
  args (self explicit_state) = [Some "site.yml"] /\
  select_playbook "/srv/pull" explicit_state
  = (inr None, log (Warning "/srv/pull/site.yml: File does not exist") explicit_state).
Proof.
  split; [reflexivity|].
  exact (C6_explicit_playbook explicit_state "/srv/pull" "site.yml" [] eq_refl).
Defined.

(** [--purge], the playbook exits with code 2 and the checkout cannot be
    removed: the failure is the last call logged and [run] returns 2. *)
Lemma C8_purge_after_playbook_witness :
  purge (options (self purge_state)) = true /\
  os_chdir "/srv/pull" (world purge_state) = (None, stubborn_host) /\
  exists st',
    execute_playbook "/usr/bin/ansible-playbook -c local  /srv/pull/local.yml" purge_state
    = (inr 2, st') /\
    last (trace st') = Some (Error "Failed to remove /srv/pull: Permission denied").
Proof.
  assert (Hcd : os_chdir "/srv/pull" (world purge_state) = (None, stubborn_host))
    by (vm_compute; reflexivity).
  split; [reflexivity|]. split; [exact Hcd|].
  destruct (C8_purge_after_playbook purge_state
              "/usr/bin/ansible-playbook -c local  /srv/pull/local.yml"
              stubborn_host eq_refl Hcd)
    as (cmd' & rc & out & err & st1 & Hrun & Hself & Htrace & Hexec & Hpurge).
  injection Hrun as <- _ _ Hw.
  specialize (Hpurge (world st1)). rewrite <- Hw in Hpurge.
  specialize (Hpurge eq_refl).
  eexists. split; [exact Hpurge|].
  cbn [trace]. rewrite Htrace. vm_compute. reflexivity.
Defined.

(** A successful [parse] with the default module. *)
Lemma C9_only_git_witness :
  parse 7 git_state = (inr tt, snd (parse 7 git_state)) /\
  module_name (options (self (snd (parse 7 git_state)))) = "git".
Proof.
  assert (Hp : parse 7 git_state = (inr tt, snd (parse 7 git_state)))
    by (vm_compute; reflexivity).
  split; [exact Hp|].
  destruct (C9_only_git 7 git_state _ Hp) as [Hgit _]. exact Hgit.
Defined.

End Examples.

(** * Further properties *)

(** ** [parse]: what it checks, what it changes *)

Section ParseExtras.
Context {W : Type} `{Platform W}.

Ltac unfold_parse_steps :=
  unfold parse, parse_before_module_check, resolve_dest, resolve_sleep,
    require_url, read_module_args, check_module_name, check_reserved_keys,
    finish_parse in *;
  unfold_monad.

(** The destination step, in closed form. *)
Lemma resolve_dest_eq (st : State W) :
  let d := resolved_dest (options (self st)) in
  let st1 := mkState (mkPullCLI (set_dest d (options (self st))) (scm_args (self st))
                                (args (self st)))
                     (world st) (trace st) in
  resolve_dest st =
    if os_path_exists d (world st) && negb (os_path_isdir d (world st))
    then (inl (AnsibleOptionsError (d +:+ " is not a valid or accessible directory.")), st1)
    else (inr tt, st1).
Proof.
  cbv zeta. unfold resolve_dest, resolved_dest. unfold_monad.
  destruct (Py.truthy_str (dest (options (self st)))); cbn [negb];
    match goal with
    | |- context [os_path_exists ?d ?w && negb (os_path_isdir ?d ?w)] =>
        destruct (os_path_exists d w && negb (os_path_isdir d w))
    end; reflexivity.
Qed.

(** X1.  A destination that exists and is not a directory makes [parse]
    raise [<dest> is not a valid or accessible directory.] before anything
    else is looked at; the destination is the one given, or
    [~/.ansible/pull/<fqdn>] when none is given, with the user and the
    variables expanded, and it is stored in [self.options.dest]. *)
Theorem parse_rejects_non_directory (bits : Z) (st : State W) :
  let d := resolved_dest (options (self st)) in
  os_path_exists d (world st) = true ->
  os_path_isdir d (world st) = false ->
  exists st',
    parse bits st
    = (inl (AnsibleOptionsError (d +:+ " is not a valid or accessible directory.")), st') /\
    dest (options (self st')) = d /\
    world st' = world st /\ trace st' = trace st.
Proof.
  intros d Hex Hdir. pose proof (resolve_dest_eq st) as Hd. cbv zeta in Hd.
  fold d in Hd. rewrite Hex, Hdir in Hd. cbn [andb negb] in Hd.
  eexists. split; [|split; [|split]].
  - unfold parse. unfold bind at 1. rewrite Hd. reflexivity.
  - reflexivity.
  - reflexivity.
  - reflexivity.
Qed.

(** X2.  Whatever [parse] returns once the command line has been read, it
    has changed nothing on the system and has left the positional arguments
    alone; of the options it has changed [dest], now the resolved
    destination, and [sleep] only; the one call it may have logged is the
    assignment of [display.verbosity], which it has made when it succeeds. *)
Theorem parse_effects (bits : Z) (st st' : State W) (r : Exn + unit) :
  parse bits st = (r, st') ->
  world st' = world st /\
  args (self st') = args (self st) /\
  options (self st')
  = set_sleep (sleep (options (self st')))
      (set_dest (resolved_dest (options (self st))) (options (self st))) /\
  (trace st' = trace st \/
   trace st' = (trace st ++ [SetVerbosity (verbosity (options (self st)))])%list) /\
  (r = inr tt ->
   trace st' = (trace st ++ [SetVerbosity (verbosity (options (self st)))])%list).
Proof.
  unfold resolved_dest. unfold_parse_steps. unfold log. intros Hp.
  repeat break_step; inversion Hp; subst; cbn;
    repeat split; auto; try discriminate.
Qed.

(** Before the URL is looked at only configuration errors are raised, and
    the URL is what it was. *)
Lemma before_url_fields (bits : Z) (st st1 : State W) (r : Exn + unit) :
  (resolve_dest ;; resolve_sleep bits) st = (r, st1) ->
  url (options (self st1)) = url (options (self st)) /\
  forall e, r = inl e -> exists msg, e = AnsibleOptionsError msg.
Proof.
  unfold not_a_number. unfold_parse_steps. intros Hp.
  repeat break_step; inversion Hp; subst; cbn; split; auto;
    intros e0 [= <-]; eauto.
Qed.

(** X3.  Without a URL ([-U] absent or empty) [parse] fails with a
    configuration error, and once the destination and the sleep interval
    have been accepted that error is
    [URL for repository not specified, use -h for help]. *)
Theorem parse_requires_url (bits : Z) (st : State W) :
  Py.truthy_str (url (options (self st))) = false ->
  (exists msg st', parse bits st = (inl (AnsibleOptionsError msg), st')) /\
  forall st1, (resolve_dest ;; resolve_sleep bits) st = (inr tt, st1) ->
    parse bits st
    = (inl (AnsibleOptionsError "URL for repository not specified, use -h for help"), st1).
Proof.
  intros Hurl.
  assert (Hparse : parse bits st
            = (x <- (resolve_dest ;; resolve_sleep bits) ;;
               require_url ;; read_module_args ;; check_module_name ;;
               check_reserved_keys ;; finish_parse) st).
  { unfold parse, bind. destruct (resolve_dest st) as [[e|[]] s1]; reflexivity. }
  destruct ((resolve_dest ;; resolve_sleep bits) st) as [r s1] eqn:Hpre.
  destruct (before_url_fields _ _ _ _ Hpre) as [Hu He].
  assert (Hreq : require_url s1
            = (inl (AnsibleOptionsError "URL for repository not specified, use -h for help"),
               s1)).
  { unfold require_url. unfold_monad. rewrite Hu, Hurl. reflexivity. }
  assert (Hall : parse bits st
            = match r with
              | inl e => (inl e, s1)
              | inr _ =>
                  (inl (AnsibleOptionsError "URL for repository not specified, use -h for help"),
                   s1)
              end).
  { rewrite Hparse. unfold bind at 1. rewrite Hpre. destruct r as [e|[]]; [reflexivity|].
    unfold bind at 1. rewrite Hreq. reflexivity. }
  rewrite Hall. split.
  - destruct r as [e|[]]; [|eauto].
    destruct (He e eq_refl) as [msg ->]. eauto.
  - intros st1 [= -> <-]. reflexivity.
Qed.

(** The sleep step leaves a value that [run] can nap on. *)
Lemma resolve_sleep_resolved (bits : Z) (st st1 : State W) :
  resolve_sleep bits st = (inr tt, st1) ->
  sleep_resolved (sleep (options (self st1))).
Proof.
  unfold resolve_sleep. unfold_monad.
  destruct (sleep (options (self st))) as [|text|secs] eqn:Hs;
    cbn [truthy_sleep int_of_sleep str_of_sleep].
  - intros [= <-]. rewrite Hs. exact I.
  - unfold Py.truthy_str. destruct (bool_decide (text = EmptyString)) eqn:Ht; cbn [negb].
    + intros [= <-]. rewrite Hs. cbn. apply bool_decide_eq_true_1 in Ht. exact Ht.
    + destruct (py_int text ≫= Py.randint bits 0) as [n|] eqn:Hn; [|discriminate].
      intros [= <-]. cbn.
      destruct (py_int text) as [m|]; [|discriminate]. cbn in Hn.
      apply randint_bounds in Hn. lia.
  - destruct (secs =? 0) eqn:Hz; cbn [negb].
    + intros [= <-]. rewrite Hs. cbn. apply Z.eqb_eq in Hz. lia.
    + destruct (Py.randint bits 0 secs) as [n|] eqn:Hn; cbn; rewrite ?Hn; [|discriminate].
      intros [= <-]. cbn. apply randint_bounds in Hn. lia.
Qed.

Lemma require_url_eq (st : State W) :
  require_url st =
    if Py.truthy_str (url (options (self st))) then (inr tt, st)
    else (inl (AnsibleOptionsError "URL for repository not specified, use -h for help"), st).
Proof.
  unfold require_url. unfold_monad.
  destruct (Py.truthy_str (url (options (self st)))); reflexivity.
Qed.

Lemma read_module_args_eq (st : State W) :
  read_module_args st =
    if Py.truthy_str (module_args (options (self st))) then
      match parse_kv (module_args (options (self st))) with
      | inl e => (inl e, st)
      | inr kv => (inr tt, set_scm kv st)
      end
    else (inr tt, set_scm ∅ st).
Proof.
  unfold read_module_args, set_scm. unfold_monad.
  destruct (Py.truthy_str (module_args (options (self st)))); [|reflexivity].
  destruct (parse_kv (module_args (options (self st)))); reflexivity.
Qed.

Lemma finish_parse_eq (st : State W) :
  finish_parse st =
    match validate_conflicts (options (self st)) with
    | Some msg =>
        (inl (AnsibleOptionsError msg),
         log (SetVerbosity (verbosity (options (self st)))) st)
    | None => (inr tt, log (SetVerbosity (verbosity (options (self st)))) st)
    end.
Proof.
  unfold finish_parse. unfold_monad.
  destruct (validate_conflicts (options (self st))); reflexivity.
Qed.


(** X4.  When [parse] succeeds: the URL is not empty; the module is [git];
    the argument map is [parse_kv] of the module arguments, or empty without
    them; it has no [dest] entry, and a [name] entry, if any, is the URL;
    [validate_conflicts] has accepted the options; and [sleep] is [None],
    the empty text or an integer that is not negative. *)
Theorem parse_postconditions (bits : Z) (st st' : State W) :
  parse bits st = (inr tt, st') ->
  let o := options (self st') in
  let kv := scm_args (self st') in
  Py.truthy_str (url o) = true /\
  module_name o = "git" /\
  (if Py.truthy_str (module_args o) then parse_kv (module_args o) = inr kv
   else kv = ∅) /\
  kv !! "dest" = None /\
  (forall y, kv !! "name" = Some y -> y = url o) /\
  validate_conflicts o = None /\
  sleep_resolved (sleep o).
Proof.
  intros Hp.
  assert (Hsplit : parse bits st
            = (resolve_dest ;; x <- resolve_sleep bits ;;
               require_url ;; read_module_args ;; check_module_name ;;
               check_reserved_keys ;; finish_parse) st) by reflexivity.
  rewrite Hsplit in Hp. unfold bind at 1 in Hp.
  destruct (resolve_dest st) as [[e|[]] s1]; [discriminate|].
  unfold bind at 1 in Hp.
  destruct (resolve_sleep bits s1) as [[e|[]] s2] eqn:Hsl; [discriminate|].
  pose proof (resolve_sleep_resolved _ _ _ Hsl) as Hres.
  clear Hsplit Hsl.
  (* the URL *)
  unfold bind at 1 in Hp. rewrite require_url_eq in Hp.
  set (o := options (self s2)) in *.
  destruct (Py.truthy_str (url o)) eqn:Hurl; [|discriminate].
  (* the module arguments *)
  unfold bind at 1 in Hp. rewrite read_module_args_eq in Hp. fold o in Hp.
  assert (Hread : exists kv,
            (if Py.truthy_str (module_args o) then parse_kv (module_args o) = inr kv
             else kv = ∅) /\
            (check_module_name ;; check_reserved_keys ;; finish_parse) (set_scm kv s2)
            = (inr tt, st')).
  { destruct (Py.truthy_str (module_args o)).
    - destruct (parse_kv (module_args o)) as [e|kv]; [discriminate|]. eauto.
    - eauto. }
  clear Hp. destruct Hread as (kv & Hkv & Hp).
  set (s3 := set_scm kv s2) in *.
  (* the module *)
  unfold bind at 1 in Hp. rewrite check_module_name_eq in Hp.
  change (options (self s3)) with o in Hp.
  destruct (bool_decide (module_name o = "git")) eqn:Hgit; [|discriminate].
  apply bool_decide_eq_true_1 in Hgit.
  (* the reserved keys *)
  unfold bind at 1 in Hp. rewrite (check_reserved_keys_git s3 Hgit) in Hp.
  change (scm_args (self s3)) with kv in Hp. change (options (self s3)) with o in Hp.
  destruct (kv !! "dest") as [x|] eqn:Hdest; [discriminate|].
  assert (Hname : forall y, kv !! "name" = Some y -> y = url o).
  { intros y Hy. rewrite Hy in Hp.
    destruct (bool_decide (y = url o)) eqn:Hyu; [|discriminate].
    apply bool_decide_eq_true_1 in Hyu. exact Hyu. }
  assert (Hfin : finish_parse s3 = (inr tt, st')).
  { destruct (kv !! "name") as [y|]; [|exact Hp].
    destruct (bool_decide (y = url o)); [exact Hp|discriminate]. }
  (* the last step *)
  rewrite finish_parse_eq in Hfin. change (options (self s3)) with o in Hfin.
  destruct (validate_conflicts o) as [msg|] eqn:Hval; [discriminate|].
  injection Hfin as <-. cbn. fold o. auto 10.
Qed.

(** X5.  The module check and the reserved-key checks never raise the
    [repo] error of line 177: the only module that passes line 165 is [git],
    for which a [repo] entry is not looked at. *)
Theorem repo_conflict_unreachable (st st' : State W) (r : Exn + unit) :
  (check_module_name ;; check_reserved_keys) st = (r, st') ->
  r <> inl (AnsibleOptionsError repo_conflict_msg) /\
  (module_name (options (self st)) = "git" ->
   scm_args (self st) !! "dest" = None ->
   scm_args (self st) !! "name" = None ->
   r = inr tt).
Proof.
  unfold bind at 1. rewrite check_module_name_eq.
  destruct (bool_decide (module_name (options (self st)) = "git")) eqn:Hgit.
  - apply bool_decide_eq_true_1 in Hgit.
    rewrite (check_reserved_keys_git st Hgit). intros Hr. split.
    + destruct (scm_args (self st) !! "dest"); [injection Hr as <- _; discriminate|].
      destruct (scm_args (self st) !! "name") as [y|];
        [destruct (bool_decide (y = url (options (self st))))|];
        injection Hr as <- _; discriminate.
    + intros _ Hd Hn. rewrite Hd, Hn in Hr. injection Hr as <- _. reflexivity.
  - apply bool_decide_eq_false_1 in Hgit. intros [= <- _]. split.
    + discriminate.
    + intros Hg. contradiction.
Qed.

End ParseExtras.

(** ** [_get_inv_cli] and playbook selection *)

Section InventoryExtras.
Context {W : Type} `{Platform W}.

Lemma str_app_nil_r (s : string) : s +:+ EmptyString = s.
Proof.
  induction s as [|a s IH]; [reflexivity|].
  change (String a s +:+ EmptyString) with (String a (s +:+ EmptyString)).
  rewrite IH. reflexivity.
Qed.

Lemma str_app_assoc (s t u : string) : (s +:+ t) +:+ u = s +:+ t +:+ u.
Proof.
  induction s as [|a s IH]; [reflexivity|].
  change ((String a s +:+ t) +:+ u) with (String a ((s +:+ t) +:+ u)).
  rewrite IH. reflexivity.
Qed.

Lemma inv_cli_loop_eq (invs : list InvSource) (st : State W) :
  forall acc,
    inv_cli_loop invs acc st
    = (inr (acc +:+ concat_all (map (rendered_inv st) invs)), st).
Proof.
  induction invs as [|[inv|l] rest IH]; intros acc;
    cbn [inv_cli_loop map concat_all fold_right rendered_inv].
  - rewrite str_app_nil_r. reflexivity.
  - unfold bind, ask.
    destruct (Py.contains "," inv || os_path_exists inv (world st)).
    + rewrite IH. fold (concat_all (map (rendered_inv st) rest)).
      rewrite !str_app_assoc. reflexivity.
    + rewrite IH. reflexivity.
  - rewrite IH. fold (concat_all (map (rendered_inv st) rest)).
    rewrite !str_app_assoc. reflexivity.
Qed.

Lemma get_inv_cli_eq (st : State W) :
  get_inv_cli st
  = (inr (concat_all (map (rendered_inv st) (inventory (options (self st))))), st).
Proof.
  unfold get_inv_cli, bind, get_options. rewrite inv_cli_loop_eq. reflexivity.
Qed.

(** X6.  [_get_inv_cli] changes nothing and does not raise.  Its result is
    what the inventory sources contribute, in their order: a list gives
    [ -i '<a>,<b>,...' ], a text that holds a comma or names an existing
    path gives [ -i <text> ], any other text gives nothing.  When no source
    contributes, [run] falls back to [ -i localhost, ] for the checkout. *)
Theorem get_inv_cli_closed (st : State W) :
  get_inv_cli st
  = (inr (concat_all (map (rendered_inv st) (inventory (options (self st))))), st) /\
  (Forall (fun inv => exists s, inv = InvStr s /\ Py.contains "," s = false /\
                                os_path_exists s (world st) = false)
          (inventory (options (self st))) ->
   get_inv_cli st = (inr EmptyString, st) /\
   inv_opts_of EmptyString = " -i localhost, ").
Proof.
  pose proof (get_inv_cli_eq st) as Heq.
  split; [exact Heq|]. intros Hall. split; [|reflexivity].
  rewrite Heq. f_equal. f_equal. clear Heq.
  induction Hall as [|inv rest (s & -> & Hcomma & Hex) _ IH]; [reflexivity|].
  cbn [map concat_all fold_right rendered_inv]. rewrite Hcomma, Hex.
  exact IH.
Qed.

Lemma select_playbook_cases (st : State W) (path : string) :
  exists r st',
    select_playbook path st = (inr r, st') /\
    match r with
    | Some pb => usable st pb = true /\ st' = st
    | None => exists msg, st' = log (Warning msg) st
    end.
Proof.
  unfold select_playbook. unfold bind at 1. unfold get_args.
  assert (Hfallback :
    exists r st',
      (found <- try_candidates (candidates path) [] ;;
       match found with
       | (None, errors) => emit (Warning (Py.join Py.newline errors)) ;; ret None
       | (Some pb, _) => ret (Some pb)
       end) st = (inr r, st') /\
      match r with
      | Some pb => usable st pb = true /\ st' = st
      | None => exists msg, st' = log (Warning msg) st
      end).
  { pose proof (try_candidates_eq (candidates path) st []) as Hloop.
    destruct (find (usable st) (candidates path)) as [pb|] eqn:Hfind.
    - destruct Hloop as [errs Hloop]. exists (Some pb), st.
      unfold bind. rewrite Hloop. split; [reflexivity|].
      apply find_some in Hfind. tauto.
    - exists None. eexists. unfold bind at 1. rewrite Hloop.
      split; [reflexivity|]. eexists. reflexivity. }
  destruct (args (self st)) as [|[arg0|] rest]; [exact Hfallback| |exact Hfallback].
  unfold bind at 1. rewrite try_playbook_eq. unfold usable.
  destruct (os_path_exists (Py.os_path_join path arg0) (world st)) eqn:Hex; cbn [negb].
  - destruct (os_access_R_OK (Py.os_path_join path arg0) (world st)) eqn:Hrd; cbn [negb].
    + exists (Some (Py.os_path_join path arg0)), st. split; [reflexivity|].
      rewrite Hex, Hrd. auto.
    + exists None. eexists. split; [reflexivity|]. eexists. reflexivity.
  - exists None. eexists. split; [reflexivity|]. eexists. reflexivity.
Qed.

(** X7.  [select_playbook] never raises (the lookup in [PLAYBOOK_ERRORS]
    cannot miss) and touches neither the instance nor the operating system.
    A playbook it returns exists and is readable, and then nothing has been
    logged; when it returns [None] it has emitted exactly one warning. *)
Theorem select_playbook_sound (st : State W) (path : string) :
  exists r st',
    select_playbook path st = (inr r, st') /\
    match r with
    | Some pb => usable st pb = true /\ st' = st
    | None => exists msg, st' = log (Warning msg) st
    end.
Proof. exact (select_playbook_cases st path). Qed.

(** X8.  A playbook argument that is an absolute path is not looked for
    under the checkout directory: when it exists and is readable it is
    returned as it is, whatever the directory. *)
Theorem select_playbook_absolute (st : State W) (path arg0 : string)
    (rest : list (option string)) :
  args (self st) = Some arg0 :: rest ->
  Py.startswith "/" arg0 = true ->
  usable st arg0 = true ->
  select_playbook path st = (inr (Some arg0), st).
Proof.
  intros Hargs Habs Huse. unfold select_playbook.
  unfold bind at 1. unfold get_args. rewrite Hargs.
  assert (Hjoin : Py.os_path_join path arg0 = arg0).
  { unfold Py.os_path_join. rewrite Habs. reflexivity. }
  rewrite Hjoin. unfold bind at 1. rewrite (try_playbook_usable _ _ Huse).
  reflexivity.
Qed.

End InventoryExtras.

(** ** The SCM options of [run], lines 207-272 *)

Section ReconcileExtras.
Context {W : Type} `{Platform W}.

(** *** The blocks, in closed form *)

Lemma when_override_eq (c : bool) (k v msg : string) (st : State W) :
  when c (warn_if_present k msg ;; set_item k v) st
  = (inr tt, overridden c k v msg st).
Proof.
  unfold overridden, set_scm, warn_if_present, set_item. unfold_monad.
  destruct c; [|reflexivity].
  destruct (has_key k (scm_args (self st))); reflexivity.
Qed.

Lemma when_assign_eq (c : bool) (k v : string) (st : State W) :
  when c (set_item k v) st = (inr tt, assigned c k v st).
Proof.
  unfold assigned, set_scm, set_item. unfold_monad. destruct c; reflexivity.
Qed.

Lemma set_item_eq (k v : string) (st : State W) :
  set_item k v st = (inr tt, assigned true k v st).
Proof. reflexivity. Qed.

Lemma apply_depth_shallow (st : State W) :
  apply_depth st
  = (inr tt, shallow (fullclone (options (self st))) "depth" "1" depth_removed_msg st).
Proof.
  unfold apply_depth, shallow, set_scm, set_item, del_item. unfold_monad.
  destruct (negb (fullclone (options (self st)))
            && negb (has_key "depth" (scm_args (self st)))); [reflexivity|].
  destruct (fullclone (options (self st)) && has_key "depth" (scm_args (self st)));
    reflexivity.
Qed.

Lemma apply_subversion_shallow (st : State W) :
  apply_subversion st
  = (inr tt, shallow (fullclone (options (self st))) "export" "yes" export_removed_msg st).
Proof.
  unfold apply_subversion, shallow, set_scm, set_item, del_item. unfold_monad.
  destruct (negb (fullclone (options (self st)))
            && negb (has_key "export" (scm_args (self st)))); [reflexivity|].
  destruct (fullclone (options (self st)) && has_key "export" (scm_args (self st)));
    reflexivity.
Qed.

(** *** What the blocks keep *)

Lemma overridden_frame (c : bool) (k v msg : string) (st : State W) :
  options (self (overridden c k v msg st)) = options (self st) /\
  args (self (overridden c k v msg st)) = args (self st) /\
  world (overridden c k v msg st) = world st.
Proof.
  unfold overridden. destruct c; [|auto].
  destruct (has_key k (scm_args (self st))); auto.
Qed.

Lemma assigned_frame (c : bool) (k v : string) (st : State W) :
  options (self (assigned c k v st)) = options (self st) /\
  args (self (assigned c k v st)) = args (self st) /\
  world (assigned c k v st) = world st.
Proof. unfold assigned. destruct c; auto. Qed.

Lemma shallow_frame (full : bool) (k v msg : string) (st : State W) :
  options (self (shallow full k v msg st)) = options (self st) /\
  args (self (shallow full k v msg st)) = args (self st) /\
  world (shallow full k v msg st) = world st.
Proof.
  unfold shallow.
  destruct (negb full && negb (has_key k (scm_args (self st)))); [auto|].
  destruct (full && has_key k (scm_args (self st))); auto.
Qed.

Lemma scm_overridden (c : bool) (k v msg : string) (st : State W) :
  scm_args (self (overridden c k v msg st)) = put_if c k v (scm_args (self st)).
Proof.
  unfold overridden, put_if. destruct c; [|reflexivity].
  destruct (has_key k (scm_args (self st))); reflexivity.
Qed.

Lemma scm_assigned (c : bool) (k v : string) (st : State W) :
  scm_args (self (assigned c k v st)) = put_if c k v (scm_args (self st)).
Proof. unfold assigned, put_if. destruct c; reflexivity. Qed.

Lemma scm_shallow (full : bool) (k v msg : string) (st : State W) :
  scm_args (self (shallow full k v msg st))
  = if negb full && negb (has_key k (scm_args (self st)))
    then <[k := v]> (scm_args (self st))
    else if full && has_key k (scm_args (self st))
         then delete k (scm_args (self st))
         else scm_args (self st).
Proof.
  unfold shallow.
  destruct (negb full && negb (has_key k (scm_args (self st)))); [reflexivity|].
  destruct (full && has_key k (scm_args (self st))); reflexivity.
Qed.

(** The argument map after reconciliation depends on the argument map
    before it and on the options only. *)
Lemma scm_reconciled_ext (o : Options) (st st' : State W) :
  scm_args (self st) = scm_args (self st') ->
  scm_args (self (reconciled o st)) = scm_args (self (reconciled o st')).
Proof.
  intros Heq. unfold reconciled, git_done, common_done. cbv zeta.
  destruct (bool_decide (module_name o = "git"));
    [|destruct (bool_decide (module_name o = "subversion"))];
    repeat first [rewrite scm_overridden | rewrite scm_assigned | rewrite scm_shallow];
    rewrite Heq; reflexivity.
Qed.

Lemma trace_overridden (c : bool) (k v msg : string) (st : State W) :
  trace (overridden c k v msg st)
  = (trace st ++ optional (c && has_key k (scm_args (self st))) (Warning msg))%list.
Proof.
  unfold overridden, optional. destruct c; cbn [andb]; [|rewrite app_nil_r; reflexivity].
  destruct (has_key k (scm_args (self st))); cbn; [|rewrite app_nil_r]; reflexivity.
Qed.

Lemma trace_assigned (c : bool) (k v : string) (st : State W) :
  trace (assigned c k v st) = trace st.
Proof. unfold assigned. destruct c; reflexivity. Qed.

Lemma trace_shallow (full : bool) (k v msg : string) (st : State W) :
  trace (shallow full k v msg st)
  = (trace st ++ optional (full && has_key k (scm_args (self st))) (Warning msg))%list.
Proof.
  unfold shallow, optional.
  destruct full, (has_key k (scm_args (self st))); cbn; rewrite ?app_nil_r; reflexivity.
Qed.

Lemma lookup_put_if_ne (c : bool) (k v : string) (m : gmap string string) (k' : string) :
  k <> k' -> put_if c k v m !! k' = m !! k'.
Proof. intros Hne. unfold put_if. destruct c; [apply lookup_insert_ne, Hne|reflexivity]. Qed.

Lemma lookup_put_if_eq (c : bool) (k v : string) (m : gmap string string) :
  put_if c k v m !! k = if c then Some v else m !! k.
Proof. unfold put_if. destruct c; [apply lookup_insert_eq|reflexivity]. Qed.

Lemma lookup_shallow_ne (full : bool) (k v msg : string) (st : State W) (k' : string) :
  k <> k' ->
  scm_args (self (shallow full k v msg st)) !! k' = scm_args (self st) !! k'.
Proof.
  intros Hne. unfold shallow.
  destruct (negb full && negb (has_key k (scm_args (self st)))); cbn.
  - apply lookup_insert_ne, Hne.
  - destruct (full && has_key k (scm_args (self st))); cbn;
      [apply lookup_delete_ne, Hne|reflexivity].
Qed.

Lemma lookup_shallow_eq (full : bool) (k v msg : string) (st : State W) :
  scm_args (self (shallow full k v msg st)) !! k
  = if full then None else Some (default v (scm_args (self st) !! k)).
Proof.
  unfold shallow, has_key.
  destruct full, (scm_args (self st) !! k) as [x|] eqn:Hk; cbn;
    first [apply lookup_delete_eq | exact Hk | apply lookup_insert_eq].
Qed.

Lemma has_key_ext (k : string) (m m' : gmap string string) :
  m !! k = m' !! k -> has_key k m = has_key k m'.
Proof. intros Heq. unfold has_key. rewrite Heq. reflexivity. Qed.

(** *** The modules of [REPO_CHOICES] *)

Lemma repo_choice_cases (name : string) :
  py_in name REPO_CHOICES = true ->
  name = "git" \/ name = "subversion" \/ name = "hg" \/ name = "bzr".
Proof.
  unfold py_in, REPO_CHOICES. intros Hin%bool_decide_eq_true_1.
  rewrite !elem_of_cons, elem_of_nil in Hin. tauto.
Qed.

Lemma apply_checkout_eq (st : State W) :
  let o := options (self st) in
  py_in (module_name o) REPO_CHOICES = true ->
  apply_checkout st
  = (inr tt, overridden (Py.truthy_str (checkout o)) (checkout_key (module_name o))
               (checkout o) (checkout_overridden_msg (checkout_key (module_name o))) st).
Proof.
  intros o Hin. unfold apply_checkout. unfold bind at 1. unfold get_options.
  fold o. rewrite <- when_override_eq.
  destruct (repo_choice_cases _ Hin) as [Hn|[Hn|[Hn|Hn]]]; rewrite Hn;
    destruct (Py.truthy_str (checkout o)); reflexivity.
Qed.

Lemma apply_common_eq (st : State W) :
  py_in (module_name (options (self st))) REPO_CHOICES = true ->
  apply_common st = (inr tt, common_done (options (self st)) st).
Proof.
  intros Hin. unfold apply_common, common_done.
  unfold bind at 1. unfold get_options at 1.
  set (o := options (self st)) in *. rewrite Hin. cbn [negb when].
  unfold bind at 1. unfold ret at 1.
  unfold bind at 1. rewrite set_item_eq.
  unfold bind at 1. rewrite when_assign_eq.
  unfold bind at 1. rewrite when_assign_eq.
  set (s3 := assigned _ "repo" _ _).
  assert (Ho3 : options (self s3) = o).
  { subst s3. rewrite !(proj1 (assigned_frame _ _ _ _)). reflexivity. }
  unfold bind at 1. pose proof (apply_checkout_eq s3) as Hck. cbv zeta in Hck.
  rewrite Ho3 in Hck. rewrite (Hck Hin). apply when_assign_eq.
Qed.

Lemma apply_common_unsupported (st : State W) :
  py_in (module_name (options (self st))) REPO_CHOICES = false ->
  apply_common st
  = (inl (AnsibleOptionsError (unsupported_scm_msg (module_name (options (self st))))), st).
Proof.
  intros Hin. unfold apply_common.
  unfold bind at 1. unfold get_options at 1. rewrite Hin. reflexivity.
Qed.

Lemma apply_git_eq (st : State W) :
  apply_git st = (inr tt, git_done (options (self st)) st).
Proof.
  unfold apply_git, git_done. set (o := options (self st)).
  unfold bind at 1. unfold apply_accept_host_key.
  unfold bind at 1. unfold get_options at 1. fold o. rewrite when_override_eq.
  set (s1 := overridden (accept_host_key o) _ _ _ _).
  assert (Ho1 : options (self s1) = o) by apply overridden_frame.
  unfold bind at 1. rewrite apply_depth_shallow, Ho1.
  set (s2 := shallow _ _ _ _ s1).
  assert (Ho2 : options (self s2) = o).
  { subst s2. rewrite (proj1 (shallow_frame _ _ _ _ _)). exact Ho1. }
  unfold apply_git_flags. unfold bind at 1. unfold get_options at 1. rewrite Ho2.
  unfold bind at 1. rewrite when_override_eq.
  unfold bind at 1. rewrite when_override_eq.
  apply when_override_eq.
Qed.

Lemma common_done_frame (o : Options) (st : State W) :
  options (self (common_done o st)) = options (self st) /\
  args (self (common_done o st)) = args (self st) /\
  world (common_done o st) = world st.
Proof.
  unfold common_done. cbv zeta.
  repeat split;
    repeat first [rewrite (proj1 (assigned_frame _ _ _ _))
                 |rewrite (proj1 (proj2 (assigned_frame _ _ _ _)))
                 |rewrite (proj2 (proj2 (assigned_frame _ _ _ _)))
                 |rewrite (proj1 (overridden_frame _ _ _ _ _))
                 |rewrite (proj1 (proj2 (overridden_frame _ _ _ _ _)))
                 |rewrite (proj2 (proj2 (overridden_frame _ _ _ _ _)))];
    reflexivity.
Qed.

Lemma git_done_frame (o : Options) (st : State W) :
  options (self (git_done o st)) = options (self st) /\
  args (self (git_done o st)) = args (self st) /\
  world (git_done o st) = world st.
Proof.
  unfold git_done. cbv zeta.
  repeat split;
    repeat first [rewrite (proj1 (overridden_frame _ _ _ _ _))
                 |rewrite (proj1 (proj2 (overridden_frame _ _ _ _ _)))
                 |rewrite (proj2 (proj2 (overridden_frame _ _ _ _ _)))
                 |rewrite (proj1 (shallow_frame _ _ _ _ _))
                 |rewrite (proj1 (proj2 (shallow_frame _ _ _ _ _)))
                 |rewrite (proj2 (proj2 (shallow_frame _ _ _ _ _)))];
    reflexivity.
Qed.

(** Reconciliation in closed form, for a module of [REPO_CHOICES]. *)
Lemma reconcile_eq (st : State W) :
  py_in (module_name (options (self st))) REPO_CHOICES = true ->
  reconcile_scm_args st = (inr tt, reconciled (options (self st)) st).
Proof.
  intros Hin. unfold reconcile_scm_args, reconciled. cbv zeta.
  set (o := options (self st)) in *.
  unfold bind at 1. rewrite (apply_common_eq st Hin). fold o.
  unfold bind at 1. unfold get_options at 1.
  rewrite (proj1 (common_done_frame o st)). fold o.
  destruct (bool_decide (module_name o = "git")).
  - rewrite apply_git_eq, (proj1 (common_done_frame o st)). reflexivity.
  - destruct (bool_decide (module_name o = "subversion")); [|reflexivity].
    rewrite apply_subversion_shallow, (proj1 (common_done_frame o st)). reflexivity.
Qed.

Lemma reconciled_frame (o : Options) (st : State W) :
  options (self (reconciled o st)) = options (self st) /\
  args (self (reconciled o st)) = args (self st) /\
  world (reconciled o st) = world st.
Proof.
  unfold reconciled. cbv zeta.
  destruct (bool_decide (module_name o = "git")).
  - destruct (git_done_frame o (common_done o st)) as (-> & -> & ->).
    apply common_done_frame.
  - destruct (bool_decide (module_name o = "subversion")).
    + destruct (shallow_frame (fullclone o) "export" "yes" export_removed_msg
                  (common_done o st)) as (-> & -> & ->).
      apply common_done_frame.
    + apply common_done_frame.
Qed.

(** X9.  Reconciliation raises exactly when the module is not one of
    [REPO_CHOICES], with the error of line 208 and before the argument map
    is touched; for [git], [subversion], [hg] and [bzr] it cannot raise (the
    checkout key is always bound) and changes the argument map and the trace
    only. *)
Theorem reconcile_raises_iff_unsupported (st : State W) :
  let name := module_name (options (self st)) in
  (py_in name REPO_CHOICES = true ->
   exists st', reconcile_scm_args st = (inr tt, st') /\
               options (self st') = options (self st) /\
               args (self st') = args (self st) /\
               world st' = world st) /\
  (py_in name REPO_CHOICES = false ->
   reconcile_scm_args st
   = (inl (AnsibleOptionsError
             ("Unsupported (" +:+ name
              +:+ ") SCM module for pull, choices are: git,subversion,hg,bzr")), st)).
Proof.
  intros name. split; intros Hin.
  - exists (reconciled (options (self st)) st). split; [exact (reconcile_eq st Hin)|].
    apply reconciled_frame.
  - unfold reconcile_scm_args. unfold bind at 1.
    rewrite (apply_common_unsupported st Hin). reflexivity.
Qed.

(** *** Entries and warnings after reconciliation *)

(** Two keys differ: both are literal, or one is the checkout key. *)
Ltac keys_differ :=
  solve [ discriminate
        | unfold checkout_key; destruct (py_in _ ["bzr"; "git"]); discriminate
        | assumption
        | apply not_eq_sym; assumption ].

(** Looks through the blocks that write a key other than the one looked up. *)
Ltac peel :=
  repeat first
    [ rewrite scm_overridden, lookup_put_if_ne by keys_differ
    | rewrite scm_assigned, lookup_put_if_ne by keys_differ
    | rewrite lookup_shallow_ne by keys_differ ].

Lemma not_managed (k : string) :
  k ∉ managed_keys ->
  "dest" <> k /\ "name" <> k /\ "repo" <> k /\ "version" <> k /\ "revision" <> k /\
  "force" <> k /\ "accept_hostkey" <> k /\ "depth" <> k /\ "key_file" <> k /\
  "track_submodules" <> k /\ "verify_commit" <> k /\ "export" <> k.
Proof.
  unfold managed_keys. rewrite !not_elem_of_cons. intros Hk.
  repeat split; apply not_eq_sym; tauto.
Qed.

(** X10.  For a module of [REPO_CHOICES], reconciliation passes every entry
    of the argument map that [run] does not manage through as it is: only
    [dest], [name], [repo], [version], [revision], [force], [accept_hostkey],
    [depth], [key_file], [track_submodules], [verify_commit] and [export] can
    change. *)
Theorem reconcile_passes_other_keys (st : State W) (k : string) :
  py_in (module_name (options (self st))) REPO_CHOICES = true ->
  k ∉ managed_keys ->
  exists st', reconcile_scm_args st = (inr tt, st') /\
              scm_args (self st') !! k = scm_args (self st) !! k.
Proof.
  intros Hin Hk. exists (reconciled (options (self st)) st).
  split; [exact (reconcile_eq st Hin)|].
  destruct (not_managed k Hk)
    as (H1 & H2 & H3 & H4 & H5 & H6 & H7 & H8 & H9 & H10 & H11 & H12).
  assert (Hck : checkout_key (module_name (options (self st))) <> k).
  { unfold checkout_key. destruct (py_in _ ["bzr"; "git"]); assumption. }
  unfold reconciled, git_done, common_done. cbv zeta.
  destruct (bool_decide (module_name (options (self st)) = "git"));
    [|destruct (bool_decide (module_name (options (self st)) = "subversion"))];
    peel; reflexivity.
Qed.

(** X11.  For a module of [REPO_CHOICES], reconciliation overwrites the
    reserved entries with the dedicated flags, whatever the map held:
    [dest] is the destination; [name] is the URL for [git] and [bzr], [repo]
    is the URL for [hg] and [subversion], and the identity key of the other
    family is left as it was. *)
Theorem reconcile_identity_keys (st : State W) :
  let o := options (self st) in
  let kv := scm_args (self st) in
  py_in (module_name o) REPO_CHOICES = true ->
  exists st',
    reconcile_scm_args st = (inr tt, st') /\
    scm_args (self st') !! "dest" = Some (dest o) /\
    scm_args (self st') !! "name"
    = (if py_in (module_name o) ["bzr"; "git"] then Some (url o) else kv !! "name") /\
    scm_args (self st') !! "repo"
    = (if py_in (module_name o) ["hg"; "subversion"] then Some (url o) else kv !! "repo").
Proof.
  intros o kv Hin. exists (reconciled o st).
  split; [exact (reconcile_eq st Hin)|].
  unfold reconciled, git_done, common_done. cbv zeta.
  destruct (bool_decide (module_name o = "git"));
    [|destruct (bool_decide (module_name o = "subversion"))];
    (split; [|split]); peel;
    rewrite scm_assigned, lookup_put_if_eq; try reflexivity;
    destruct (py_in (module_name o) _); try reflexivity; peel; reflexivity.
Qed.

(** X12.  For a module of [REPO_CHOICES]: [-C]/[--checkout] sets [version]
    for [git] and [bzr] and [revision] for [hg] and [subversion], replacing
    what the map held; without the flag both keys are left as they were, and
    the key of the other family always is.  [--clean] sets [force=yes];
    without it [force] is left as it was. *)
Theorem reconcile_checkout_and_clean (st : State W) :
  let o := options (self st) in
  let kv := scm_args (self st) in
  py_in (module_name o) REPO_CHOICES = true ->
  exists st',
    reconcile_scm_args st = (inr tt, st') /\
    scm_args (self st') !! checkout_key (module_name o)
    = (if Py.truthy_str (checkout o) then Some (checkout o)
       else kv !! checkout_key (module_name o)) /\
    (forall k, k = "version" \/ k = "revision" -> k <> checkout_key (module_name o) ->
       scm_args (self st') !! k = kv !! k) /\
    scm_args (self st') !! "force"
    = (if clean o then Some "yes" else kv !! "force").
Proof.
  intros o kv Hin. exists (reconciled o st).
  split; [exact (reconcile_eq st Hin)|].
  unfold reconciled, git_done, common_done. cbv zeta.
  destruct (bool_decide (module_name o = "git"));
    [|destruct (bool_decide (module_name o = "subversion"))];
    (split; [|split]);
    try (intros k Hk Hne; assert ("dest" <> k /\ "name" <> k /\ "repo" <> k /\
           "force" <> k /\ "accept_hostkey" <> k /\ "depth" <> k /\ "key_file" <> k /\
           "track_submodules" <> k /\ "verify_commit" <> k /\ "export" <> k)
           as (? & ? & ? & ? & ? & ? & ? & ? & ? & ?)
           by (destruct Hk as [-> | ->]; repeat split; discriminate));
    peel; try reflexivity;
    first [ rewrite scm_overridden, lookup_put_if_eq; destruct (Py.truthy_str (checkout o));
            [reflexivity|peel; reflexivity]
          | rewrite scm_assigned, lookup_put_if_eq; destruct (clean o);
            [reflexivity|peel; reflexivity] ].
Qed.

(** X13.  For the module [git], each of the flags [--accept-host-key],
    [--key-file]/[--private-key], [--track-subs] and [--verify-commit]
    replaces the entry of its key ([accept_hostkey=yes], [key_file=<file>],
    [track_submodules=yes], [verify_commit=yes]); without the flag the entry
    is left as it was. *)
Theorem reconcile_git_flags (st : State W) :
  let o := options (self st) in
  let kv := scm_args (self st) in
  module_name o = "git" ->
  exists st',
    reconcile_scm_args st = (inr tt, st') /\
    scm_args (self st') !! "accept_hostkey"
    = (if accept_host_key o then Some "yes" else kv !! "accept_hostkey") /\
    scm_args (self st') !! "key_file"
    = (if Py.truthy_str (private_key_file o) then Some (private_key_file o)
       else kv !! "key_file") /\
    scm_args (self st') !! "track_submodules"
    = (if tracksubs o then Some "yes" else kv !! "track_submodules") /\
    scm_args (self st') !! "verify_commit"
    = (if verify o then Some "yes" else kv !! "verify_commit").
Proof.
  intros o kv Hg. exists (reconciled o st).
  assert (Hin : py_in (module_name o) REPO_CHOICES = true) by (rewrite Hg; reflexivity).
  split; [exact (reconcile_eq st Hin)|].
  unfold reconciled, git_done, common_done. cbv zeta. rewrite Hg.
  change (bool_decide ("git" = "git")) with true. cbv iota.
  repeat split; peel; rewrite scm_overridden, lookup_put_if_eq;
    match goal with |- (if ?c then _ else _) = _ => destruct c end;
    try reflexivity; peel; reflexivity.
Qed.

(** X14.  For [subversion], [hg] and [bzr], the flags that belong to [git]
    do nothing: the entries [accept_hostkey], [depth], [key_file],
    [track_submodules] and [verify_commit] are left as they were, whatever
    the flags. *)
Theorem reconcile_ignores_git_flags (st : State W) (k : string) :
  let o := options (self st) in
  py_in (module_name o) REPO_CHOICES = true ->
  module_name o <> "git" ->
  k ∈ ["accept_hostkey"; "depth"; "key_file"; "track_submodules"; "verify_commit"] ->
  exists st',
    reconcile_scm_args st = (inr tt, st') /\
    scm_args (self st') !! k = scm_args (self st) !! k.
Proof.
  intros o Hin Hng Hk. exists (reconciled o st).
  split; [exact (reconcile_eq st Hin)|].
  unfold reconciled, common_done. cbv zeta.
  rewrite (bool_decide_eq_false_2 _ Hng).
  rewrite !elem_of_cons, elem_of_nil in Hk.
  destruct (bool_decide (module_name o = "subversion"));
    destruct Hk as [->|[->|[->|[->|[->|[]]]]]]; peel; reflexivity.
Qed.

(** X15.  For the module [subversion], reconciliation removes the [export]
    entry under [--full] and otherwise keeps it, adding [export=yes] when
    there is none; for the other modules of [REPO_CHOICES] the entry is left
    as it was. *)
Theorem reconcile_subversion_export (st : State W) :
  let o := options (self st) in
  let kv := scm_args (self st) in
  py_in (module_name o) REPO_CHOICES = true ->
  exists st',
    reconcile_scm_args st = (inr tt, st') /\
    (module_name o = "subversion" ->
     scm_args (self st') !! "export"
     = (if fullclone o then None else Some (default "yes" (kv !! "export")))) /\
    (module_name o <> "subversion" ->
     scm_args (self st') !! "export" = kv !! "export").
Proof.
  intros o kv Hin. exists (reconciled o st).
  split; [exact (reconcile_eq st Hin)|].
  unfold reconciled, git_done, common_done. cbv zeta. split.
  - intros Hs. rewrite Hs.
    change (bool_decide ("subversion" = "git")) with false.
    change (bool_decide ("subversion" = "subversion")) with true. cbv iota.
    rewrite lookup_shallow_eq. peel. reflexivity.
  - intros Hns. rewrite (bool_decide_eq_false_2 _ Hns).
    destruct (bool_decide (module_name o = "git")); peel; reflexivity.
Qed.

(** X16.  The warnings of reconciliation, for a module of [REPO_CHOICES]:
    one for each flag that is set while the map it started with holds the
    key the flag writes ([-C] and its checkout key; for [git]
    [--accept-host-key], [--key-file], [--track-subs], [--verify-commit] and
    [--full] with [depth]; for [subversion] [--full] with
    [export]), in the order of the source, and nothing else; [--clean] never
    warns. *)
Theorem reconcile_warnings_exact (st : State W) :
  let o := options (self st) in
  py_in (module_name o) REPO_CHOICES = true ->
  exists st',
    reconcile_scm_args st = (inr tt, st') /\
    trace st' = (trace st ++ reconcile_warnings o (scm_args (self st)))%list.
Proof.
  intros o Hin. exists (reconciled o st).
  split; [exact (reconcile_eq st Hin)|].
  unfold reconciled, git_done, common_done, reconcile_warnings. cbv zeta.
  destruct (bool_decide (module_name o = "git"));
    [|destruct (bool_decide (module_name o = "subversion"))];
    repeat first [rewrite trace_overridden | rewrite trace_shallow
                 | rewrite trace_assigned];
    repeat match goal with
           | |- context [has_key ?k (scm_args (self ?Y))] =>
               lazymatch Y with
               | st => fail
               | _ => rewrite (has_key_ext k (scm_args (self Y)) (scm_args (self st)))
                        by (peel; reflexivity)
               end
           end;
    rewrite <- ?app_assoc, ?app_nil_r; reflexivity.
Qed.

End ReconcileExtras.

(** ** The execution sequence of [run] *)

Section RunExtras.
Context {W : Type} `{Platform W}.

(** *** Prefixes of commands *)

Lemma startswith_append (p s : string) : Py.startswith p (p +:+ s) = true.
Proof.
  induction p as [|a p IH]; [reflexivity|].
  change (String a p +:+ s) with (String a (p +:+ s)).
  cbn [Py.startswith]. rewrite Ascii.eqb_refl. exact IH.
Qed.

Lemma startswith_app_r (p s t : string) :
  Py.startswith p s = true -> Py.startswith p (s +:+ t) = true.
Proof.
  revert s. induction p as [|a p IH]; intros s; [reflexivity|].
  destruct s as [|b s]; [discriminate|].
  change (String b s +:+ t) with (String b (s +:+ t)).
  cbn [Py.startswith]. destruct (Ascii.eqb a b); [apply IH|discriminate].
Qed.

Lemma append_each_prefix (p : string) (fmt : string -> string) (l : list string) :
  forall cmd, Py.startswith p cmd = true ->
              Py.startswith p (append_each fmt l cmd) = true.
Proof.
  unfold append_each. induction l as [|x l IH]; intros cmd Hp; [exact Hp|].
  cbn [fold_left]. apply IH, startswith_app_r, Hp.
Qed.

Lemma prefix_if (p cmd x : string) (c : bool) :
  Py.startswith p cmd = true ->
  Py.startswith p (if c then cmd +:+ x else cmd) = true.
Proof. intros Hp. destruct c; [apply startswith_app_r|]; exact Hp. Qed.

Lemma prefix_unless (p cmd x : string) (c : bool) :
  Py.startswith p cmd = true ->
  Py.startswith p (if c then cmd else cmd +:+ x) = true.
Proof. intros Hp. destruct c; [|apply startswith_app_r]; exact Hp. Qed.

Lemma checkout_cmd_prefix (o : Options) (kv : gmap string string)
    (inv_opts base_opts limit_opts : string) :
  Py.startswith (bin_path +:+ "/ansible ")
    (checkout_cmd o kv inv_opts base_opts limit_opts) = true.
Proof.
  unfold checkout_cmd. cbv zeta. apply append_each_prefix.
  rewrite <- str_app_assoc. apply startswith_append.
Qed.

Lemma playbook_cmd_prefix (o : Options) (base_opts limit_opts playbook : string) :
  Py.startswith (bin_path +:+ "/ansible-playbook ")
    (playbook_cmd o base_opts limit_opts playbook) = true.
Proof.
  unfold playbook_cmd. cbv zeta.
  apply prefix_if, prefix_if.
  destruct (Py.truthy_str (subset o)); apply startswith_app_r;
    apply prefix_unless, prefix_unless, prefix_if;
    do 3 apply append_each_prefix;
    rewrite <- str_app_assoc; apply startswith_append.
Qed.

(** The marker is found wherever it stands in the output. *)
Lemma contains_intro (needle before after : string) :
  Py.contains needle (before +:+ needle +:+ after) = true.
Proof.
  induction before as [|a before IH].
  - change (EmptyString +:+ needle +:+ after) with (needle +:+ after).
    destruct (needle +:+ after) eqn:Hs; cbn [Py.contains];
      rewrite <- Hs, startswith_append; reflexivity.
  - change (String a before +:+ needle +:+ after)
      with (String a (before +:+ needle +:+ after)).
    cbn [Py.contains]. rewrite IH.
    destruct (Py.startswith needle _); reflexivity.
Qed.

(** *** Code that starts no subprocess *)

Lemma quiet_commands (frozen : string -> Prop) (st st' : State W) :
  keeps frozen no_subprocess st st' -> commands (trace st') = commands (trace st).
Proof.
  intros (_ & _ & _ & evs & -> & Hq).
  rewrite commands_app, (commands_quiet _ Hq), app_nil_r. reflexivity.
Qed.

Lemma finish_run_quiet (o0 : Options) (rc : Z) :
  follows (W := W) nothing no_subprocess anything o0 (finish_run rc).
Proof.
  unfold finish_run, chdir. follow; try exact I; intros Hn; exact Hn.
Qed.

(** [prepare_checkout] up to the plugin lookup, in closed form. *)
Lemma prepare_checkout_reconciled (st : State W) :
  let o := options (self st) in
  let s0 := log (Display (Py.join " " sys_argv))
              (log (Display (now_strftime "Starting Ansible Pull at %F %T")) st) in
  py_in (module_name o) REPO_CHOICES = true ->
  prepare_checkout st
  = match module_loader_find_plugin (module_name o) with
    | None =>
        (inl (AnsibleOptionsError
                ("module '" +:+ module_name o +:+ "' not found." +:+ Py.newline)),
         reconciled o s0)
    | Some _ =>
        (x <- nap ;;
         ret (base_opts_of o, limit_opts_of,
              checkout_cmd o (scm_args (self (reconciled o s0)))
                (inv_opts_of (concat_all (map (rendered_inv st) (inventory o))))
                (base_opts_of o) limit_opts_of)) (reconciled o s0)
    end.
Proof.
  intros o s0 Hin. unfold prepare_checkout.
  unfold bind at 1. unfold emit at 1.
  unfold bind at 1. unfold emit at 1. fold s0.
  unfold bind at 1. unfold get_options at 1.
  change (options (self s0)) with o.
  unfold bind at 1. rewrite (get_inv_cli_eq s0).
  change (options (self s0)) with o.
  unfold bind at 1. rewrite (reconcile_eq s0 Hin).
  change (options (self s0)) with o.
  unfold bind at 1. unfold get_scm_args at 1.
  unfold bind at 1.
  destruct (module_loader_find_plugin (module_name o)); reflexivity.
Qed.

(** X17.  When the module of [REPO_CHOICES] is not found by the plugin
    loader, [run] raises [module '<name>' not found.] before any subprocess
    is started and without a change to the system; the argument map has been
    reconciled by then. *)
Theorem run_module_not_found (st : State W) :
  let o := options (self st) in
  py_in (module_name o) REPO_CHOICES = true ->
  module_loader_find_plugin (module_name o) = None ->
  exists st',
    run st
    = (inl (AnsibleOptionsError
              ("module '" +:+ module_name o +:+ "' not found." +:+ Py.newline)), st') /\
    commands (trace st') = commands (trace st) /\
    world st' = world st /\
    (forall st1, reconcile_scm_args st = (inr tt, st1) ->
       scm_args (self st') = scm_args (self st1)).
Proof.
  intros o Hin Hnone.
  pose proof (prepare_checkout_reconciled st Hin) as Hprep. cbv zeta in Hprep.
  fold o in Hprep. rewrite Hnone in Hprep.
  eexists. split; [|split; [|split]].
  - unfold run. unfold bind at 1. unfold do_checkout. unfold bind at 1.
    rewrite Hprep. reflexivity.
  - destruct (prepare_checkout_follows _ _ _ _ eq_refl Hprep) as [Hkeep _].
    exact (quiet_commands _ _ _ Hkeep).
  - rewrite (proj2 (proj2 (reconciled_frame _ _))). reflexivity.
  - intros st1 Hrec. rewrite (reconcile_eq st Hin) in Hrec. injection Hrec as <-.
    fold o. apply scm_reconciled_ext. reflexivity.
Qed.

(** X18.  Whatever [run] returns or raises, it leaves [self.options] and
    [self.args] as [parse] resolved them. *)
Theorem run_keeps_options (st st' : State W) (r : Exn + Z) :
  run st = (r, st') ->
  options (self st') = options (self st) /\ args (self st') = args (self st).
Proof.
  intros Hrun.
  destruct (run_follows _ _ _ _ eq_refl Hrun) as [(Ho & Ha & _) _]. auto.
Qed.

(** What [execute_playbook] starts: nothing when the destination cannot be
    entered, and otherwise the playbook command, with the inventory options
    appended when there are some. *)
Lemma execute_playbook_commands (cmd : string) (st st' : State W) (r : Exn + Z) :
  execute_playbook cmd st = (r, st') ->
  (commands (trace st') = commands (trace st) /\ exists msg, r = inl (OSError msg)) \/
  exists tail, commands (trace st') = (commands (trace st) ++ [cmd +:+ tail])%list.
Proof.
  unfold execute_playbook. unfold bind at 1. unfold get_options at 1.
  set (o := options (self st)).
  unfold bind at 1. unfold chdir. unfold bind at 1. unfold emit at 1.
  unfold bind at 1. unfold call at 1. cbn [log self world trace].
  destruct (os_chdir (dest o) (world st)) as [[msg|] wd].
  - unfold raise at 1. intros [= <- <-]. left. cbn [trace].
    rewrite commands_app, app_nil_r. eauto.
  - unfold ret at 1.
    set (s1 := mkState (self st) wd (trace st ++ [Chdir (dest o)])).
    unfold bind at 1. rewrite (get_inv_cli_eq s1).
    set (inv := concat_all _).
    set (cmd' := if Py.truthy_str inv then cmd +:+ inv else cmd).
    unfold bind at 1. unfold emit at 1. unfold bind at 1. unfold emit at 1.
    unfold bind at 1. unfold exec. unfold bind at 1. unfold emit at 1.
    unfold call at 1. cbn [log self world trace].
    destruct (run_cmd cmd' (world s1)) as [[[rc out] err] w'].
    cbv beta iota. intros Hfin. right.
    match type of Hfin with
    | finish_run _ ?s = _ =>
        destruct (finish_run_quiet (options (self s)) rc s _ _ eq_refl Hfin) as [Hkeep _]
    end.
    rewrite (quiet_commands _ _ _ Hkeep). subst s1. cbn [trace].
    rewrite !commands_app. cbn [commands]. rewrite !app_nil_r.
    exists (if Py.truthy_str inv then inv else EmptyString).
    subst cmd'. destruct (Py.truthy_str inv); [reflexivity|].
    rewrite str_app_nil_r. reflexivity.
Qed.

Lemma run_playbook_commands (base_opts limit_opts : string) (st st' : State W)
    (r : Exn + Z) :
  run_playbook base_opts limit_opts st = (r, st') ->
  (commands (trace st') = commands (trace st) /\ exists e, r = inl e) \/
  exists p, commands (trace st') = (commands (trace st) ++ [p])%list /\
            Py.startswith (bin_path +:+ "/ansible-playbook ") p = true.
Proof.
  unfold run_playbook. unfold bind at 1. unfold get_options at 1.
  set (o := options (self st)). unfold bind at 1.
  destruct (select_playbook_cases st (dest o)) as (found & s1 & Hsel & Hcase).
  rewrite Hsel. destruct found as [pb|].
  - destruct Hcase as [_ ->]. intros Hexec.
    destruct (execute_playbook_commands _ _ _ _ Hexec) as [[Hc [msg ->]]|[tail Hc]].
    + left. eauto.
    + right. eexists. split; [exact Hc|].
      apply startswith_app_r, playbook_cmd_prefix.
  - destruct Hcase as [msg ->]. intros [= <- <-]. left. cbn [log trace].
    rewrite commands_app, app_nil_r. eauto.
Qed.

Lemma do_checkout_commands (st st1 : State W) (r : Exn + string * string * Z * string) :
  do_checkout st = (r, st1) ->
  (commands (trace st1) = commands (trace st) /\ exists e, r = inl e) \/
  exists c, commands (trace st1) = (commands (trace st) ++ [c])%list /\
            Py.startswith (bin_path +:+ "/ansible ") c = true /\
            exists v, r = inr v.
Proof.
  destruct r as [e|[[[b l] rc] out]]; intros Hco.
  - left. split; [|eauto].
    unfold do_checkout in Hco. unfold bind at 1 in Hco.
    destruct (prepare_checkout st) as [[e'|[[b l] cmd]] s0] eqn:Hprep.
    + injection Hco as <- <-.
      destruct (prepare_checkout_follows _ _ _ _ eq_refl Hprep) as [Hkeep _].
      exact (quiet_commands _ _ _ Hkeep).
    + unfold run_checkout, exec in Hco. unfold_monad.
      match type of Hco with
      | context [run_cmd cmd ?w] => destruct (run_cmd cmd w) as [[[rc out] err] w']
      end.
      discriminate.
  - right.
    destruct (do_checkout_inv _ _ _ _ _ _ Hco) as (s0 & cmd & err & Hprep & _ & _ & Htr).
    destruct (prepare_checkout_follows _ _ _ _ eq_refl Hprep) as [Hkeep _].
    destruct (prepare_checkout_cmd _ _ _ _ _ Hprep) as [inv ->].
    eexists. split; [|split; [apply checkout_cmd_prefix|eauto]].
    rewrite Htr, commands_app, (quiet_commands _ _ _ Hkeep). reflexivity.
Qed.

(** X19.  [run] starts at most two subprocesses, in this order: the checkout,
    whose command begins with [<bin_path>/ansible ], and then the playbook,
    whose command begins with [<bin_path>/ansible-playbook ].  A run that
    starts none has raised. *)
Theorem run_subprocesses (st st' : State W) (r : Exn + Z) :
  run st = (r, st') ->
  exists cmds,
    commands (trace st') = (commands (trace st) ++ cmds)%list /\
    ((cmds = [] /\ exists e, r = inl e) \/
     (exists c, cmds = [c] /\ Py.startswith (bin_path +:+ "/ansible ") c = true) \/
     (exists c p, cmds = [c; p] /\
                  Py.startswith (bin_path +:+ "/ansible ") c = true /\
                  Py.startswith (bin_path +:+ "/ansible-playbook ") p = true)).
Proof.
  unfold run. unfold bind at 1.
  destruct (do_checkout st) as [r1 st1] eqn:Hco.
  destruct (do_checkout_commands _ _ _ Hco) as [[Hc [e ->]]|(c & Hc & Hpre & v & ->)].
  - intros [= <- <-]. exists []. rewrite app_nil_r. split; [exact Hc|]. left. eauto.
  - destruct v as [[[b l] rc] out]. unfold after_checkout.
    unfold bind at 1. unfold get_options at 1.
    assert (Hplay : forall s, commands (trace s) = commands (trace st1) ->
              run_playbook b l s = (r, st') ->
              exists cmds,
                commands (trace st') = (commands (trace st) ++ cmds)%list /\
                ((cmds = [] /\ exists e, r = inl e) \/
                 (exists c, cmds = [c] /\
                            Py.startswith (bin_path +:+ "/ansible ") c = true) \/
                 (exists c p, cmds = [c; p] /\
                              Py.startswith (bin_path +:+ "/ansible ") c = true /\
                              Py.startswith (bin_path +:+ "/ansible-playbook ") p = true))).
    { intros s Hs Hrp.
      destruct (run_playbook_commands _ _ _ _ _ Hrp) as [[Hq _]|(p & Hq & Hp)].
      - exists [c]. rewrite Hq, Hs, Hc. split; [reflexivity|]. right. left. eauto.
      - exists [c; p]. rewrite Hq, Hs, Hc, <- app_assoc. split; [reflexivity|].
        right. right. eauto. }
    assert (Hstop : forall s v, commands (trace s) = commands (trace st1) ->
              (inr v, s) = (r, st') ->
              exists cmds,
                commands (trace st') = (commands (trace st) ++ cmds)%list /\
                ((cmds = [] /\ exists e, r = inl e) \/
                 (exists c, cmds = [c] /\
                            Py.startswith (bin_path +:+ "/ansible ") c = true) \/
                 (exists c p, cmds = [c; p] /\
                              Py.startswith (bin_path +:+ "/ansible ") c = true /\
                              Py.startswith (bin_path +:+ "/ansible-playbook ") p = true))).
    { intros s v Hs [= <- <-]. exists [c]. rewrite Hs, Hc.
      split; [reflexivity|]. right. left. eauto. }
    destruct (negb (rc =? 0)).
    + destruct (force (options (self st1))).
      * unfold bind at 1. unfold emit at 1. apply Hplay.
        cbn [log trace]. rewrite commands_app, app_nil_r. reflexivity.
      * apply Hstop. reflexivity.
    + destruct (ifchanged (options (self st1)) && negb (Py.contains changed_marker out)).
      * unfold bind at 1. unfold emit at 1. unfold ret. apply Hstop.
        cbn [log trace]. rewrite commands_app, app_nil_r. reflexivity.
      * apply Hplay. reflexivity.
Qed.

(** Without [--purge], no step of [run] calls [shutil.rmtree]. *)
Lemma run_no_purge_follows (o0 : Options) :
  purge o0 = false ->
  follows (W := W) nothing no_rmtree anything o0 run.
Proof.
  intros Hp. unfold_run.
  follow; try exact I; try (intros Hn; exact Hn); try (intros key; exact I);
    congruence.
Qed.

(** X20.  Without [--purge], [run] never calls [shutil.rmtree], whatever the
    subprocesses return and whether it returns or raises. *)
Theorem run_without_purge_keeps_checkout (st st' : State W) (r : Exn + Z) :
  purge (options (self st)) = false ->
  run st = (r, st') ->
  exists evs, trace st' = (trace st ++ evs)%list /\ Forall no_rmtree evs.
Proof.
  intros Hp Hrun.
  destruct (run_no_purge_follows _ Hp _ _ _ eq_refl Hrun) as [(_ & _ & _ & Hevs) _].
  exact Hevs.
Qed.

(** [do_checkout] keeps the options. *)
Lemma do_checkout_options (st st1 : State W) (base_opts limit_opts out : string)
    (rc : Z) :
  do_checkout st = (inr (base_opts, limit_opts, rc, out), st1) ->
  options (self st1) = options (self st).
Proof.
  intros Hco.
  destruct (do_checkout_inv _ _ _ _ _ _ Hco) as (s0 & cmd & err & Hprep & _ & Hself & _).
  destruct (prepare_checkout_follows _ _ _ _ eq_refl Hprep) as [(Ho & _) _].
  rewrite Hself. exact Ho.
Qed.

(** X21.  When the checkout exits with code 0, [run] goes on to select and
    execute the playbook if [--only-if-changed] is not given, or if the
    marker stands anywhere in the captured output; no notice is emitted
    then. *)
Theorem run_continues_when_changed (st st1 : State W)
    (base_opts limit_opts out : string) :
  do_checkout st = (inr (base_opts, limit_opts, 0, out), st1) ->
  ifchanged (options (self st)) = false \/
  (exists before after, out = before +:+ changed_marker +:+ after) ->
  run st = run_playbook base_opts limit_opts st1.
Proof.
  intros Hco Hor.
  pose proof (do_checkout_options _ _ _ _ _ _ Hco) as Ho.
  unfold run. unfold bind at 1. rewrite Hco.
  unfold after_checkout. unfold bind at 1. unfold get_options at 1. rewrite Ho.
  change (negb (0 =? 0)) with false. cbv iota.
  destruct Hor as [Hif|(before & after & ->)].
  - rewrite Hif. reflexivity.
  - rewrite contains_intro. cbn [negb]. rewrite andb_false_r. reflexivity.
Qed.

Lemma finish_run_without_purge (st : State W) (rc : Z) :
  purge (options (self st)) = false -> finish_run rc st = (inr rc, st).
Proof.
  intros Hp. unfold finish_run. unfold bind at 1. unfold get_options at 1.
  rewrite Hp. reflexivity.
Qed.

(** X22.  From line 339 on, without [--purge]: when [os.chdir] to the
    destination raises, [run] raises that [OSError] and the playbook is not
    started; otherwise [run] looks the inventory up again from inside the
    destination, starts the playbook command (followed by the inventory
    options, if any) and returns its exit code, and the subprocess is the
    last call it makes. *)
Theorem execute_playbook_without_purge (st : State W) (cmd : string)
    (failure : option string) (wd : W) :
  let o := options (self st) in
  purge o = false ->
  os_chdir (dest o) (world st) = (failure, wd) ->
  let s1 := mkState (self st) wd (trace st ++ [Chdir (dest o)]) in
  match failure with
  | Some msg => execute_playbook cmd st = (inl (OSError msg), s1)
  | None =>
      let inv := concat_all (map (rendered_inv s1) (inventory o)) in
      let cmd' := if Py.truthy_str inv then cmd +:+ inv else cmd in
      execute_playbook cmd st
      = (inr (fst (fst (fst (run_cmd cmd' wd)))),
         mkState (self st) (snd (run_cmd cmd' wd))
           (trace s1 ++ [Debug "running ansible-playbook to do actual work";
                         Debug ("EXEC: " +:+ cmd'); RunCmd cmd']))
  end.
Proof.
  intros o Hp Hcd s1.
  assert (Hstep : execute_playbook cmd st
            = match failure with
              | Some msg => (inl (OSError msg), s1)
              | None =>
                  (inv_opts <- get_inv_cli ;;
                   emit (Debug "running ansible-playbook to do actual work") ;;
                   emit (Debug ("EXEC: " +:+
                                (if Py.truthy_str inv_opts then cmd +:+ inv_opts else cmd))) ;;
                   r <- exec (if Py.truthy_str inv_opts then cmd +:+ inv_opts else cmd) ;;
                   let '(rc, b_out, b_err) := r in finish_run rc) s1
              end).
  { unfold execute_playbook. unfold bind at 1. unfold get_options at 1. fold o.
    unfold bind at 1. unfold chdir. unfold bind at 1. unfold emit at 1.
    unfold bind at 1. unfold call at 1. cbn [log self world trace].
    rewrite Hcd. destruct failure; reflexivity. }
  rewrite Hstep. destruct failure as [msg|]; [reflexivity|]. clear Hstep.
  unfold bind at 1. rewrite (get_inv_cli_eq s1).
  change (options (self s1)) with o. cbv zeta.
  set (inv := concat_all (map (rendered_inv s1) (inventory o))).
  set (cmd' := if Py.truthy_str inv then cmd +:+ inv else cmd).
  unfold bind at 1. unfold emit at 1. unfold bind at 1. unfold emit at 1.
  unfold bind at 1. unfold exec. unfold bind at 1. unfold emit at 1.
  unfold call at 1. cbn [log self world trace].
  change (world s1) with wd.
  destruct (run_cmd cmd' wd) as [[[rc out] err] w']. cbv beta iota.
  rewrite finish_run_without_purge by exact Hp. cbn [fst snd].
  rewrite <- !app_assoc. reflexivity.
Qed.



(** *** Selection, then execution *)

(** X24.  After the checkout [run] builds the playbook command only for a
    playbook that exists and is readable at that moment, and selecting it
    logs nothing.  When selection finds none, [run] raises
    [Could not find a playbook to run.] in the state the one warning of the
    selection leaves: it has not changed directory and has not started the
    playbook subprocess. *)
Theorem run_playbook_outcome (base_opts limit_opts : string) (st : State W) :
  let o := options (self st) in
  exists found st1,
    select_playbook (dest o) st = (inr found, st1) /\
    match found with
    | Some pb =>
        usable st pb = true /\ st1 = st /\
        run_playbook base_opts limit_opts st
        = execute_playbook (playbook_cmd o base_opts limit_opts pb) st
    | None =>
        (exists msg, st1 = log (Warning msg) st) /\
        run_playbook base_opts limit_opts st
        = (inl (AnsibleOptionsError "Could not find a playbook to run."), st1)
    end.
Proof.
  intros o.
  destruct (select_playbook_cases st (dest o)) as (found & st1 & Hsel & Hcase).
  exists found, st1. split; [exact Hsel|].
  assert (Hrun : run_playbook base_opts limit_opts st
            = match found with
              | Some pb => execute_playbook (playbook_cmd o base_opts limit_opts pb) st1
              | None =>
                  (inl (AnsibleOptionsError "Could not find a playbook to run."), st1)
              end).
  { unfold run_playbook. unfold bind at 1. unfold get_options at 1. fold o.
    unfold bind at 1. rewrite Hsel. destruct found; reflexivity. }
  destruct found as [pb|].
  - destruct Hcase as [Huse ->]. auto.
  - split; [exact Hcase|exact Hrun].
Qed.

(** *** The order of the calls *)

(** What [run] calls once the checkout has returned does not sleep. *)
Lemma after_checkout_no_sleep (o0 : Options) (base_opts limit_opts out : string)
    (rc : Z) :
  follows (W := W) nothing no_sleep anything o0
    (after_checkout base_opts limit_opts rc out).
Proof.
  unfold_run.
  follow; try exact I; try (intros Hn; exact Hn); intros key; exact I.
Qed.


(** When [do_checkout] raises, [prepare_checkout] has raised. *)
Lemma do_checkout_raises (st st1 : State W) (e : Exn) :
  do_checkout st = (inl e, st1) -> prepare_checkout st = (inl e, st1).
Proof.
  unfold do_checkout. unfold bind at 1.
  destruct (prepare_checkout st) as [[e'|[[b l] cmd]] s0] eqn:Hprep.
  - intros [= <- <-]. reflexivity.
  - unfold run_checkout, exec. unfold_monad.
    match goal with
    | |- context [run_cmd cmd ?w] => destruct (run_cmd cmd w) as [[[rc out] err] w']
    end.
    discriminate.
Qed.


(** X26.  [run] sleeps before the checkout subprocess or not at all: the
    calls it makes split into a first part without a subprocess and a second
    part without a call of [time.sleep]. *)
Theorem run_naps_before_checkout (st st' : State W) (r : Exn + Z) :
  run st = (r, st') ->
  exists before after,
    trace st' = (trace st ++ before ++ after)%list /\
    Forall no_subprocess before /\ Forall no_sleep after.
Proof.
  unfold run. unfold bind at 1.
  destruct (do_checkout st) as [[e|[[[b l] rc] out]] st1] eqn:Hco.
  - intros [= <- <-]. apply do_checkout_raises in Hco.
    destruct (prepare_checkout_follows _ _ _ _ eq_refl Hco)
      as [(_ & _ & _ & evs & Hevs & Hq) _].
    exists evs, []. rewrite app_nil_r. auto.
  - intros Hafter.
    destruct (do_checkout_inv _ _ _ _ _ _ Hco) as (s0 & cmd & err & Hprep & _ & _ & Htr).
    destruct (prepare_checkout_follows _ _ _ _ eq_refl Hprep)
      as [(_ & _ & _ & evs & Hevs & Hq) _].
    destruct (after_checkout_no_sleep _ _ _ _ _ _ _ _ eq_refl Hafter)
      as [(_ & _ & _ & evs' & Hevs' & Hq') _].
    exists evs,
      ([Debug "running ansible with VCS module to checkout repo";
        Vvvv ("EXEC: " +:+ cmd); RunCmd cmd] ++ evs')%list.
    split; [|split; [exact Hq|]].
    + rewrite Hevs', Htr, Hevs, <- !app_assoc. reflexivity.
    + apply Forall_app. split; [repeat constructor|exact Hq'].
Qed.

End RunExtras.

(** ** Further worked examples on the small platform *)

Section FurtherExamples.
Import Sim.

(** [-d /srv/pull/local.yml] names a file: [parse] raises. *)
Lemma parse_rejects_non_directory_witness :
  os_path_exists "/srv/pull/local.yml" (world file_dest_state) = true /\
  os_path_isdir "/srv/pull/local.yml" (world file_dest_state) = false /\
  fst (parse 7 file_dest_state)
  = inl (AnsibleOptionsError "/srv/pull/local.yml is not a valid or accessible directory.").
Proof.
  assert (Hex : os_path_exists (resolved_dest (options (self file_dest_state)))
                  (world file_dest_state) = true) by (vm_compute; reflexivity).
  assert (Hdir : os_path_isdir (resolved_dest (options (self file_dest_state)))
                   (world file_dest_state) = false) by (vm_compute; reflexivity).
  split; [exact Hex|]. split; [exact Hdir|].
  destruct (parse_rejects_non_directory 7 file_dest_state Hex Hdir) as (st' & Hp & _).
  rewrite Hp. reflexivity.
Defined.

(** A successful [parse]: the host is as it was and the one call logged is
    the assignment of the verbosity. *)
Lemma parse_effects_witness :
  parse 7 git_state = (inr tt, snd (parse 7 git_state)) /\
  world (snd (parse 7 git_state)) = world git_state /\
  trace (snd (parse 7 git_state)) = [SetVerbosity 0].
Proof.
  assert (Hp : parse 7 git_state = (inr tt, snd (parse 7 git_state)))
    by (vm_compute; reflexivity).
  split; [exact Hp|].
  destruct (parse_effects 7 git_state _ _ Hp) as (Hw & _ & _ & _ & Htr).
  split; [exact Hw|]. exact (Htr eq_refl).
Defined.

(** No [-U], with an acceptable destination and sleep interval. *)
Lemma parse_requires_url_witness :
  Py.truthy_str (url (options (self no_url_state))) = false /\
  fst (parse 7 no_url_state)
  = inl (AnsibleOptionsError "URL for repository not specified, use -h for help").
Proof.
  split; [reflexivity|].
  destruct (parse_requires_url 7 no_url_state eq_refl) as [_ Hurl].
  rewrite (Hurl (snd ((resolve_dest ;; resolve_sleep 7) no_url_state))).
  - reflexivity.
  - vm_compute. reflexivity.
Defined.

(** [-a name=<url>] with [-U <url>]: what holds once [parse] has returned. *)
Lemma parse_postconditions_witness :
  parse 7 name_state = (inr tt, snd (parse 7 name_state)) /\
  Py.truthy_str (url (options (self (snd (parse 7 name_state))))) = true /\
  module_name (options (self (snd (parse 7 name_state)))) = "git" /\
  scm_args (self (snd (parse 7 name_state))) !! "dest" = None /\
  sleep_resolved (sleep (options (self (snd (parse 7 name_state))))).
Proof.
  assert (Hp : parse 7 name_state = (inr tt, snd (parse 7 name_state)))
    by (vm_compute; reflexivity).
  split; [exact Hp|].
  destruct (parse_postconditions 7 name_state _ Hp) as (Hu & Hm & _ & Hd & _ & _ & Hs).
  auto.
Defined.

(** [-m hg -a repo=elsewhere]: the module is refused; the [repo] entry is
    not compared with the URL. *)
Lemma repo_conflict_unreachable_witness :
  scm_args (self hg_repo_state) !! "repo" = Some "elsewhere" /\
  (check_module_name ;; check_reserved_keys) hg_repo_state
  = (inl (AnsibleOptionsError "Unsupported repo module hg, choices are git"), hg_repo_state) /\
  inl (AnsibleOptionsError "Unsupported repo module hg, choices are git")
  <> inl (B := unit) (AnsibleOptionsError repo_conflict_msg).
Proof.
  assert (Hr : (check_module_name ;; check_reserved_keys) hg_repo_state
               = (inl (AnsibleOptionsError "Unsupported repo module hg, choices are git"),
                  hg_repo_state))
    by (vm_compute; reflexivity).
  split; [vm_compute; reflexivity|]. split; [exact Hr|].
  destruct (repo_conflict_unreachable _ _ _ Hr) as [Hne _]. exact Hne.
Defined.

(** Two inventories that are neither lists of hosts nor existing paths: the
    checkout falls back to [localhost,]. *)
Lemma get_inv_cli_closed_witness :
  inventory (options (self inventory_state)) = [InvStr "hosts.ini"; InvStr "staging"] /\
  get_inv_cli inventory_state = (inr EmptyString, inventory_state) /\
  inv_opts_of EmptyString = " -i localhost, ".
Proof.
  split; [reflexivity|].
  destruct (get_inv_cli_closed inventory_state) as [_ Hnone].
  apply Hnone.
  constructor; [|constructor; [|constructor]];
    eexists; (split; [reflexivity|split; vm_compute; reflexivity]).
Defined.

(** [/etc/site.yml] is asked for: it is returned as it is, not looked for
    under [/srv/pull]. *)
Lemma select_playbook_absolute_witness :
  args (self absolute_state) = [Some "/etc/site.yml"] /\
  Py.startswith "/" "/etc/site.yml" = true /\
  usable absolute_state "/etc/site.yml" = true /\
  select_playbook "/srv/pull" absolute_state = (inr (Some "/etc/site.yml"), absolute_state).
Proof.
  assert (Huse : usable absolute_state "/etc/site.yml" = true) by (vm_compute; reflexivity).
  split; [reflexivity|]. split; [reflexivity|]. split; [exact Huse|].
  exact (select_playbook_absolute absolute_state "/srv/pull" "/etc/site.yml" []
           eq_refl eq_refl Huse).
Defined.

(** [-m cvs] reaches [run]: the error of line 208, with the map untouched. *)
Lemma reconcile_raises_iff_unsupported_witness :
  py_in "cvs" REPO_CHOICES = false /\
  reconcile_scm_args (module_state "cvs")
  = (inl (AnsibleOptionsError
            "Unsupported (cvs) SCM module for pull, choices are: git,subversion,hg,bzr"),
     module_state "cvs").
Proof.
  assert (Hout : py_in (module_name (options (self (module_state "cvs")))) REPO_CHOICES
                 = false) by (vm_compute; reflexivity).
  split; [exact Hout|].
  destruct (reconcile_raises_iff_unsupported (module_state "cvs")) as [_ Hbad].
  exact (Hbad Hout).
Defined.

(** [umask=022] is handed to the module as it was given. *)
Lemma reconcile_passes_other_keys_witness :
  py_in (module_name (options (self (flagged_state "git")))) REPO_CHOICES = true /\
  ("umask" ∉ managed_keys) /\
  exists st',
    reconcile_scm_args (flagged_state "git") = (inr tt, st') /\
    scm_args (self st') !! "umask" = Some "022".
Proof.
  assert (Hin : py_in (module_name (options (self (flagged_state "git")))) REPO_CHOICES
                = true) by (vm_compute; reflexivity).
  assert (Hk : "umask" ∉ managed_keys)
    by (apply (bool_decide_unpack _); vm_compute; exact I).
  split; [exact Hin|]. split; [exact Hk|].
  destruct (reconcile_passes_other_keys (flagged_state "git") "umask" Hin Hk)
    as (st' & Hrec & Hsame).
  exists st'. split; [exact Hrec|]. rewrite Hsame. vm_compute. reflexivity.
Defined.

(** [-m hg] with [dest], [name] and [repo] in the map: [dest] and [repo] are
    overwritten, [name] is kept. *)
Lemma reconcile_identity_keys_witness :
  py_in (module_name (options (self (flagged_state "hg")))) REPO_CHOICES = true /\
  scm_args (self (flagged_state "hg")) !! "repo" = Some "mirror" /\
  exists st',
    reconcile_scm_args (flagged_state "hg") = (inr tt, st') /\
    scm_args (self st') !! "dest" = Some "/srv/pull" /\
    scm_args (self st') !! "name" = Some "mirror" /\
    scm_args (self st') !! "repo" = Some repo_url.
Proof.
  assert (Hin : py_in (module_name (options (self (flagged_state "hg")))) REPO_CHOICES
                = true) by (vm_compute; reflexivity).
  split; [exact Hin|]. split; [vm_compute; reflexivity|].
  destruct (reconcile_identity_keys (flagged_state "hg") Hin)
    as (st' & Hrec & Hd & Hn & Hr).
  exists st'. split; [exact Hrec|].
  rewrite Hd, Hn, Hr. repeat split; vm_compute; reflexivity.
Defined.

(** [-m subversion -C v1.2 --clean] with [version=old revision=7]: the
    revision is replaced, the version is kept, [force=yes] is added. *)
Lemma reconcile_checkout_and_clean_witness :
  py_in (module_name (options (self (flagged_state "subversion")))) REPO_CHOICES = true /\
  exists st',
    reconcile_scm_args (flagged_state "subversion") = (inr tt, st') /\
    scm_args (self st') !! "revision" = Some "v1.2" /\
    scm_args (self st') !! "version" = Some "old" /\
    scm_args (self st') !! "force" = Some "yes".
Proof.
  assert (Hin : py_in (module_name (options (self (flagged_state "subversion"))))
                  REPO_CHOICES = true) by (vm_compute; reflexivity).
  split; [exact Hin|].
  destruct (reconcile_checkout_and_clean (flagged_state "subversion") Hin)
    as (st' & Hrec & Hkey & Hother & Hforce).
  exists st'. split; [exact Hrec|]. split; [|split].
  - refine (eq_trans Hkey _). vm_compute. reflexivity.
  - rewrite (Hother "version"); [vm_compute; reflexivity|left; reflexivity|].
    vm_compute. discriminate.
  - rewrite Hforce. vm_compute. reflexivity.
Defined.

(** [-m git] with the four flags: each sets its entry. *)
Lemma reconcile_git_flags_witness :
  module_name (options (self (flagged_state "git"))) = "git" /\
  exists st',
    reconcile_scm_args (flagged_state "git") = (inr tt, st') /\
    scm_args (self st') !! "accept_hostkey" = Some "yes" /\
    scm_args (self st') !! "key_file" = Some "/root/.ssh/id_deploy" /\
    scm_args (self st') !! "track_submodules" = Some "yes" /\
    scm_args (self st') !! "verify_commit" = Some "yes".
Proof.
  split; [reflexivity|].
  destruct (reconcile_git_flags (flagged_state "git") eq_refl)
    as (st' & Hrec & Ha & Hk & Ht & Hv).
  exists st'. split; [exact Hrec|].
  rewrite Ha, Hk, Ht, Hv. repeat split; vm_compute; reflexivity.
Defined.

(** [-m bzr --full] with [depth=3]: the entry is left alone. *)
Lemma reconcile_ignores_git_flags_witness :
  py_in (module_name (options (self (flagged_state "bzr")))) REPO_CHOICES = true /\
  module_name (options (self (flagged_state "bzr"))) <> "git" /\
  fullclone (options (self (flagged_state "bzr"))) = true /\
  exists st',
    reconcile_scm_args (flagged_state "bzr") = (inr tt, st') /\
    scm_args (self st') !! "depth" = Some "3".
Proof.
  assert (Hin : py_in (module_name (options (self (flagged_state "bzr")))) REPO_CHOICES
                = true) by (vm_compute; reflexivity).
  assert (Hng : module_name (options (self (flagged_state "bzr"))) <> "git")
    by (apply (bool_decide_unpack _); vm_compute; exact I).
  assert (Hk : "depth" ∈ ["accept_hostkey"; "depth"; "key_file"; "track_submodules";
                          "verify_commit"])
    by (apply (bool_decide_unpack _); vm_compute; exact I).
  split; [exact Hin|]. split; [exact Hng|]. split; [reflexivity|].
  destruct (reconcile_ignores_git_flags (flagged_state "bzr") "depth" Hin Hng Hk)
    as (st' & Hrec & Hsame).
  exists st'. split; [exact Hrec|]. rewrite Hsame. vm_compute. reflexivity.
Defined.

(** [-m subversion --full] with [export=no]: the entry is removed. *)
Lemma reconcile_subversion_export_witness :
  py_in (module_name (options (self (flagged_state "subversion")))) REPO_CHOICES = true /\
  scm_args (self (flagged_state "subversion")) !! "export" = Some "no" /\
  exists st',
    reconcile_scm_args (flagged_state "subversion") = (inr tt, st') /\
    scm_args (self st') !! "export" = None.
Proof.
  assert (Hin : py_in (module_name (options (self (flagged_state "subversion"))))
                  REPO_CHOICES = true) by (vm_compute; reflexivity).
  split; [exact Hin|]. split; [vm_compute; reflexivity|].
  destruct (reconcile_subversion_export (flagged_state "subversion") Hin)
    as (st' & Hrec & Hsvn & _).
  exists st'. split; [exact Hrec|]. rewrite (Hsvn eq_refl). reflexivity.
Defined.

(** [-m git] with every flag set and [version], [depth] and [accept_hostkey]
    in the map: three warnings, in this order. *)
Lemma reconcile_warnings_exact_witness :
  py_in (module_name (options (self (flagged_state "git")))) REPO_CHOICES = true /\
  exists st',
    reconcile_scm_args (flagged_state "git") = (inr tt, st') /\
    trace st' = [Warning (checkout_overridden_msg "version");
                 Warning accept_hostkey_msg;
                 Warning depth_removed_msg].
Proof.
  assert (Hin : py_in (module_name (options (self (flagged_state "git")))) REPO_CHOICES
                = true) by (vm_compute; reflexivity).
  split; [exact Hin|].
  destruct (reconcile_warnings_exact (flagged_state "git") Hin) as (st' & Hrec & Htr).
  exists st'. split; [exact Hrec|]. rewrite Htr. vm_compute. reflexivity.
Defined.

(** No module is installed: [run] raises before the checkout. *)
Lemma run_module_not_found_witness :
  py_in (module_name (options (self (module_state "git")))) REPO_CHOICES = true /\
  @module_loader_find_plugin World unpackaged "git" = None /\
  fst (@run World unpackaged (module_state "git"))
  = inl (AnsibleOptionsError ("module 'git' not found." +:+ Py.newline)).
Proof.
  assert (Hin : py_in (module_name (options (self (module_state "git")))) REPO_CHOICES
                = true) by (vm_compute; reflexivity).
  split; [exact Hin|]. split; [reflexivity|].
  destruct (@run_module_not_found World unpackaged (module_state "git") Hin eq_refl)
    as (st' & Hrun & _).
  rewrite Hrun. reflexivity.
Defined.

(** A run that stops after a failed checkout. *)
Lemma run_keeps_options_witness :
  run failing_state = (inr 1, snd (run failing_state)) /\
  options (self (snd (run failing_state))) = options (self failing_state) /\
  args (self (snd (run failing_state))) = args (self failing_state).
Proof.
  assert (Hrun : run failing_state = (inr 1, snd (run failing_state)))
    by (vm_compute; reflexivity).
  split; [exact Hrun|].
  exact (run_keeps_options _ _ _ Hrun).
Defined.

(** A run that checks out and plays [local.yml]. *)
Lemma run_subprocesses_witness :
  run (module_state "git") = (inr 0, snd (run (module_state "git"))) /\
  exists cmds,
    commands (trace (snd (run (module_state "git"))))
    = (commands (trace (module_state "git")) ++ cmds)%list /\
    ((cmds = [] /\ exists e, inr (A := Exn) 0 = inl e) \/
     (exists c, cmds = [c] /\ Py.startswith (bin_path +:+ "/ansible ") c = true) \/
     (exists c p, cmds = [c; p] /\
                  Py.startswith (bin_path +:+ "/ansible ") c = true /\
                  Py.startswith (bin_path +:+ "/ansible-playbook ") p = true)).
Proof.
  assert (Hrun : run (module_state "git") = (inr 0, snd (run (module_state "git"))))
    by (vm_compute; reflexivity).
  split; [exact Hrun|].
  exact (run_subprocesses _ _ _ Hrun).
Defined.

(** The same run, without [--purge]. *)
Lemma run_without_purge_keeps_checkout_witness :
  purge (options (self (module_state "git"))) = false /\
  run (module_state "git") = (inr 0, snd (run (module_state "git"))) /\
  exists evs,
    trace (snd (run (module_state "git"))) = (trace (module_state "git") ++ evs)%list /\
    Forall no_rmtree evs.
Proof.
  assert (Hrun : run (module_state "git") = (inr 0, snd (run (module_state "git"))))
    by (vm_compute; reflexivity).
  split; [reflexivity|]. split; [exact Hrun|].
  exact (run_without_purge_keeps_checkout (module_state "git") _ _ eq_refl Hrun).
Defined.

(** [-o], and the checkout reports a change: the playbook is run. *)
Lemma run_continues_when_changed_witness :
  ifchanged (options (self changed_state)) = true /\
  do_checkout changed_state
  = (inr ("-c local ", "localhost,web01.example.org,web01,127.0.0.1", 0,
          "localhost | SUCCESS => {" +:+ changed_marker +:+ "}"),
     snd (do_checkout changed_state)) /\
  run changed_state
  = run_playbook "-c local " "localhost,web01.example.org,web01,127.0.0.1"
      (snd (do_checkout changed_state)).
Proof.
  assert (Hco : do_checkout changed_state
                = (inr ("-c local ", "localhost,web01.example.org,web01,127.0.0.1", 0,
                        "localhost | SUCCESS => {" +:+ changed_marker +:+ "}"),
                   snd (do_checkout changed_state)))
    by (vm_compute; reflexivity).
  split; [reflexivity|]. split; [exact Hco|].
  apply (run_continues_when_changed _ _ _ _ _ Hco).
  right. exists "localhost | SUCCESS => {", "}". reflexivity.
Defined.

(** The playbook exits with code 0 and nothing is called after it. *)
Lemma execute_playbook_without_purge_witness :
  purge (options (self (module_state "git"))) = false /\
  os_chdir "/srv/pull" (world (module_state "git")) = (None, host) /\
  execute_playbook "/usr/bin/ansible-playbook -c local  /srv/pull/local.yml"
    (module_state "git")
  = (inr 0,
     mkState (self (module_state "git")) host
       [Chdir "/srv/pull"; Debug "running ansible-playbook to do actual work";
        Debug "EXEC: /usr/bin/ansible-playbook -c local  /srv/pull/local.yml";
        RunCmd "/usr/bin/ansible-playbook -c local  /srv/pull/local.yml"]).
Proof.
  assert (Hcd : os_chdir (dest (options (self (module_state "git"))))
                  (world (module_state "git")) = (None, host))
    by (vm_compute; reflexivity).
  split; [reflexivity|]. split; [exact Hcd|].
  pose proof (execute_playbook_without_purge (module_state "git")
                "/usr/bin/ansible-playbook -c local  /srv/pull/local.yml"
                None host eq_refl Hcd) as Hx.
  cbv beta iota zeta in Hx. rewrite Hx. vm_compute. reflexivity.
Defined.


(** No playbook in [/srv/pull]: one warning, then the error. *)
Lemma run_playbook_outcome_witness :
  exists msg,
    run_playbook "-c local " "localhost" bare_state
    = (inl (AnsibleOptionsError "Could not find a playbook to run."),
       log (Warning msg) bare_state).
Proof.
  destruct (run_playbook_outcome "-c local " "localhost" bare_state)
    as (found & st1 & Hsel & Hcase).
  assert (Hnone : select_playbook (dest (options (self bare_state))) bare_state
                  = (inr None,
                     snd (select_playbook (dest (options (self bare_state))) bare_state)))
    by (vm_compute; reflexivity).
  rewrite Hnone in Hsel. injection Hsel as <- <-.
  destruct Hcase as [[msg Hst] Hrun].
  exists msg. rewrite Hrun, Hst. reflexivity.
Defined.


(** A run that naps for 5 seconds, checks out and plays [local.yml]. *)
Lemma run_naps_before_checkout_witness :
  run napping_state = (inr 0, snd (run napping_state)) /\
  trace (snd (run napping_state)) !! 3%nat = Some (Sleep 5) /\
  exists before after,
    trace (snd (run napping_state)) = (trace napping_state ++ before ++ after)%list /\
    Forall no_subprocess before /\ Forall no_sleep after.
Proof.
  assert (Hrun : run napping_state = (inr 0, snd (run napping_state)))
    by (vm_compute; reflexivity).
  split; [exact Hrun|].
  split; [vm_compute; reflexivity|].
  exact (run_naps_before_checkout _ _ _ Hrun).
Defined.

End FurtherExamples.
